(** * Vietnam personal income tax calculator: the calculation core

    A shallow embedding of the pure functions of

      - [packages/cli/ui/tui.go]           (the terminal wizard, module [Go]),
      - [packages/app/src/pages/index.tsx] (the browser form, module [TS]),

    and the properties their specification states about them.  Modules
    [Page] and [Wizard] add the state that surrounds the calculation: the
    query string and the warning of the form, the steps, keys and export of
    the wizard, with what they take from their libraries as a class; the
    part "Further properties" states what the code shows beyond the
    specification.

    Numbers.  Both programs compute on IEEE binary64 values ([float64] in Go,
    [number] in TypeScript).  Following section 3 of the specification
    ("non-negative real numbers ... no rounding is applied internally") the
    development idealises them as exact rationals [Q]; [+Infinity], which the
    TypeScript bracket table uses, is the one non-finite value that is
    modelled.  Equality of amounts is therefore [Qeq] ([==]), and the
    theorems below are theorems of exact arithmetic.  Module [Binary64]
    repeats the functions on Rocq's primitive binary64 floats; the last
    section runs the concrete inputs of the development on it and records
    where rounding makes the computed amounts behave differently. *)

From Stdlib Require Import String QArith Qminmax Qreduction Lqa.
From Stdlib Require Import ZArith List Bool Lia Permutation Sorted.
From Stdlib Require Import Qround DecimalString.
From Corelib Require PrimFloat.
Import ListNotations.

Local Open Scope Q_scope.

(* ================================================================== *)
(** ** Comparisons on amounts *)

(** [a < b] and [a <= b] as the programs test them. *)
Definition Qltb (a b : Q) : bool := negb (Qle_bool b a).
Definition Qleb (a b : Q) : bool := Qle_bool a b.

(* ================================================================== *)
(** ** Domain types (tui.go 18-38, index.tsx 8-20) *)

Inductive Period := Monthly | Annual.
Inductive SalaryMode := Gross | Net.

(** A bracket limit is a width of income; the TypeScript table ends with
    [Infinity], the Go table with the finite [1e18]. *)
Inductive limit := Finite (w : Q) | Infinity.

Record TaxBracket := { Limit : limit; Rate : Q }.

(** Go's [TaxBreakdown{Rate, Taxable, Tax}], TypeScript's
    [TaxBreakdownItem{rate, taxable, tax}]. *)
Record TaxBreakdown := { rate : Q; taxable : Q; tax : Q }.

(* ================================================================== *)
(** ** Constants (tui.go 44-60, index.tsx 26-44) *)

Definition PersonalDeduction : Q := 11000000.
Definition DependentDeduction : Q := 4400000.
Definition InsuranceCap : Q := 36000000.

(** The rate tables are maps from a contribution name to a rate; they are
    only ever summed, so an association list keeps the iteration order
    explicit. *)
Definition EmployeeInsurance : list (string * Q) :=
  [("BHXH"%string, 0.08); ("BHYT"%string, 0.015); ("BHTN"%string, 0.01)].

Definition EmployerInsurance : list (string * Q) :=
  [("BHXH"%string, 0.175); ("BHYT"%string, 0.03); ("BHTN"%string, 0.01)].

(* ================================================================== *)
(** ** Pure functions shared by both programs *)

(** tui.go 76-81, index.tsx 60-61. *)
Definition toMonthly (v : Q) (p : Period) : Q :=
  match p with
  | Annual => v / 12
  | Monthly => v
  end.

(** tui.go 83-89 ([s := 0.0; for _, v := range r { s += v }]),
    index.tsx 63-64 ([Object.values(rates).reduce((a, b) => a + b, 0)]). *)
Definition sumRates (r : list (string * Q)) : Q :=
  fold_left (fun s kv => s + snd kv) r 0.

(** tui.go 133-144; [Math.min] and [Math.max] of index.tsx on finite
    numbers. *)
Definition min (a b : Q) : Q := if Qltb a b then a else b.
Definition max (a b : Q) : Q := if Qltb b a then a else b.

(** [min(b.Limit, remain)]: against [Infinity] the other operand wins. *)
Definition min_limit (l : limit) (r : Q) : Q :=
  match l with
  | Finite w => min w r
  | Infinity => r
  end.

(** The bracket loop of [calculateTax] (tui.go 106-115) and of
    [calculateTaxBreakdown] (index.tsx 76-90), as a recursion over the
    brackets still to visit that threads the three loop variables.  The
    first bracket reached with [remain <= 0] breaks out of the loop. *)
Fixpoint bracket_loop (bs : list TaxBracket)
    (out : list TaxBreakdown) (remain total : Q)
  : list TaxBreakdown * Q * Q :=
  match bs with
  | [] => (out, remain, total)
  | b :: bs' =>
      if Qleb remain 0 then (out, remain, total)
      else
        let apply := min_limit (Limit b) remain in
        let tax := apply * Rate b in
        bracket_loop bs'
          (out ++ [{| rate := Rate b; taxable := apply; tax := tax |}])
          (remain - apply) (total + tax)
  end.

(** A counted loop [for i := 0; i < n; i++ { gross = body gross }]: the body
    runs once for each value of [i], whatever [gross] is. *)
Definition for_range (n : nat) (body : Q -> Q) (gross : Q) : Q :=
  fold_left (fun g (_ : nat) => body g) (seq 0 n) gross.

(* ================================================================== *)
(** ** The terminal wizard, [packages/cli/ui/tui.go] *)

Module Go.

(** tui.go 62-70. *)
Definition TaxBrackets : list TaxBracket :=
  [ {| Limit := Finite 5000000;  Rate := 0.05 |};
    {| Limit := Finite 5000000;  Rate := 0.10 |};
    {| Limit := Finite 8000000;  Rate := 0.15 |};
    {| Limit := Finite 14000000; Rate := 0.20 |};
    {| Limit := Finite 20000000; Rate := 0.25 |};
    {| Limit := Finite 28000000; Rate := 0.30 |};
    {| Limit := Finite 1000000000000000000 (* 1e18 *); Rate := 0.35 |} ].

(** tui.go 91-99. *)
Definition clampInsuranceBase (gross : Q) (enabled : bool) : Q :=
  if negb enabled then 0
  else if Qltb InsuranceCap gross then InsuranceCap
  else gross.

(** tui.go 101-117; [calculateTax_state] also exposes the loop variable
    [remain] as it stands when the loop is left. *)
Definition calculateTax_state (taxable : Q) : list TaxBreakdown * Q * Q :=
  bracket_loop TaxBrackets [] taxable 0.

Definition calculateTax (taxable : Q) : list TaxBreakdown * Q :=
  let '(out, _, total) := calculateTax_state taxable in (out, total).

(** The body of the loop of [solveGrossFromNet], tui.go 122-128. *)
Definition solve_body (targetNet : Q) (dependents : Z) (insurance : bool)
    (gross : Q) : Q :=
  let base := clampInsuranceBase gross insurance in
  let ins := base * sumRates EmployeeInsurance in
  let deductions :=
    PersonalDeduction + inject_Z dependents * DependentDeduction + ins in
  let taxable := max 0 (gross - deductions) in
  let '(_, tax) := calculateTax taxable in
  let net := gross - ins - tax in
  gross + (targetNet - net).

(** tui.go 119-131: the last guess is returned as it is. *)
Definition solveGrossFromNet (targetNet : Q) (dependents : Z)
    (insurance : bool) : Q :=
  let gross := targetNet in
  let gross := for_range 20 (solve_body targetNet dependents insurance) gross in
  gross.

(** The fields of the wizard's [model] that the computation reads
    (tui.go 161-169). *)
Record model := {
  mode : SalaryMode;
  period : Period;
  income : Q;
  dependents : Z;
  insurance : bool
}.

(** The amounts [resultView] computes before it formats them
    (tui.go 340-346). *)
Record Result := {
  gross : Q;
  base : Q;
  empIns : Q;
  deductions : Q;
  taxable_income : Q;
  breakdown : list TaxBreakdown;
  total_tax : Q;
  net : Q
}.

(** tui.go 340-346, from a gross monthly salary. *)
Definition result_of_gross (gross : Q) (dependents : Z) (insurance : bool)
  : Result :=
  let base := clampInsuranceBase gross insurance in
  let empIns := base * sumRates EmployeeInsurance in
  let deductions :=
    PersonalDeduction + inject_Z dependents * DependentDeduction + empIns in
  let taxable := max 0 (gross - deductions) in
  let '(breakdown, tax) := calculateTax taxable in
  let net := gross - empIns - tax in
  {| gross := gross; base := base; empIns := empIns;
     deductions := deductions; taxable_income := taxable;
     breakdown := breakdown; total_tax := tax; net := net |}.

(** tui.go 332-346. *)
Definition resultView (m : model) : Result :=
  let gross :=
    match mode m with
    | Gross => toMonthly (income m) (period m)
    | Net => solveGrossFromNet (income m) (dependents m) (insurance m)
    end in
  result_of_gross gross (dependents m) (insurance m).

End Go.

(* ================================================================== *)
(** ** The browser form, [packages/app/src/pages/index.tsx] *)

Module TS.

(** index.tsx 46-54. *)
Definition TAX_BRACKETS : list TaxBracket :=
  [ {| Limit := Finite 5000000;  Rate := 0.05 |};
    {| Limit := Finite 5000000;  Rate := 0.1 |};
    {| Limit := Finite 8000000;  Rate := 0.15 |};
    {| Limit := Finite 14000000; Rate := 0.2 |};
    {| Limit := Finite 20000000; Rate := 0.25 |};
    {| Limit := Finite 28000000; Rate := 0.3 |};
    {| Limit := Infinity;        Rate := 0.35 |} ].

(** index.tsx 66-67. *)
Definition clampInsuranceBase (gross : Q) (enabled : bool) : Q :=
  if enabled then min gross InsuranceCap else 0.

(** index.tsx 69-93; [calculateTaxBreakdown_state] also exposes
    [remaining]. *)
Definition calculateTaxBreakdown_state (taxableIncome : Q)
  : list TaxBreakdown * Q * Q :=
  bracket_loop TAX_BRACKETS [] taxableIncome 0.

Definition calculateTaxBreakdown (taxableIncome : Q)
  : list TaxBreakdown * Q :=
  let '(breakdown, _, totalTax) :=
    calculateTaxBreakdown_state taxableIncome in
  (breakdown, totalTax).

(** The body of the loop of [solveGrossFromNet], index.tsx 104-114. *)
Definition solve_body (targetNet : Q) (dependents : Z)
    (insuranceEnabled : bool) (gross : Q) : Q :=
  let insuranceBase := clampInsuranceBase gross insuranceEnabled in
  let insurance := insuranceBase * sumRates EmployeeInsurance in
  let deductions :=
    PersonalDeduction + inject_Z dependents * DependentDeduction + insurance in
  let taxable := max 0 (gross - deductions) in
  let '(_, totalTax) := calculateTaxBreakdown taxable in
  let net := gross - insurance - totalTax in
  gross + (targetNet - net).

(** index.tsx 96-118: the last guess goes through [Math.max(0, gross)]. *)
Definition solveGrossFromNet (targetNet : Q) (dependents : Z)
    (insuranceEnabled : bool) : Q :=
  let gross := targetNet in
  let gross :=
    for_range 20 (solve_body targetNet dependents insuranceEnabled) gross in
  max 0 gross.

(** A JavaScript number that may be the outcome of a division. *)
Inductive number := Num (q : Q) | PosInfinity | NegInfinity | NaN.

(** [a / b]: a zero divisor yields an infinity or [NaN], no exception. *)
Definition div (a b : Q) : number :=
  if Qeq_bool b 0 then
    if Qeq_bool a 0 then NaN
    else if Qltb 0 a then PosInfinity else NegInfinity
  else Num (a / b).

(** Truthiness of a finite number: anything but zero. *)
Definition truthy (x : Q) : bool := negb (Qeq_bool x 0).

(** The object built by the [useMemo] callback, index.tsx 197-211. *)
Record Data := {
  grossMonthly : Q;
  insuranceBase : Q;
  employeeInsurance : Q;
  employerInsurance : Q;
  personalDeduction : Q;
  dependentDeduction : Q;
  totalDeductions : Q;
  taxableIncome : Q;
  breakdown : list TaxBreakdown;
  totalTax : Q;
  netMonthly : Q;
  effectiveTaxRate : number;
  totalLaborCost : Q
}.

(** index.tsx 177-211, from the monthly gross salary. *)
Definition data_of_gross (grossMonthly : Q) (dependents : Z)
    (insuranceEnabled : bool) : Data :=
  let insuranceBase := clampInsuranceBase grossMonthly insuranceEnabled in
  let employeeInsurance := insuranceBase * sumRates EmployeeInsurance in
  let employerInsurance := insuranceBase * sumRates EmployerInsurance in
  let personalDeduction := PersonalDeduction in
  let dependentDeduction := inject_Z dependents * DependentDeduction in
  let totalDeductions :=
    personalDeduction + dependentDeduction + employeeInsurance in
  let taxableIncome := max 0 (grossMonthly - totalDeductions) in
  let '(breakdown, totalTax) := calculateTaxBreakdown taxableIncome in
  let netMonthly := grossMonthly - employeeInsurance - totalTax in
  {| grossMonthly := grossMonthly;
     insuranceBase := insuranceBase;
     employeeInsurance := employeeInsurance;
     employerInsurance := employerInsurance;
     personalDeduction := personalDeduction;
     dependentDeduction := dependentDeduction;
     totalDeductions := totalDeductions;
     taxableIncome := taxableIncome;
     breakdown := breakdown;
     totalTax := totalTax;
     netMonthly := netMonthly;
     effectiveTaxRate :=
       if truthy grossMonthly then div totalTax grossMonthly else Num 0;
     totalLaborCost := grossMonthly + employerInsurance |}.

(** index.tsx 171-211. *)
Definition data (salaryMode : SalaryMode) (period : Period) (income : Q)
    (dependents : Z) (insuranceEnabled : bool) : Data :=
  let grossBase :=
    match salaryMode with
    | Gross => income
    | Net => solveGrossFromNet income dependents insuranceEnabled
    end in
  let grossMonthly := toMonthly grossBase period in
  data_of_gross grossMonthly dependents insuranceEnabled.

End TS.

(* ================================================================== *)
(** ** The browser form: state, query string and warning *)

Module Page.

(** The state of the component (index.tsx 150-156).  [period] and
    [salaryMode] are strings at run time: [readInitialState] casts what the
    query holds without looking at it. *)
Record State := {
  income : TS.number;
  dependents : TS.number;
  period : string;
  salaryMode : string;
  insuranceEnabled : bool
}.

(** [URLSearchParams] as the decoded pairs of the query, in their order. *)
Definition URLSearchParams := list (string * string).

(** [p.get(k)]: the value of the first pair with the key, or [null]. *)
Fixpoint get (p : URLSearchParams) (k : string) : option string :=
  match p with
  | [] => None
  | (k', v) :: p' => if String.eqb k' k then Some v else get p' k
  end.

(** What the page takes from the JavaScript runtime: [Number(s)] of a
    string and [n.toString()] of a number. *)
Class Runtime := {
  Number_of_string : string -> TS.number;
  toString : TS.number -> string
}.

(** [Number(v)] of a string or [null]; [Number(null)] is [0]. *)
Definition Number {R : Runtime} (v : option string) : TS.number :=
  match v with
  | Some s => Number_of_string s
  | None => TS.Num 0
  end.

(** Truthiness of a number: anything but zero and [NaN]. *)
Definition truthy_number (n : TS.number) : bool :=
  match n with
  | TS.Num q => TS.truthy q
  | TS.NaN => false
  | TS.PosInfinity | TS.NegInfinity => true
  end.

(** [a || b] on numbers, and on a string or [null] against a string. *)
Definition or_number (a b : TS.number) : TS.number :=
  if truthy_number a then a else b.

Definition or_string (a : option string) (b : string) : string :=
  match a with
  | Some s => if String.eqb s "" then b else s
  | None => b
  end.

(** index.tsx 129-141, from the parameters of the query. *)
Definition readInitialState {R : Runtime} (p : URLSearchParams) : State :=
  {| income := or_number (Number (get p "income")) (TS.Num 20000000);
     dependents := or_number (Number (get p "dep")) (TS.Num 0);
     period := or_string (get p "period") "monthly";
     salaryMode := or_string (get p "mode") "gross";
     insuranceEnabled :=
       negb (match get p "ins" with
             | Some s => String.eqb s "0"
             | None => false
             end) |}.

(** The parameters that the effect of index.tsx 159-169 puts in the
    address of the page. *)
Definition syncURL {R : Runtime} (s : State) : URLSearchParams :=
  [ ("income"%string, toString (income s));
    ("dep"%string, toString (dependents s));
    ("period"%string, period s);
    ("mode"%string, salaryMode s);
    ("ins"%string, if insuranceEnabled s then "1"%string else "0"%string) ].

(** The condition of the warning that the insurance cap applies
    (index.tsx 327). *)
Definition capWarning (insuranceEnabled : bool) (data : TS.Data) : bool :=
  insuranceEnabled && Qltb (TS.insuranceBase data) (TS.grossMonthly data).

End Page.

(* ================================================================== *)
(** ** The wizard: steps, keys and export (tui.go 150-286, 362-371) *)

Module Wizard.

(** tui.go 150-159. *)
Inductive step :=
  | stepMode | stepPeriod | stepIncome | stepDependents | stepInsurance
  | stepResult.

(** The value of the [iota] constant. *)
Definition index (s : step) : nat :=
  match s with
  | stepMode => 0
  | stepPeriod => 1
  | stepIncome => 2
  | stepDependents => 3
  | stepInsurance => 4
  | stepResult => 5
  end.

(** What the wizard takes from its libraries: the text input of bubbles
    with the operations the program calls on it, the messages of bubbletea
    that are not key presses, and the conversions of [strconv] and [fmt]
    with their errors dropped, as the program drops them. *)
Class Env := {
  textinput : Type;
  inputCmd : Type;
  otherMsg : Type;
  New : textinput;
  Focus : textinput -> textinput;
  setCharLimit : nat -> textinput -> textinput;
  setPlaceholder : string -> textinput -> textinput;
  SetValue : string -> textinput -> textinput;
  Value : textinput -> string;
  ParseFloat : string -> Q;
  Atoi : string -> Z;
  Sprintf_0f : Q -> string
}.

(** A message: a key press with the name of the key, or anything else. *)
Inductive Msg {E : Env} :=
  | KeyMsg (key : string)
  | Other (m : otherMsg).

(** A command: [nil], [tea.Quit], or one returned by the text input. *)
Inductive Cmd {E : Env} :=
  | CmdNil
  | CmdQuit
  | CmdInput (c : inputCmd).

(** tui.go 161-169. *)
Record model {E : Env} := {
  step_ : step;
  mode : SalaryMode;
  period : Period;
  income : Q;
  dependents : Z;
  insurance : bool;
  input : textinput
}.

(** What [exportCSV] hands to the csv writer, and for which file. *)
Record Written := { file : string; records : list (list string) }.

Section WithEnv.

Context {E : Env}.

(** The [Update] of the text input. *)
Variable input_Update : textinput -> Msg -> textinput * option inputCmd.

(** tui.go 183-195; the fields that are not set have their zero values. *)
Definition initialModel : model :=
  let ti := New in
  let ti := Focus ti in
  let ti := setCharLimit 20 ti in
  {| step_ := stepMode; mode := Gross; period := Monthly; income := 0;
     dependents := 0; insurance := true; input := ti |}.

(** tui.go 237-254. *)
Definition toggle (m : model) : model :=
  match step_ m with
  | stepMode =>
      {| step_ := step_ m;
         mode := match mode m with Gross => Net | Net => Gross end;
         period := period m; income := income m;
         dependents := dependents m; insurance := insurance m;
         input := input m |}
  | stepPeriod =>
      {| step_ := step_ m; mode := mode m;
         period := match period m with
                   | Monthly => Annual
                   | Annual => Monthly
                   end;
         income := income m; dependents := dependents m;
         insurance := insurance m; input := input m |}
  | stepInsurance =>
      {| step_ := step_ m; mode := mode m; period := period m;
         income := income m; dependents := dependents m;
         insurance := negb (insurance m); input := input m |}
  | _ => m
  end.

(** tui.go 362-371. *)
Definition exportCSV (m : model) : Written :=
  {| file := "pit-vietnam.csv";
     records := [["Gross"%string; Sprintf_0f (income m)]] |}.

(** tui.go 256-286; the third component is what the call wrote. *)
Definition next (m : model) : model * Cmd * option Written :=
  match step_ m with
  | stepMode =>
      ({| step_ := stepPeriod; mode := mode m; period := period m;
          income := income m; dependents := dependents m;
          insurance := insurance m; input := input m |}, CmdNil, None)
  | stepPeriod =>
      ({| step_ := stepIncome; mode := mode m; period := period m;
          income := income m; dependents := dependents m;
          insurance := insurance m;
          input := SetValue "" (setPlaceholder "Thu nhập (VND)" (input m)) |},
       CmdNil, None)
  | stepIncome =>
      ({| step_ := stepDependents; mode := mode m; period := period m;
          income := ParseFloat (Value (input m));
          dependents := dependents m; insurance := insurance m;
          input :=
            SetValue "" (setPlaceholder "Số người phụ thuộc" (input m)) |},
       CmdNil, None)
  | stepDependents =>
      ({| step_ := stepInsurance; mode := mode m; period := period m;
          income := income m; dependents := Atoi (Value (input m));
          insurance := insurance m; input := input m |}, CmdNil, None)
  | stepInsurance =>
      ({| step_ := stepResult; mode := mode m; period := period m;
          income := income m; dependents := dependents m;
          insurance := insurance m; input := input m |}, CmdNil, None)
  | stepResult => (m, CmdQuit, Some (exportCSV m))
  end.

(** tui.go 210-235. *)
Definition Update (m : model) (msg : Msg) : model * Cmd * option Written :=
  let pass :=
    match step_ m with
    | stepIncome | stepDependents =>
        let '(ti, cmd) := input_Update (input m) msg in
        ({| step_ := step_ m; mode := mode m; period := period m;
            income := income m; dependents := dependents m;
            insurance := insurance m; input := ti |},
         match cmd with Some c => CmdInput c | None => CmdNil end, None)
    | _ => (m, CmdNil, None)
    end in
  match msg with
  | KeyMsg key =>
      if String.eqb key "ctrl+c" || String.eqb key "q" then
        (m, CmdQuit, None)
      else if String.eqb key "up" || String.eqb key "down" then
        (toggle m, CmdNil, None)
      else if String.eqb key "enter" then next m
      else pass
  | Other _ => pass
  end.

(** The models that a sequence of messages leads through, whatever the
    commands are. *)
Definition run (m : model) (msgs : list Msg) : model :=
  fold_left (fun m msg => fst (fst (Update m msg))) msgs m.

(** The fields of the model that [resultView] computes from. *)
Definition answers (m : model) : Go.model :=
  {| Go.mode := mode m; Go.period := period m; Go.income := income m;
     Go.dependents := dependents m; Go.insurance := insurance m |}.

End WithEnv.

End Wizard.

(* ================================================================== *)
(** ** Views of the form and of the wizard *)

(** A runtime that prints and reads whole numbers in decimal. *)
Definition decimal_runtime : Page.Runtime :=
  {| Page.Number_of_string := fun s =>
       match NilZero.int_of_string s with
       | Some i => TS.Num (inject_Z (Z.of_int i))
       | None => TS.NaN
       end;
     Page.toString := fun n =>
       match n with
       | TS.Num q => NilZero.string_of_int (Z.to_int (Qnum q))
       | TS.PosInfinity => "Infinity"%string
       | TS.NegInfinity => "-Infinity"%string
       | TS.NaN => "NaN"%string
       end |}.

(** An environment of the wizard for whole amounts: the text input is the
    text typed so far, and numbers are read and printed in decimal. *)
Definition decimal_env : Wizard.Env :=
  {| Wizard.textinput := string;
     Wizard.inputCmd := unit;
     Wizard.otherMsg := unit;
     Wizard.New := ""%string;
     Wizard.Focus := fun ti => ti;
     Wizard.setCharLimit := fun _ ti => ti;
     Wizard.setPlaceholder := fun _ ti => ti;
     Wizard.SetValue := fun s _ => s;
     Wizard.Value := fun ti => ti;
     Wizard.ParseFloat := fun s =>
       match NilZero.int_of_string s with
       | Some i => inject_Z (Z.of_int i)
       | None => 0
       end;
     Wizard.Atoi := fun s =>
       match NilZero.int_of_string s with
       | Some i => Z.of_int i
       | None => 0%Z
       end;
     Wizard.Sprintf_0f := fun q =>
       NilZero.string_of_int (Z.to_int (Qfloor (q + (1 # 2)))) |}.

(** Its text input appends the key that was pressed. *)
Definition decimal_input_Update (ti : string)
    (msg : Wizard.Msg (E := decimal_env)) : string * option unit :=
  match msg with
  | Wizard.KeyMsg key => ((ti ++ key)%string, None)
  | Wizard.Other _ => (ti, None)
  end.

(** A model of the wizard in this environment, field by field. *)
Definition decimal_model
  : Wizard.step -> SalaryMode -> Period -> Q -> Z -> bool -> string ->
    Wizard.model (E := decimal_env) :=
  @Wizard.Build_model decimal_env.

Definition decimal_Update := @Wizard.Update decimal_env decimal_input_Update.

Definition decimal_run := @Wizard.run decimal_env decimal_input_Update.

(** Key presses, by the names of the keys. *)
Definition decimal_keys (keys : list string)
  : list (Wizard.Msg (E := decimal_env)) :=
  map (Wizard.KeyMsg (E := decimal_env)) keys.

Section WizardViews.

Context {E : Wizard.Env}.

Variable input_Update :
  Wizard.textinput -> Wizard.Msg -> Wizard.textinput * option Wizard.inputCmd.

Definition is_enter (msg : Wizard.Msg) : bool :=
  match msg with
  | Wizard.KeyMsg key => String.eqb key "enter"
  | Wizard.Other _ => false
  end.

(** A message that [Update] has no case for. *)
Definition is_plain (msg : Wizard.Msg) : bool :=
  match msg with
  | Wizard.KeyMsg key =>
      negb (String.eqb key "ctrl+c" || String.eqb key "q"
            || String.eqb key "up" || String.eqb key "down"
            || String.eqb key "enter")
  | Wizard.Other _ => true
  end.

(** The text input after it has handled the messages [ks]. *)
Definition typed (ks : list Wizard.Msg) (ti : Wizard.textinput)
  : Wizard.textinput :=
  fold_left (fun ti k => fst (input_Update ti k)) ks ti.

Definition with_input (m : Wizard.model) (ti : Wizard.textinput)
  : Wizard.model :=
  {| Wizard.step_ := Wizard.step_ m; Wizard.mode := Wizard.mode m;
     Wizard.period := Wizard.period m; Wizard.income := Wizard.income m;
     Wizard.dependents := Wizard.dependents m;
     Wizard.insurance := Wizard.insurance m; Wizard.input := ti |}.

(** One press of an arrow key, or none. *)
Definition arrow (b : bool) : list Wizard.Msg :=
  if b then [Wizard.KeyMsg "down"] else [].

(** The answers whose steps lie before step [s] are the same in [m] and
    [m']. *)
Definition settled (s : Wizard.step) (m m' : Wizard.model) : Prop :=
  (1 <= Wizard.index s -> Wizard.mode m' = Wizard.mode m)%nat /\
  (2 <= Wizard.index s -> Wizard.period m' = Wizard.period m)%nat /\
  (3 <= Wizard.index s -> Wizard.income m' = Wizard.income m)%nat /\
  (4 <= Wizard.index s -> Wizard.dependents m' = Wizard.dependents m)%nat /\
  (5 <= Wizard.index s -> Wizard.insurance m' = Wizard.insurance m)%nat.

End WizardViews.

(* ================================================================== *)
(** ** The same functions on binary64 floats *)

(** Rocq's primitive floats are IEEE 754 binary64 with rounding to nearest,
    ties to even: the arithmetic of a JavaScript [number], and of a Go
    [float64] where the compiler does not fuse a multiplication with an
    addition.  The module repeats the functions above on them, line by line,
    so that concrete inputs can be run under the machine arithmetic.  [min]
    and [max] are the functions of tui.go 133-144; [Math_min] and
    [Math_max] are JavaScript's, which return [NaN] when an argument is
    [NaN] and take [-0] for less than [+0].  On numbers other than [NaN]
    and zero the two pairs return the same. *)

Set Warnings "-inexact-float".

Module Binary64.

Import PrimFloat.
Local Open Scope float_scope.

Record TaxBracket := { Limit : float; Rate : float }.
Record TaxBreakdown := { rate : float; taxable : float; tax : float }.

Definition PersonalDeduction : float := 11000000.
Definition DependentDeduction : float := 4400000.
Definition InsuranceCap : float := 36000000.

(** The employee's rates in the order BHXH, BHYT, BHTN: the order of
    [Object.values], and one of the orders in which Go may range over the
    map. *)
Definition EmployeeInsurance : list float := [0.08; 0.015; 0.01].

Definition toMonthly (v : float) (p : Period) : float :=
  match p with
  | Annual => v / 12
  | Monthly => v
  end.

Definition sumRates (r : list float) : float :=
  fold_left (fun s v => s + v) r 0.

(** tui.go 133-144. *)
Definition min (a b : float) : float := if ltb a b then a else b.
Definition max (a b : float) : float := if ltb b a then a else b.

(** [Math.min] and [Math.max] of two numbers. *)
Definition Math_min (a b : float) : float :=
  if is_nan a || is_nan b then nan
  else if ltb a b then a
  else if ltb b a then b
  else if get_sign a then a else b.

Definition Math_max (a b : float) : float :=
  if is_nan a || is_nan b then nan
  else if ltb b a then a
  else if ltb a b then b
  else if get_sign a then b else a.

Section Loops.

(** The minimum and the maximum of the program at hand. *)
Variable minimum maximum : float -> float -> float.

Fixpoint bracket_loop (bs : list TaxBracket)
    (out : list TaxBreakdown) (remain total : float)
  : list TaxBreakdown * float * float :=
  match bs with
  | [] => (out, remain, total)
  | b :: bs' =>
      if leb remain 0 then (out, remain, total)
      else
        let apply := minimum (Limit b) remain in
        let tax := apply * Rate b in
        bracket_loop bs'
          (out ++ [{| rate := Rate b; taxable := apply; tax := tax |}])
          (remain - apply) (total + tax)
  end.

(** The forward computation and the solver's loop over a bracket table, a
    [clampInsuranceBase] and the rates in the order they are summed;
    [dependents] is the count already converted to a float. *)
Definition net_of (bs : list TaxBracket) (clamp : float -> bool -> float)
    (rates : list float) (gross dependents : float) (insurance : bool)
  : float :=
  let base := clamp gross insurance in
  let ins := base * sumRates rates in
  let deductions :=
    PersonalDeduction + dependents * DependentDeduction + ins in
  let taxable := maximum 0 (gross - deductions) in
  let '(_, _, tax) := bracket_loop bs [] taxable 0 in
  gross - ins - tax.

Definition solve_loop (bs : list TaxBracket) (clamp : float -> bool -> float)
    (rates : list float) (targetNet dependents : float) (insurance : bool)
  : float :=
  fold_left
    (fun gross (_ : nat) =>
       gross + (targetNet - net_of bs clamp rates gross dependents insurance))
    (seq 0 20) targetNet.

End Loops.

Module Go.

Definition TaxBrackets : list TaxBracket :=
  [ {| Limit := 5000000;  Rate := 0.05 |};
    {| Limit := 5000000;  Rate := 0.10 |};
    {| Limit := 8000000;  Rate := 0.15 |};
    {| Limit := 14000000; Rate := 0.20 |};
    {| Limit := 20000000; Rate := 0.25 |};
    {| Limit := 28000000; Rate := 0.30 |};
    {| Limit := 1e18;     Rate := 0.35 |} ].

Definition clampInsuranceBase (gross : float) (enabled : bool) : float :=
  if negb enabled then 0
  else if ltb InsuranceCap gross then InsuranceCap
  else gross.

Definition calculateTax_state (taxable : float) :=
  bracket_loop min TaxBrackets [] taxable 0.

(** [rates]: the employee's rates in the order this run of the program
    ranges over the map. *)
Definition solveGrossFromNet (rates : list float)
    (targetNet dependents : float) (insurance : bool) : float :=
  solve_loop min max TaxBrackets clampInsuranceBase rates targetNet
    dependents insurance.

Definition net (rates : list float) (gross dependents : float)
    (insurance : bool) : float :=
  net_of min max TaxBrackets clampInsuranceBase rates gross dependents
    insurance.

(** The gross salary [resultView] computes from. *)
Definition gross_of (rates : list float) (mode : SalaryMode) (period : Period)
    (income dependents : float) (insurance : bool) : float :=
  match mode with
  | Gross => toMonthly income period
  | Net => solveGrossFromNet rates income dependents insurance
  end.

End Go.

Module TS.

Definition TAX_BRACKETS : list TaxBracket :=
  [ {| Limit := 5000000;  Rate := 0.05 |};
    {| Limit := 5000000;  Rate := 0.1 |};
    {| Limit := 8000000;  Rate := 0.15 |};
    {| Limit := 14000000; Rate := 0.2 |};
    {| Limit := 20000000; Rate := 0.25 |};
    {| Limit := 28000000; Rate := 0.3 |};
    {| Limit := infinity; Rate := 0.35 |} ].

Definition clampInsuranceBase (gross : float) (enabled : bool) : float :=
  if enabled then Math_min gross InsuranceCap else 0.

Definition calculateTaxBreakdown_state (taxableIncome : float) :=
  bracket_loop Math_min TAX_BRACKETS [] taxableIncome 0.

Definition solveGrossFromNet (targetNet dependents : float)
    (insuranceEnabled : bool) : float :=
  Math_max 0
    (solve_loop Math_min Math_max TAX_BRACKETS clampInsuranceBase
       EmployeeInsurance targetNet dependents insuranceEnabled).

Definition netMonthly (grossMonthly dependents : float)
    (insuranceEnabled : bool) : float :=
  net_of Math_min Math_max TAX_BRACKETS clampInsuranceBase EmployeeInsurance
    grossMonthly dependents insuranceEnabled.

(** The [grossMonthly] of the [useMemo] callback. *)
Definition grossMonthly_of (salaryMode : SalaryMode) (period : Period)
    (income dependents : float) (insuranceEnabled : bool) : float :=
  toMonthly
    (match salaryMode with
     | Gross => income
     | Net => solveGrossFromNet income dependents insuranceEnabled
     end) period.

End TS.

(** The orders in which Go may range over the three employee rates. *)
Definition rate_orders : list (list float) :=
  [ [0.08; 0.015; 0.01]; [0.08; 0.01; 0.015]; [0.015; 0.08; 0.01];
    [0.015; 0.01; 0.08]; [0.01; 0.08; 0.015]; [0.01; 0.015; 0.08] ].

End Binary64.

(* ================================================================== *)
(** ** Views of the bracket loop *)

(** What one run of the loop over [bs], started with empty accumulators,
    leaves in [out], [remain] and [total]. *)
Definition out_of (bs : list TaxBracket) (x : Q) : list TaxBreakdown :=
  fst (fst (bracket_loop bs [] x 0)).
Definition remain_of (bs : list TaxBracket) (x : Q) : Q :=
  snd (fst (bracket_loop bs [] x 0)).
Definition total_of (bs : list TaxBracket) (x : Q) : Q :=
  snd (bracket_loop bs [] x 0).

(** Sums over a breakdown. *)
Definition sum_taxable (l : list TaxBreakdown) : Q :=
  fold_right (fun ln s => taxable ln + s) 0 l.
Definition sum_tax (l : list TaxBreakdown) : Q :=
  fold_right (fun ln s => tax ln + s) 0 l.

(** The income a table can absorb: the sum of its widths. *)
Fixpoint capacity (bs : list TaxBracket) : limit :=
  match bs with
  | [] => Finite 0
  | b :: bs' =>
      match Limit b, capacity bs' with
      | Finite w, Finite c => Finite (w + c)
      | _, _ => Infinity
      end
  end.

(** [x] does not exceed the limit [l]. *)
Definition within (x : Q) (l : limit) : Prop :=
  match l with
  | Finite c => x <= c
  | Infinity => True
  end.

(** A well-formed bracket: a positive width and a rate between [0] and [r]. *)
Definition bracket_ok (r : Q) (b : TaxBracket) : Prop :=
  (match Limit b with Finite w => 0 < w | Infinity => True end) /\
  0 <= Rate b /\ Rate b <= r.

(* ================================================================== *)
(** ** The forward computation, gross to net *)

(** Both programs compute the net salary from a gross salary with the same
    lines, in the loop of [solveGrossFromNet] and again for the result
    (tui.go 122-127 and 340-346, index.tsx 104-113 and 179-195).  [net_of]
    is that computation, over the program's [clampInsuranceBase] and the
    total of its [calculateTax]. *)
Definition net_of (clamp : Q -> bool -> Q) (T : Q -> Q)
    (gross : Q) (dependents : Z) (insurance : bool) : Q :=
  let base := clamp gross insurance in
  let ins := base * sumRates EmployeeInsurance in
  let deductions :=
    PersonalDeduction + inject_Z dependents * DependentDeduction + ins in
  let taxable := max 0 (gross - deductions) in
  gross - ins - T taxable.

(** One residual correction of the solver: [gross += targetNet - net]. *)
Definition correct (clamp : Q -> bool -> Q) (T : Q -> Q)
    (targetNet : Q) (dependents : Z) (insurance : bool) (gross : Q) : Q :=
  gross + (targetNet - net_of clamp T gross dependents insurance).

(** A residual after [n] corrections that each leave at most 35% of it. *)
Fixpoint shrink (n : nat) (e : Q) : Q :=
  match n with
  | O => e
  | S k => 0.35 * shrink k e
  end.

(* ================================================================== *)
(** * Properties *)

(** ** Comparisons *)

Lemma Qltb_lt (a b : Q) : Qltb a b = true <-> a < b.
Proof.
  unfold Qltb. rewrite negb_true_iff, <- not_true_iff_false, Qle_bool_iff.
  split; [apply Qnot_le_lt | apply Qlt_not_le].
Qed.

Lemma Qltb_ge (a b : Q) : Qltb a b = false <-> b <= a.
Proof.
  unfold Qltb. rewrite negb_false_iff. apply Qle_bool_iff.
Qed.

Lemma Qleb_le (a b : Q) : Qleb a b = true <-> a <= b.
Proof. apply Qle_bool_iff. Qed.

Lemma Qleb_gt (a b : Q) : Qleb a b = false <-> b < a.
Proof.
  unfold Qleb. rewrite <- not_true_iff_false, Qle_bool_iff.
  split; [apply Qnot_le_lt | apply Qlt_not_le].
Qed.

(** Case analysis on a comparison, leaving the order fact in the context. *)
Ltac case_Qltb a b :=
  let H := fresh "Hlt" in
  destruct (Qltb a b) eqn:H;
  [apply Qltb_lt in H | apply Qltb_ge in H].

Ltac case_Qleb a b :=
  let H := fresh "Hle" in
  destruct (Qleb a b) eqn:H;
  [apply Qleb_le in H | apply Qleb_gt in H].

Lemma min_spec (a b : Q) :
  (a < b /\ min a b = a) \/ (b <= a /\ min a b = b).
Proof. unfold min. case_Qltb a b; auto. Qed.

Lemma max_spec (a b : Q) :
  (b < a /\ max a b = a) \/ (a <= b /\ max a b = b).
Proof. unfold max. case_Qltb b a; auto. Qed.

(** [min_limit] takes a positive part of a positive remainder and never more
    than the remainder or the width. *)
Lemma min_limit_bounds (l : limit) (x : Q) :
  match l with Finite w => 0 < w | Infinity => True end ->
  0 < x ->
  0 < min_limit l x /\ min_limit l x <= x /\ within (min_limit l x) l.
Proof.
  destruct l as [w|]; simpl; intros Hw Hx.
  - destruct (min_spec w x) as [[H ->]|[H ->]]; repeat split; lra.
  - repeat split; lra.
Qed.

(** ** The loop and its accumulators *)

Lemma bracket_loop_acc (bs : list TaxBracket) :
  forall out r t,
    fst (fst (bracket_loop bs out r t)) = out ++ out_of bs r /\
    snd (fst (bracket_loop bs out r t)) = remain_of bs r /\
    snd (bracket_loop bs out r t) == t + total_of bs r.
Proof.
  unfold out_of, remain_of, total_of.
  induction bs as [|b bs IH]; intros out r t; simpl.
  - rewrite app_nil_r. repeat split; lra.
  - destruct (Qleb r 0); simpl.
    + rewrite app_nil_r. repeat split; lra.
    + set (a := min_limit (Limit b) r).
      set (ln := {| rate := Rate b; taxable := a; tax := a * Rate b |}).
      destruct (IH (out ++ [ln]) (r - a) (t + a * Rate b)) as (E1 & E2 & E3).
      destruct (IH [ln] (r - a) (0 + a * Rate b)) as (F1 & F2 & F3).
      rewrite E1, E2, E3, F1, F2, F3. simpl.
      rewrite <- app_assoc. simpl. repeat split; lra.
Qed.

Lemma out_of_cons b bs x :
  out_of (b :: bs) x =
  if Qleb x 0 then []
  else {| rate := Rate b; taxable := min_limit (Limit b) x;
          tax := min_limit (Limit b) x * Rate b |}
       :: out_of bs (x - min_limit (Limit b) x).
Proof.
  unfold out_of at 1. simpl. destruct (Qleb x 0); [reflexivity|].
  now rewrite (proj1 (bracket_loop_acc bs _ _ _)).
Qed.

Lemma remain_of_cons b bs x :
  remain_of (b :: bs) x =
  if Qleb x 0 then x else remain_of bs (x - min_limit (Limit b) x).
Proof.
  unfold remain_of at 1. simpl. destruct (Qleb x 0); [reflexivity|].
  now rewrite (proj1 (proj2 (bracket_loop_acc bs _ _ _))).
Qed.

Lemma total_of_cons b bs x :
  total_of (b :: bs) x ==
  if Qleb x 0 then 0
  else min_limit (Limit b) x * Rate b + total_of bs (x - min_limit (Limit b) x).
Proof.
  unfold total_of at 1. simpl. destruct (Qleb x 0); [reflexivity|].
  rewrite (proj2 (proj2 (bracket_loop_acc bs _ _ _))). lra.
Qed.

Lemma out_of_nonpos bs x : x <= 0 -> out_of bs x = [].
Proof.
  intros H. destruct bs as [|b bs]; [reflexivity|].
  rewrite out_of_cons. apply Qleb_le in H. now rewrite H.
Qed.

Lemma remain_of_nonpos bs x : x <= 0 -> remain_of bs x = x.
Proof.
  intros H. destruct bs as [|b bs]; [reflexivity|].
  rewrite remain_of_cons. apply Qleb_le in H. now rewrite H.
Qed.

Lemma total_of_nonpos bs x : x <= 0 -> total_of bs x = 0.
Proof.
  intros H. destruct bs as [|b bs]; [reflexivity|].
  unfold total_of. simpl. apply Qleb_le in H. now rewrite H.
Qed.

Lemma out_of_cons_pos b bs x :
  0 < x ->
  out_of (b :: bs) x =
  {| rate := Rate b; taxable := min_limit (Limit b) x;
     tax := min_limit (Limit b) x * Rate b |}
  :: out_of bs (x - min_limit (Limit b) x).
Proof.
  intros H. rewrite out_of_cons. apply Qleb_gt in H. now rewrite H.
Qed.

Lemma remain_of_cons_pos b bs x :
  0 < x ->
  remain_of (b :: bs) x = remain_of bs (x - min_limit (Limit b) x).
Proof.
  intros H. rewrite remain_of_cons. apply Qleb_gt in H. now rewrite H.
Qed.

Lemma total_of_cons_pos b bs x :
  0 < x ->
  total_of (b :: bs) x ==
  min_limit (Limit b) x * Rate b + total_of bs (x - min_limit (Limit b) x).
Proof.
  intros H. rewrite total_of_cons. apply Qleb_gt in H. now rewrite H.
Qed.

(** ** The breakdown partitions the income *)

(** Whatever the table, what the lines took and what is left add up to the
    income the loop started with. *)
Lemma loop_partition (bs : list TaxBracket) :
  forall x, sum_taxable (out_of bs x) + remain_of bs x == x.
Proof.
  induction bs as [|b bs IH]; intros x.
  - unfold out_of, remain_of. simpl. lra.
  - destruct (Qlt_le_dec 0 x) as [Hx|Hx].
    + rewrite out_of_cons_pos, remain_of_cons_pos by exact Hx. simpl.
      specialize (IH (x - min_limit (Limit b) x)). lra.
    + rewrite out_of_nonpos, remain_of_nonpos by exact Hx. simpl. lra.
Qed.

(** Widths are positive, so a capacity is not negative. *)
Lemma capacity_nonneg (r : Q) (bs : list TaxBracket) :
  Forall (bracket_ok r) bs -> within 0 (capacity bs).
Proof.
  induction 1 as [|b bs (Hw & _) _ IH]; simpl; [lra|].
  destruct (Limit b) as [w|]; [|exact I].
  destruct (capacity bs) as [c|]; simpl in *; [lra | exact I].
Qed.

(** Nothing is left as long as the income fits in the table. *)
Lemma remain_of_within (r : Q) (bs : list TaxBracket) :
  Forall (bracket_ok r) bs ->
  forall x, 0 <= x -> within x (capacity bs) -> remain_of bs x == 0.
Proof.
  induction 1 as [|b bs (Hw & _) Hbs IH]; intros x Hx Hc.
  - unfold remain_of. simpl in *. lra.
  - destruct (Qlt_le_dec 0 x) as [Hpos|Hnp].
    2:{ rewrite remain_of_nonpos by exact Hnp. lra. }
    rewrite remain_of_cons_pos by exact Hpos.
    pose proof (capacity_nonneg r bs Hbs) as Hc0.
    apply IH.
    + destruct (min_limit_bounds (Limit b) x Hw Hpos) as (_ & ? & _). lra.
    + simpl in Hc. destruct (Limit b) as [w|]; simpl.
      * destruct (capacity bs) as [c|]; simpl in *; [|exact I].
        destruct (min_spec w x) as [[? ->]|[? ->]]; lra.
      * destruct (capacity bs); simpl in *; [lra | exact I].
Qed.

(** Beyond a finite capacity the excess stays in [remain]. *)
Lemma remain_of_beyond (r : Q) (bs : list TaxBracket) :
  Forall (bracket_ok r) bs ->
  forall x c, capacity bs = Finite c -> c <= x -> 0 < x ->
              remain_of bs x == x - c.
Proof.
  induction 1 as [|b bs (Hw & _) Hbs IH]; intros x c Hc Hx Hpos.
  - simpl in Hc. injection Hc as <-. unfold remain_of. simpl. lra.
  - rewrite remain_of_cons_pos by exact Hpos.
    pose proof (capacity_nonneg r bs Hbs) as Hc0.
    simpl in Hc. destruct (Limit b) as [w|]; [|discriminate].
    destruct (capacity bs) as [c'|] eqn:Ec; [|discriminate].
    injection Hc as <-. simpl in *.
    destruct (min_spec w x) as [[? ->]|[? ->]].
    + rewrite (IH (x - w) c' eq_refl) by lra. lra.
    + rewrite remain_of_nonpos by lra. lra.
Qed.

(** ** The lines of a breakdown *)

(** The loop emits at most one line per bracket, with the rates of the first
    brackets of the table in the table's order, and every line takes a
    positive amount out of a positive width. *)
Lemma out_of_lines (r : Q) (bs : list TaxBracket) :
  Forall (bracket_ok r) bs ->
  forall x,
    (length (out_of bs x) <= length bs)%nat /\
    map rate (out_of bs x) = map Rate (firstn (length (out_of bs x)) bs) /\
    Forall (fun ln => 0 < taxable ln /\ 0 <= rate ln <= r /\
                      tax ln == taxable ln * rate ln)
           (out_of bs x).
Proof.
  induction 1 as [|b bs (Hw & Hr) Hbs IH]; intros x.
  - unfold out_of. simpl. repeat split; auto.
  - destruct (Qlt_le_dec 0 x) as [Hpos|Hnp].
    + rewrite out_of_cons_pos by exact Hpos.
      destruct (IH (x - min_limit (Limit b) x)) as (L & M & F).
      destruct (min_limit_bounds (Limit b) x Hw Hpos) as (? & _).
      simpl. repeat split.
      * lia.
      * now rewrite M.
      * constructor; [|exact F].
        simpl. repeat split; solve [assumption | apply Hr | reflexivity].
    + rewrite out_of_nonpos by exact Hnp. simpl.
      repeat split; [lia | constructor].
Qed.

(** The total is the sum of the lines' taxes. *)
Lemma total_of_sum_tax (bs : list TaxBracket) :
  forall x, total_of bs x == sum_tax (out_of bs x).
Proof.
  induction bs as [|b bs IH]; intros x.
  - reflexivity.
  - destruct (Qlt_le_dec 0 x) as [Hpos|Hnp].
    + rewrite total_of_cons_pos, out_of_cons_pos by exact Hpos. simpl.
      rewrite IH. reflexivity.
    + rewrite total_of_nonpos, out_of_nonpos by exact Hnp. reflexivity.
Qed.

(** ** The tax as a function of the taxable income *)

(** With rates between [0] and [r] the total tax never decreases and grows
    at most [r] times as fast as the income. *)
Lemma total_of_slope (r : Q) (bs : list TaxBracket) :
  0 <= r ->
  Forall (bracket_ok r) bs ->
  forall x y, x <= y ->
    0 <= total_of bs y - total_of bs x /\
    total_of bs y - total_of bs x <= r * (y - x).
Proof.
  intros Hr. induction 1 as [|b bs (Hw & Hr0 & Hr1) Hbs IH]; intros x y Hxy.
  - unfold total_of. simpl. split; [lra | nra].
  - destruct (Qlt_le_dec 0 y) as [Hy|Hy].
    2:{ rewrite !total_of_nonpos by lra. split; [lra | nra]. }
    rewrite (total_of_cons_pos b bs y Hy).
    destruct (min_limit_bounds (Limit b) y Hw Hy) as (Hb0 & Hb1 & _).
    destruct (Qlt_le_dec 0 x) as [Hx|Hx].
    + rewrite (total_of_cons_pos b bs x Hx).
      destruct (min_limit_bounds (Limit b) x Hw Hx) as (Ha0 & Ha1 & _).
      assert (Hab : min_limit (Limit b) x <= min_limit (Limit b) y /\
                    x - min_limit (Limit b) x <= y - min_limit (Limit b) y).
      { destruct (Limit b) as [w|]; simpl.
        - destruct (min_spec w x) as [[? ->]|[? ->]];
          destruct (min_spec w y) as [[? ->]|[? ->]]; lra.
        - lra. }
      destruct Hab as (Hab1 & Hab2).
      destruct (IH _ _ Hab2) as (I1 & I2).
      set (a := min_limit (Limit b) x) in *.
      set (c := min_limit (Limit b) y) in *.
      set (Tx := total_of bs (x - a)) in *.
      set (Ty := total_of bs (y - c)) in *.
      split; nra.
    + rewrite (total_of_nonpos (b :: bs) x Hx).
      assert (Hrest : 0 <= y - min_limit (Limit b) y) by lra.
      destruct (IH 0 _ Hrest) as (I1 & I2).
      rewrite (total_of_nonpos bs 0) in I1, I2 by lra.
      set (c := min_limit (Limit b) y) in *.
      set (Ty := total_of bs (y - c)) in *.
      split; nra.
Qed.

(** The total respects equality of amounts. *)
Lemma total_of_compat (bs : list TaxBracket) :
  forall x y, x == y -> total_of bs x == total_of bs y.
Proof.
  induction bs as [|b bs IH]; intros x y E; [reflexivity|].
  rewrite !total_of_cons.
  assert (Hb : Qleb x 0 = Qleb y 0) by (unfold Qleb; now rewrite E).
  rewrite <- Hb. destruct (Qleb x 0); [reflexivity|].
  assert (Hm : min_limit (Limit b) x == min_limit (Limit b) y).
  { destruct (Limit b) as [w|]; simpl; [|exact E].
    destruct (min_spec w x) as [[? ->]|[? ->]];
    destruct (min_spec w y) as [[? ->]|[? ->]]; lra. }
  apply Qplus_comp; [apply Qmult_comp; [exact Hm | reflexivity]|].
  apply IH. lra.
Qed.

(** Income that fits in the first brackets never reaches the later ones. *)
Lemma total_of_app (r : Q) (bs1 bs2 : list TaxBracket) :
  Forall (bracket_ok r) bs1 ->
  forall x, within x (capacity bs1) ->
            total_of (bs1 ++ bs2) x == total_of bs1 x.
Proof.
  induction 1 as [|b bs (Hw & _) Hbs IH]; intros x Hc.
  - simpl in Hc. rewrite !total_of_nonpos by exact Hc. reflexivity.
  - simpl app. destruct (Qlt_le_dec 0 x) as [Hpos|Hnp].
    2:{ rewrite !total_of_nonpos by exact Hnp. reflexivity. }
    rewrite !total_of_cons_pos by exact Hpos.
    pose proof (capacity_nonneg r bs Hbs) as Hc0.
    rewrite IH; [reflexivity|].
    simpl in Hc. destruct (Limit b) as [w|]; simpl.
    + destruct (capacity bs) as [c|]; simpl in *; [|exact I].
      destruct (min_spec w x) as [[? ->]|[? ->]]; lra.
    + destruct (capacity bs); simpl in *; [lra | exact I].
Qed.

(* ================================================================== *)
(** ** The two bracket tables *)

Lemma Go_brackets_ok : Forall (bracket_ok 0.35) Go.TaxBrackets.
Proof. unfold Go.TaxBrackets, bracket_ok. repeat constructor; simpl; lra. Qed.

Lemma TS_brackets_ok : Forall (bracket_ok 0.35) TS.TAX_BRACKETS.
Proof. unfold TS.TAX_BRACKETS, bracket_ok. repeat constructor; simpl; lra. Qed.

Lemma Go_capacity :
  exists c, capacity Go.TaxBrackets = Finite c /\ c == 1000000000080000000.
Proof. eexists. split; [reflexivity | reflexivity]. Qed.

Lemma TS_capacity : capacity TS.TAX_BRACKETS = Infinity.
Proof. reflexivity. Qed.

Lemma Go_calculateTax_eq (x : Q) :
  Go.calculateTax x = (out_of Go.TaxBrackets x, total_of Go.TaxBrackets x).
Proof.
  unfold Go.calculateTax, Go.calculateTax_state, out_of, total_of.
  now destruct (bracket_loop Go.TaxBrackets [] x 0) as [[o r] t].
Qed.

Lemma Go_calculateTax_state_eq (x : Q) :
  Go.calculateTax_state x =
  (out_of Go.TaxBrackets x, remain_of Go.TaxBrackets x,
   total_of Go.TaxBrackets x).
Proof.
  unfold Go.calculateTax_state, out_of, remain_of, total_of.
  now destruct (bracket_loop Go.TaxBrackets [] x 0) as [[o r] t].
Qed.

Lemma TS_calculateTaxBreakdown_eq (x : Q) :
  TS.calculateTaxBreakdown x =
  (out_of TS.TAX_BRACKETS x, total_of TS.TAX_BRACKETS x).
Proof.
  unfold TS.calculateTaxBreakdown, TS.calculateTaxBreakdown_state,
    out_of, total_of.
  now destruct (bracket_loop TS.TAX_BRACKETS [] x 0) as [[o r] t].
Qed.

Lemma TS_calculateTaxBreakdown_state_eq (x : Q) :
  TS.calculateTaxBreakdown_state x =
  (out_of TS.TAX_BRACKETS x, remain_of TS.TAX_BRACKETS x,
   total_of TS.TAX_BRACKETS x).
Proof.
  unfold TS.calculateTaxBreakdown_state, out_of, remain_of, total_of.
  now destruct (bracket_loop TS.TAX_BRACKETS [] x 0) as [[o r] t].
Qed.

(* ================================================================== *)
(** ** Exact partition of the taxable income *)

(** With the TypeScript table, whose last width is [Infinity], the breakdown
    partitions every non-negative income and nothing remains. *)
Lemma TS_breakdown_partitions (taxableIncome : Q) :
  0 <= taxableIncome ->
  sum_taxable (fst (TS.calculateTaxBreakdown taxableIncome)) == taxableIncome /\
  snd (fst (TS.calculateTaxBreakdown_state taxableIncome)) == 0.
Proof.
  intros H.
  rewrite TS_calculateTaxBreakdown_eq, TS_calculateTaxBreakdown_state_eq.
  simpl.
  pose proof (loop_partition TS.TAX_BRACKETS taxableIncome) as P.
  pose proof (remain_of_within _ _ TS_brackets_ok taxableIncome H I) as R.
  lra.
Qed.

(** With the Go table the same holds up to the capacity of the table,
    [1e18 + 80,000,000]. *)
Lemma Go_breakdown_partitions (taxable : Q) :
  0 <= taxable -> taxable <= 1000000000080000000 ->
  sum_taxable (fst (Go.calculateTax taxable)) == taxable /\
  snd (fst (Go.calculateTax_state taxable)) == 0.
Proof.
  intros H Hc.
  rewrite Go_calculateTax_eq, Go_calculateTax_state_eq. simpl.
  pose proof (loop_partition Go.TaxBrackets taxable) as P.
  assert (R : remain_of Go.TaxBrackets taxable == 0).
  { apply (remain_of_within _ _ Go_brackets_ok); [exact H|].
    destruct Go_capacity as (c & -> & Ec). simpl. lra. }
  lra.
Qed.

(** Beyond that capacity the Go loop runs out of brackets with income left
    over. *)
Lemma Go_breakdown_leaks (taxable : Q) :
  1000000000080000000 < taxable ->
  sum_taxable (fst (Go.calculateTax taxable)) == 1000000000080000000 /\
  snd (fst (Go.calculateTax_state taxable)) == taxable - (1000000000080000000).
Proof.
  intros Hc.
  rewrite Go_calculateTax_eq, Go_calculateTax_state_eq. simpl.
  pose proof (loop_partition Go.TaxBrackets taxable) as P.
  destruct Go_capacity as (c & E & Ec).
  assert (R : remain_of Go.TaxBrackets taxable == taxable - c).
  { apply (remain_of_beyond _ _ Go_brackets_ok taxable c E); lra. }
  lra.
Qed.

(** C1 (tui.go 62-70, 101-117).  The claim -- the breakdown partitions every
    non-negative taxable income and the loop ends with [remain == 0] -- fails
    on the Go table, whose last bracket is [1e18] wide and not unbounded: at
    a taxable income of [3e18] the seven lines take [1e18 + 80,000,000] in
    all and [remain] is left at [2e18 - 80,000,000]. *)
Theorem C1_go_last_bracket_is_finite :
  let taxable := 3000000000000000000 in
  0 <= taxable /\
  sum_taxable (fst (Go.calculateTax taxable)) == 1000000000080000000 /\
  ~ sum_taxable (fst (Go.calculateTax taxable)) == taxable /\
  snd (fst (Go.calculateTax_state taxable)) == 1999999999920000000 /\
  ~ snd (fst (Go.calculateTax_state taxable)) == 0.
Proof.
  cbv zeta.
  assert (H : 1000000000080000000 < 3000000000000000000) by lra.
  destruct (Go_breakdown_leaks 3000000000000000000 H) as (S & R).
  repeat split; first [lra | intros E; lra].
Qed.

(* ================================================================== *)
(** ** Non-positive taxable income *)

(** C7 (tui.go 101-117, index.tsx 69-93).  For every taxable income [<= 0]
    the breakdown is empty and the total tax is [0]: the first test of
    [remain <= 0] leaves the loop before any line is emitted. *)
Theorem C7_nonpositive_income_no_tax (taxableIncome : Q) :
  taxableIncome <= 0 ->
  Go.calculateTax taxableIncome = ([], 0) /\
  TS.calculateTaxBreakdown taxableIncome = ([], 0).
Proof.
  intros H.
  rewrite Go_calculateTax_eq, TS_calculateTaxBreakdown_eq.
  now rewrite !out_of_nonpos, !total_of_nonpos by exact H.
Qed.

Lemma C7_nonpositive_income_no_tax_witness :
  -(2500000) <= 0 /\
  Go.calculateTax (-(2500000)) = ([], 0) /\
  TS.calculateTaxBreakdown (-(2500000)) = ([], 0).
Proof.
  split; [discriminate | apply (C7_nonpositive_income_no_tax (-(2500000)))].
  discriminate.
Defined.

(* ================================================================== *)
(** ** Shape of the breakdown *)

(** The rates of the Go table increase strictly. *)
Lemma Go_rates_sorted (n : nat) :
  StronglySorted Qlt (firstn n (map Rate Go.TaxBrackets)).
Proof.
  do 8 (destruct n as [|n]; [simpl; repeat constructor; reflexivity|]).
  simpl. repeat constructor; reflexivity.
Qed.

(** C10 (tui.go 62-70, 101-117).  For every taxable income that is a
    number, in exact arithmetic, the breakdown of [calculateTax] has at most
    7 lines, every line takes a strictly positive amount, and the rates of
    the lines are those of the first brackets of the table, in the table's
    order with none skipped -- hence strictly increasing.  For the binary64
    value [NaN] the lines take [NaN]; the last section has the run. *)
Theorem C10_breakdown_shape (taxableIncome : Q) :
  let out := fst (Go.calculateTax taxableIncome) in
  (length out <= 7)%nat /\
  Forall (fun ln => 0 < taxable ln) out /\
  map rate out = firstn (length out) (map Rate Go.TaxBrackets) /\
  StronglySorted Qlt (map rate out).
Proof.
  rewrite Go_calculateTax_eq. simpl fst. cbv zeta.
  destruct (out_of_lines _ _ Go_brackets_ok taxableIncome) as (L & M & F).
  assert (E : map rate (out_of Go.TaxBrackets taxableIncome) =
              firstn (length (out_of Go.TaxBrackets taxableIncome))
                     (map Rate Go.TaxBrackets)).
  { rewrite M. symmetry. apply firstn_map. }
  repeat split.
  - exact L.
  - eapply Forall_impl; [|exact F]. now intros ln (H & _).
  - exact E.
  - rewrite E. apply Go_rates_sorted.
Qed.

(* ================================================================== *)
(** ** The insurance base *)

(** C6 (tui.go 91-99, index.tsx 66-67).  [clampInsuranceBase] is [0] when
    insurance is disabled; when it is enabled the result is the smaller of
    the gross salary and the cap of 36,000,000: the cap above it, the gross
    salary itself at or below it. *)
Theorem C6_clampInsuranceBase (grossMonthly : Q) :
  (Go.clampInsuranceBase grossMonthly false = 0 /\
   TS.clampInsuranceBase grossMonthly false = 0) /\
  (36000000 < grossMonthly ->
   Go.clampInsuranceBase grossMonthly true = 36000000 /\
   TS.clampInsuranceBase grossMonthly true = 36000000) /\
  (grossMonthly <= 36000000 ->
   Go.clampInsuranceBase grossMonthly true = grossMonthly /\
   TS.clampInsuranceBase grossMonthly true == grossMonthly) /\
  (Go.clampInsuranceBase grossMonthly true == Qmin grossMonthly 36000000 /\
   TS.clampInsuranceBase grossMonthly true == Qmin grossMonthly 36000000).
Proof.
  unfold Go.clampInsuranceBase, TS.clampInsuranceBase, InsuranceCap. simpl.
  split; [split; reflexivity|].
  split; [intros Hgt; split | split; [intros Hle; split | split]].
  - apply Qltb_lt in Hgt. now rewrite Hgt.
  - destruct (min_spec grossMonthly 36000000) as [[? ->]|[? ->]];
      [lra | reflexivity].
  - apply Qltb_ge in Hle. now rewrite Hle.
  - destruct (min_spec grossMonthly 36000000) as [[? ->]|[? ->]]; lra.
  - case_Qltb 36000000 grossMonthly.
    + rewrite Q.min_r; [reflexivity | lra].
    + rewrite Q.min_l; [reflexivity | lra].
  - destruct (min_spec grossMonthly 36000000) as [[? ->]|[? ->]].
    + rewrite Q.min_l; [reflexivity | lra].
    + rewrite Q.min_r; [reflexivity | lra].
Qed.

Lemma C6_clampInsuranceBase_witness :
  (36000000 < 50000000 /\
   Go.clampInsuranceBase 50000000 true = 36000000 /\
   TS.clampInsuranceBase 50000000 true = 36000000) /\
  (20000000 <= 36000000 /\
   Go.clampInsuranceBase 20000000 true = 20000000 /\
   TS.clampInsuranceBase 20000000 true == 20000000).
Proof.
  split.
  - split; [reflexivity|].
    apply (proj1 (proj2 (C6_clampInsuranceBase 50000000))). reflexivity.
  - split; [discriminate|].
    apply (proj1 (proj2 (proj2 (C6_clampInsuranceBase 20000000)))).
    discriminate.
Defined.

(* ================================================================== *)
(** ** The forward computation as a function of the gross salary *)

Lemma sumRates_employee : sumRates EmployeeInsurance == 0.105.
Proof. reflexivity. Qed.

Lemma sumRates_employer : sumRates EmployerInsurance == 0.215.
Proof. reflexivity. Qed.

(** The order in which a rate table is traversed does not change the sum. *)
Lemma sumRates_from (r : list (string * Q)) :
  forall s, fold_left (fun s kv => s + snd kv) r s == s + sumRates r.
Proof.
  unfold sumRates. induction r as [|kv r IH]; intros s; simpl.
  - lra.
  - rewrite (IH (s + snd kv)), (IH (0 + snd kv)). lra.
Qed.

Lemma sumRates_permutation (r r' : list (string * Q)) :
  Permutation r r' -> sumRates r == sumRates r'.
Proof.
  induction 1 as [|kv r r' _ IH|kv kv' r|r r' r'' _ IH1 _ IH2].
  - reflexivity.
  - unfold sumRates. simpl. rewrite !sumRates_from, IH. reflexivity.
  - unfold sumRates. simpl. rewrite !sumRates_from. lra.
  - now rewrite IH1.
Qed.

Lemma dependents_nonneg (dependents : Z) :
  (0 <= dependents)%Z -> 0 <= inject_Z dependents * DependentDeduction.
Proof.
  intros H. apply Qmult_le_0_compat; [|discriminate].
  change 0 with (inject_Z 0). now rewrite <- Zle_Qle.
Qed.

Lemma shrink_mono (n : nat) (a b : Q) : a <= b -> shrink n a <= shrink n b.
Proof. intros H. induction n as [|n IH]; simpl; lra. Qed.

Section ForwardNet.

Variable clamp : Q -> bool -> Q.
Variable T : Q -> Q.

Hypothesis clamp_off : forall g, clamp g false == 0.
Hypothesis clamp_hi :
  forall g, InsuranceCap <= g -> clamp g true == InsuranceCap.
Hypothesis clamp_lo : forall g, g <= InsuranceCap -> clamp g true == g.
Hypothesis T_slope :
  forall x y, x <= y -> 0 <= T y - T x /\ T y - T x <= 0.35 * (y - x).
Hypothesis T_low :
  forall x y, x <= y -> y <= 32000000 -> T y - T x <= 0.2 * (y - x).
Hypothesis T_zero : T 0 == 0.

(** The employee's insurance, by region of the gross salary. *)
Lemma ins_off g : clamp g false * sumRates EmployeeInsurance == 0.
Proof. rewrite clamp_off. reflexivity. Qed.

Lemma ins_lo g :
  g <= 36000000 -> clamp g true * sumRates EmployeeInsurance == 0.105 * g.
Proof.
  intros H. rewrite clamp_lo by exact H. rewrite sumRates_employee. ring.
Qed.

Lemma ins_hi g :
  36000000 <= g -> clamp g true * sumRates EmployeeInsurance == 3780000.
Proof.
  intros H. rewrite clamp_hi by exact H. reflexivity.
Qed.

(** Given the insurance at two gross salaries [g <= g'], splits the two
    [max 0 _] of a goal about [net_of] and hands the slope of [T] between the
    two taxable incomes to [lra]; [low] says whether both taxable incomes are
    known to stay below 32,000,000. *)
Ltac between g g' d i low :=
  unfold net_of, PersonalDeduction; cbv zeta;
  set (dd := inject_Z d * DependentDeduction) in *;
  set (i1 := clamp g i * sumRates EmployeeInsurance) in *;
  set (i2 := clamp g' i * sumRates EmployeeInsurance) in *;
  destruct (max_spec 0 (g - (11000000 + dd + i1))) as [[M1 ->]|[M1 ->]];
  destruct (max_spec 0 (g' - (11000000 + dd + i2))) as [[M2 ->]|[M2 ->]];
  [ lra
  | destruct (T_slope 0 (g' - (11000000 + dd + i2))); [lra|];
    try (low;
         pose proof (T_low 0 (g' - (11000000 + dd + i2)));
         assert (g' - (11000000 + dd + i2) <= 32000000) by lra);
    lra
  | lra
  | destruct (T_slope (g - (11000000 + dd + i1)) (g' - (11000000 + dd + i2)));
    [lra|];
    try (low;
         pose proof (T_low (g - (11000000 + dd + i1))
                           (g' - (11000000 + dd + i2)));
         assert (g' - (11000000 + dd + i2) <= 32000000) by lra);
    lra ].

(** *** A higher gross salary never gives a lower net salary *)

Lemma net_of_mono_off g g' d :
  g <= g' ->
  0 <= net_of clamp T g' d false - net_of clamp T g d false /\
  net_of clamp T g' d false - net_of clamp T g d false <= g' - g.
Proof.
  intros Hg.
  pose proof (ins_off g) as I1. pose proof (ins_off g') as I2.
  split; between g g' d false fail.
Qed.

Lemma net_of_mono_lo g g' d :
  g <= g' -> g' <= 36000000 ->
  0 <= net_of clamp T g' d true - net_of clamp T g d true /\
  net_of clamp T g' d true - net_of clamp T g d true <= g' - g.
Proof.
  intros Hg Hc.
  assert (I1 := ins_lo g ltac:(lra)). assert (I2 := ins_lo g' Hc).
  split; between g g' d true fail.
Qed.

Lemma net_of_mono_hi g g' d :
  36000000 <= g -> g <= g' ->
  0 <= net_of clamp T g' d true - net_of clamp T g d true /\
  net_of clamp T g' d true - net_of clamp T g d true <= g' - g.
Proof.
  intros Hc Hg.
  assert (I1 := ins_hi g Hc). assert (I2 := ins_hi g' ltac:(lra)).
  split; between g g' d true fail.
Qed.

Lemma net_of_mono g g' d i :
  g <= g' ->
  0 <= net_of clamp T g' d i - net_of clamp T g d i /\
  net_of clamp T g' d i - net_of clamp T g d i <= g' - g.
Proof.
  intros Hg. destruct i; [|now apply net_of_mono_off].
  destruct (Qlt_le_dec g' 36000000) as [H1|H1];
    [apply net_of_mono_lo; lra|].
  destruct (Qlt_le_dec g 36000000) as [H2|H2];
    [|apply net_of_mono_hi; lra].
  destruct (net_of_mono_lo g 36000000 d); [lra | lra |].
  destruct (net_of_mono_hi 36000000 g' d); lra.
Qed.

(** The forward computation respects equality of amounts. *)
Lemma net_of_compat g g' d i :
  g == g' -> net_of clamp T g d i == net_of clamp T g' d i.
Proof.
  intros E.
  destruct (net_of_mono g g' d i); [lra|].
  destruct (net_of_mono g' g d i); lra.
Qed.

(** *** With a non-negative number of dependents the net salary grows by at
    least 65% of the growth of the gross salary *)

Section Slope.

Variable d : Z.
Hypothesis d_nonneg : (0 <= d)%Z.

Lemma net_of_slope_off g g' :
  g <= g' ->
  0.65 * (g' - g) <= net_of clamp T g' d false - net_of clamp T g d false.
Proof.
  intros Hg.
  pose proof (ins_off g) as I1. pose proof (ins_off g') as I2.
  between g g' d false fail.
Qed.

Lemma net_of_slope_lo g g' :
  g <= g' -> g' <= 36000000 ->
  0.65 * (g' - g) <= net_of clamp T g' d true - net_of clamp T g d true.
Proof.
  intros Hg Hc.
  assert (I1 := ins_lo g ltac:(lra)). assert (I2 := ins_lo g' Hc).
  pose proof (dependents_nonneg d d_nonneg) as Hd.
  between g g' d true idtac.
Qed.

Lemma net_of_slope_hi g g' :
  36000000 <= g -> g <= g' ->
  0.65 * (g' - g) <= net_of clamp T g' d true - net_of clamp T g d true.
Proof.
  intros Hc Hg.
  assert (I1 := ins_hi g Hc). assert (I2 := ins_hi g' ltac:(lra)).
  between g g' d true fail.
Qed.

Lemma net_of_slope g g' i :
  g <= g' ->
  0.65 * (g' - g) <= net_of clamp T g' d i - net_of clamp T g d i.
Proof.
  intros Hg. destruct i; [|now apply net_of_slope_off].
  destruct (Qlt_le_dec g' 36000000) as [H1|H1];
    [apply net_of_slope_lo; lra|].
  destruct (Qlt_le_dec g 36000000) as [H2|H2];
    [|apply net_of_slope_hi; lra].
  pose proof (net_of_slope_lo g 36000000 ltac:(lra) ltac:(lra)).
  pose proof (net_of_slope_hi 36000000 g' ltac:(lra) ltac:(lra)).
  lra.
Qed.

End Slope.

(** *** The net salary of a non-negative gross salary is not negative *)

Lemma net_of_zero d i :
  (0 <= d)%Z -> net_of clamp T 0 d i == 0.
Proof.
  intros Hd. apply dependents_nonneg in Hd.
  assert (Hi : clamp 0 i * sumRates EmployeeInsurance == 0).
  { destruct i; [rewrite ins_lo by lra; lra | apply ins_off]. }
  unfold net_of, PersonalDeduction. cbv zeta.
  set (dd := inject_Z d * DependentDeduction) in *.
  set (ins := clamp 0 i * sumRates EmployeeInsurance) in *.
  destruct (max_spec 0 (0 - (11000000 + dd + ins))) as [[M ->]|[M ->]]; lra.
Qed.

Lemma net_of_nonneg g d i :
  (0 <= d)%Z -> 0 <= g -> 0 <= net_of clamp T g d i.
Proof.
  intros Hd Hg.
  pose proof (net_of_zero d i Hd).
  destruct (net_of_mono 0 g d i Hg). lra.
Qed.

(** *** The residual of the solver *)

Section Solver.

Variable targetNet : Q.
Variable d : Z.
Variable i : bool.
Hypothesis d_nonneg : (0 <= d)%Z.

(** A correction from a guess whose net salary is not above the target moves
    the guess up, keeps its net salary at or below the target and leaves at
    most 35% of the residual. *)
Lemma correct_residual g :
  0 <= targetNet - net_of clamp T g d i ->
  g <= correct clamp T targetNet d i g /\
  0 <= targetNet - net_of clamp T (correct clamp T targetNet d i g) d i /\
  targetNet - net_of clamp T (correct clamp T targetNet d i g) d i
    <= 0.35 * (targetNet - net_of clamp T g d i).
Proof.
  intros He. unfold correct.
  set (g' := g + (targetNet - net_of clamp T g d i)).
  assert (Eg : g' == g + (targetNet - net_of clamp T g d i)) by reflexivity.
  clearbody g'.
  assert (Hg : g <= g') by lra.
  pose proof (net_of_mono g g' d i Hg) as (_ & Hup).
  pose proof (net_of_slope d d_nonneg g g' i Hg) as Hlo.
  repeat split; lra.
Qed.

Lemma iter_residual (n : nat) g :
  0 <= targetNet - net_of clamp T g d i ->
  g <= Nat.iter n (correct clamp T targetNet d i) g /\
  0 <= targetNet
       - net_of clamp T (Nat.iter n (correct clamp T targetNet d i) g) d i /\
  targetNet - net_of clamp T (Nat.iter n (correct clamp T targetNet d i) g) d i
    <= shrink n (targetNet - net_of clamp T g d i).
Proof.
  intros He. induction n as [|n (IH1 & IH2 & IH3)]; simpl.
  - repeat split; lra.
  - destruct (correct_residual _ IH2) as (C1 & C2 & C3).
    repeat split; lra.
Qed.

(** The first guess is the target itself: its residual is the insurance and
    the tax on it. *)
Lemma initial_residual :
  0 <= targetNet ->
  0 <= targetNet - net_of clamp T targetNet d i /\
  targetNet - net_of clamp T targetNet d i <= 3780000 + 0.35 * targetNet.
Proof.
  intros Ht.
  pose proof (dependents_nonneg d d_nonneg) as Hd.
  assert (Hi : 0 <= clamp targetNet i * sumRates EmployeeInsurance /\
               clamp targetNet i * sumRates EmployeeInsurance <= 3780000).
  { destruct i.
    - destruct (Qlt_le_dec targetNet 36000000).
      + rewrite ins_lo by lra. lra.
      + rewrite ins_hi by lra. lra.
    - rewrite ins_off. lra. }
  unfold net_of, PersonalDeduction. cbv zeta.
  set (dd := inject_Z d * DependentDeduction) in *.
  set (ins := clamp targetNet i * sumRates EmployeeInsurance) in *.
  destruct (max_spec 0 (targetNet - (11000000 + dd + ins)))
    as [[M ->]|[M ->]].
  - lra.
  - destruct (T_slope 0 (targetNet - (11000000 + dd + ins)) M). lra.
Qed.

(** After [n] corrections from the target itself the guess is at least the
    target and its net salary misses the target from below by at most the
    initial residual shrunk [n] times. *)
Lemma solver_residual (n : nat) :
  0 <= targetNet ->
  targetNet <= Nat.iter n (correct clamp T targetNet d i) targetNet /\
  0 <= targetNet
       - net_of clamp T
           (Nat.iter n (correct clamp T targetNet d i) targetNet) d i /\
  targetNet
  - net_of clamp T (Nat.iter n (correct clamp T targetNet d i) targetNet) d i
    <= shrink n (3780000 + 0.35 * targetNet).
Proof.
  intros Ht. destruct (initial_residual Ht) as (I0 & I1).
  destruct (iter_residual n targetNet I0) as (R0 & R1 & R2).
  pose proof (shrink_mono n _ _ I1).
  repeat split; lra.
Qed.

End Solver.

End ForwardNet.

(** ** Counted loops *)

Lemma fold_left_const {A : Type} (body : Q -> Q) (l : list A) :
  forall g,
    fold_left (fun x (_ : A) => body x) l g = Nat.iter (length l) body g.
Proof.
  induction l as [|a l IH]; intros g; simpl; [reflexivity|].
  rewrite IH. symmetry. apply Nat.iter_succ_r.
Qed.

(** [for_range n body] runs [body] exactly [n] times. *)
Lemma for_range_iter (n : nat) (body : Q -> Q) (g : Q) :
  for_range n body g = Nat.iter n body g.
Proof. unfold for_range. now rewrite fold_left_const, length_seq. Qed.

Lemma iter_ext (n : nat) (f f' : Q -> Q) (g : Q) :
  (forall x, f x = f' x) -> Nat.iter n f g = Nat.iter n f' g.
Proof.
  intros E. induction n as [|n IH]; simpl; [reflexivity|]. now rewrite IH, E.
Qed.

(** Iterating a function that respects [==] can reduce the fraction after
    every step; this is how the solver is evaluated on concrete inputs. *)
Lemma iter_Qred (n : nat) (f : Q -> Q) (g : Q) :
  (forall x y, x == y -> f x == f y) ->
  Nat.iter n f g == Nat.iter n (fun x => Qred (f x)) g.
Proof.
  intros C. induction n as [|n IH]; simpl; [reflexivity|].
  rewrite Qred_correct. now apply C.
Qed.

(* ================================================================== *)
(** ** The two programs as instances *)

Lemma Go_clamp_off g : Go.clampInsuranceBase g false == 0.
Proof. reflexivity. Qed.

Lemma Go_clamp_hi g :
  InsuranceCap <= g -> Go.clampInsuranceBase g true == InsuranceCap.
Proof.
  intros H. unfold Go.clampInsuranceBase. simpl.
  case_Qltb InsuranceCap g; lra.
Qed.

Lemma Go_clamp_lo g :
  g <= InsuranceCap -> Go.clampInsuranceBase g true == g.
Proof.
  intros H. unfold Go.clampInsuranceBase. simpl.
  case_Qltb InsuranceCap g; lra.
Qed.

Lemma TS_clamp_off g : TS.clampInsuranceBase g false == 0.
Proof. reflexivity. Qed.

Lemma TS_clamp_hi g :
  InsuranceCap <= g -> TS.clampInsuranceBase g true == InsuranceCap.
Proof.
  intros H. unfold TS.clampInsuranceBase.
  destruct (min_spec g InsuranceCap) as [[? ->]|[? ->]]; lra.
Qed.

Lemma TS_clamp_lo g :
  g <= InsuranceCap -> TS.clampInsuranceBase g true == g.
Proof.
  intros H. unfold TS.clampInsuranceBase.
  destruct (min_spec g InsuranceCap) as [[? ->]|[? ->]]; lra.
Qed.

(** In both tables the first four brackets cover 32,000,000 of taxable
    income at rates of at most 20%. *)
Lemma low_brackets_slope (bs : list TaxBracket) :
  Forall (bracket_ok 0.35) bs ->
  Forall (bracket_ok 0.2) (firstn 4 bs) ->
  within 32000000 (capacity (firstn 4 bs)) ->
  forall x y, x <= y -> y <= 32000000 ->
              total_of bs y - total_of bs x <= 0.2 * (y - x).
Proof.
  intros Hall Hlow Hcap x y Hxy Hy.
  rewrite <- (firstn_skipn 4 bs).
  assert (W : forall z, z <= 32000000 -> within z (capacity (firstn 4 bs))).
  { intros z Hz.
    destruct (capacity (firstn 4 bs)); simpl in *; [lra | exact I]. }
  rewrite !(total_of_app 0.2 _ _ Hlow) by (apply W; lra).
  apply total_of_slope; [lra | exact Hlow | exact Hxy].
Qed.

Lemma Go_total_slope x y :
  x <= y ->
  0 <= total_of Go.TaxBrackets y - total_of Go.TaxBrackets x /\
  total_of Go.TaxBrackets y - total_of Go.TaxBrackets x <= 0.35 * (y - x).
Proof. apply total_of_slope; [lra | exact Go_brackets_ok]. Qed.

Lemma Go_total_low x y :
  x <= y -> y <= 32000000 ->
  total_of Go.TaxBrackets y - total_of Go.TaxBrackets x <= 0.2 * (y - x).
Proof.
  apply low_brackets_slope; [exact Go_brackets_ok | |].
  - unfold Go.TaxBrackets, bracket_ok. repeat constructor; simpl; lra.
  - simpl. lra.
Qed.

Lemma TS_total_slope x y :
  x <= y ->
  0 <= total_of TS.TAX_BRACKETS y - total_of TS.TAX_BRACKETS x /\
  total_of TS.TAX_BRACKETS y - total_of TS.TAX_BRACKETS x <= 0.35 * (y - x).
Proof. apply total_of_slope; [lra | exact TS_brackets_ok]. Qed.

Lemma TS_total_low x y :
  x <= y -> y <= 32000000 ->
  total_of TS.TAX_BRACKETS y - total_of TS.TAX_BRACKETS x <= 0.2 * (y - x).
Proof.
  apply low_brackets_slope; [exact TS_brackets_ok | |].
  - unfold TS.TAX_BRACKETS, bracket_ok. repeat constructor; simpl; lra.
  - simpl. lra.
Qed.

Lemma Go_total_zero : total_of Go.TaxBrackets 0 == 0.
Proof. reflexivity. Qed.

Lemma TS_total_zero : total_of TS.TAX_BRACKETS 0 == 0.
Proof. reflexivity. Qed.

(** What [ForwardNet] assumes of a program, for each of the two. *)
Create HintDb go_facts.
Create HintDb ts_facts.

#[local] Hint Resolve Go_clamp_off Go_clamp_hi Go_clamp_lo Go_total_slope
  Go_total_low Go_total_zero : go_facts.
#[local] Hint Resolve TS_clamp_off TS_clamp_hi TS_clamp_lo TS_total_slope
  TS_total_low TS_total_zero : ts_facts.

(** The net salary of a result is [net_of] of its gross salary, and a pass
    through the body of the solver's loop is one [correct]. *)
Lemma Go_result_net g d i :
  Go.net (Go.result_of_gross g d i) =
  net_of Go.clampInsuranceBase (total_of Go.TaxBrackets) g d i.
Proof.
  unfold Go.result_of_gross, net_of. rewrite Go_calculateTax_eq. reflexivity.
Qed.

Lemma Go_solve_body_correct t d i g :
  Go.solve_body t d i g =
  correct Go.clampInsuranceBase (total_of Go.TaxBrackets) t d i g.
Proof.
  unfold Go.solve_body, correct, net_of. rewrite Go_calculateTax_eq.
  reflexivity.
Qed.

Lemma TS_data_net g d i :
  TS.netMonthly (TS.data_of_gross g d i) =
  net_of TS.clampInsuranceBase (total_of TS.TAX_BRACKETS) g d i.
Proof.
  unfold TS.data_of_gross, net_of. rewrite TS_calculateTaxBreakdown_eq.
  reflexivity.
Qed.

Lemma TS_solve_body_correct t d i g :
  TS.solve_body t d i g =
  correct TS.clampInsuranceBase (total_of TS.TAX_BRACKETS) t d i g.
Proof.
  unfold TS.solve_body, correct, net_of. rewrite TS_calculateTaxBreakdown_eq.
  reflexivity.
Qed.

Lemma Go_net_mono g g' d i :
  g <= g' ->
  0 <= Go.net (Go.result_of_gross g' d i) - Go.net (Go.result_of_gross g d i) /\
  Go.net (Go.result_of_gross g' d i) - Go.net (Go.result_of_gross g d i)
    <= g' - g.
Proof.
  rewrite !Go_result_net.
  apply net_of_mono;
    auto with go_facts.
Qed.

Lemma TS_net_mono g g' d i :
  g <= g' ->
  0 <= TS.netMonthly (TS.data_of_gross g' d i)
       - TS.netMonthly (TS.data_of_gross g d i) /\
  TS.netMonthly (TS.data_of_gross g' d i)
  - TS.netMonthly (TS.data_of_gross g d i) <= g' - g.
Proof.
  rewrite !TS_data_net.
  apply net_of_mono;
    auto with ts_facts.
Qed.

(* ================================================================== *)
(** ** Monotonicity of the forward computation *)

(** C4, as amended (index.tsx 171-211, tui.go 332-346).  Computed in exact
    arithmetic, for [gross2 > gross1 >= 0] and the same dependents and
    insurance flag, the net monthly salary computed from [gross2] is at
    least the one computed from [gross1]. *)
Theorem C4_net_monotone (gross1 gross2 : Q) (dependents : Z)
    (insurance : bool) :
  0 <= gross1 -> gross1 < gross2 ->
  TS.netMonthly (TS.data_of_gross gross1 dependents insurance)
    <= TS.netMonthly (TS.data_of_gross gross2 dependents insurance) /\
  Go.net (Go.result_of_gross gross1 dependents insurance)
    <= Go.net (Go.result_of_gross gross2 dependents insurance).
Proof.
  intros _ H.
  destruct (TS_net_mono gross1 gross2 dependents insurance); [lra|].
  destruct (Go_net_mono gross1 gross2 dependents insurance); [lra|].
  split; lra.
Qed.

Lemma C4_net_monotone_witness :
  0 <= 20000000 /\ 20000000 < 50000000 /\
  TS.netMonthly (TS.data_of_gross 20000000 1 true)
    <= TS.netMonthly (TS.data_of_gross 50000000 1 true) /\
  Go.net (Go.result_of_gross 20000000 1 true)
    <= Go.net (Go.result_of_gross 50000000 1 true).
Proof.
  split; [discriminate|]. split; [reflexivity|].
  apply (C4_net_monotone 20000000 50000000 1 true);
    [discriminate | reflexivity].
Defined.

(* ================================================================== *)
(** ** Evaluating the solver *)

Lemma Go_net_compat g g' d i :
  g == g' ->
  Go.net (Go.result_of_gross g d i) == Go.net (Go.result_of_gross g' d i).
Proof.
  intros E. destruct (Go_net_mono g g' d i); [lra|].
  destruct (Go_net_mono g' g d i); lra.
Qed.

Lemma TS_net_compat g g' d i :
  g == g' ->
  TS.netMonthly (TS.data_of_gross g d i)
  == TS.netMonthly (TS.data_of_gross g' d i).
Proof.
  intros E. destruct (TS_net_mono g g' d i); [lra|].
  destruct (TS_net_mono g' g d i); lra.
Qed.

Lemma Go_solve_body_compat t d i g g' :
  g == g' -> Go.solve_body t d i g == Go.solve_body t d i g'.
Proof.
  intros E. rewrite !Go_solve_body_correct. unfold correct.
  rewrite <- !Go_result_net.
  pose proof (Go_net_compat g g' d i E). lra.
Qed.

Lemma TS_solve_body_compat t d i g g' :
  g == g' -> TS.solve_body t d i g == TS.solve_body t d i g'.
Proof.
  intros E. rewrite !TS_solve_body_correct. unfold correct.
  rewrite <- !TS_data_net.
  pose proof (TS_net_compat g g' d i E). lra.
Qed.

(** The solvers, with the guess reduced to lowest terms after each pass. *)
Lemma Go_solveGrossFromNet_eval t d i :
  Go.solveGrossFromNet t d i ==
  Nat.iter 20 (fun g => Qred (Go.solve_body t d i g)) t.
Proof.
  unfold Go.solveGrossFromNet. rewrite for_range_iter.
  apply iter_Qred. intros x y. apply Go_solve_body_compat.
Qed.

Lemma max_compat a b b' : b == b' -> max a b == max a b'.
Proof.
  intros E.
  destruct (max_spec a b) as [[? ->]|[? ->]];
  destruct (max_spec a b') as [[? ->]|[? ->]]; lra.
Qed.

Lemma TS_solveGrossFromNet_eval t d i :
  TS.solveGrossFromNet t d i ==
  max 0 (Nat.iter 20 (fun g => Qred (TS.solve_body t d i g)) t).
Proof.
  unfold TS.solveGrossFromNet. rewrite for_range_iter.
  apply max_compat.
  apply iter_Qred. intros x y. apply TS_solve_body_compat.
Qed.

(* ================================================================== *)
(** ** Signs of the computed amounts *)

Lemma total_of_nonneg (r : Q) (bs : list TaxBracket) (x : Q) :
  0 <= r -> Forall (bracket_ok r) bs -> 0 <= total_of bs x.
Proof.
  intros Hr Hbs.
  destruct (Qlt_le_dec 0 x) as [Hx|Hx].
  - destruct (total_of_slope r bs Hr Hbs 0 x) as (H & _); [lra|].
    rewrite (total_of_nonpos bs 0) in H; lra.
  - rewrite total_of_nonpos by exact Hx. lra.
Qed.

Lemma lines_nonneg (r : Q) (bs : list TaxBracket) (x : Q) :
  Forall (bracket_ok r) bs ->
  Forall (fun ln => 0 <= rate ln /\ 0 <= taxable ln /\ 0 <= tax ln)
         (out_of bs x).
Proof.
  intros Hbs. destruct (out_of_lines r bs Hbs x) as (_ & _ & F).
  eapply Forall_impl; [|exact F].
  intros ln (Ht & (Hr & _) & E). repeat split; try lra.
  rewrite E. apply Qmult_le_0_compat; lra.
Qed.

(** What the solvers return for a non-negative target: a gross salary that
    is at least the target, whose net salary misses the target from below by
    at most the initial residual shrunk 20 times. *)
Lemma Go_solver_residual t d i :
  0 <= t -> (0 <= d)%Z ->
  t <= Go.solveGrossFromNet t d i /\
  0 <= t - Go.net (Go.result_of_gross (Go.solveGrossFromNet t d i) d i) /\
  t - Go.net (Go.result_of_gross (Go.solveGrossFromNet t d i) d i)
    <= shrink 20 (3780000 + 0.35 * t).
Proof.
  intros Ht Hd. unfold Go.solveGrossFromNet. rewrite for_range_iter.
  rewrite (iter_ext 20 _ _ t (Go_solve_body_correct t d i)).
  rewrite Go_result_net.
  apply solver_residual;
    auto with go_facts.
Qed.

Lemma TS_solver_residual t d i :
  0 <= t -> (0 <= d)%Z ->
  t <= TS.solveGrossFromNet t d i /\
  0 <= t - TS.netMonthly (TS.data_of_gross (TS.solveGrossFromNet t d i) d i) /\
  t - TS.netMonthly (TS.data_of_gross (TS.solveGrossFromNet t d i) d i)
    <= shrink 20 (3780000 + 0.35 * t).
Proof.
  intros Ht Hd. unfold TS.solveGrossFromNet. rewrite for_range_iter.
  rewrite (iter_ext 20 _ _ t (TS_solve_body_correct t d i)).
  assert (H : t <= Nat.iter 20
                (correct TS.clampInsuranceBase (total_of TS.TAX_BRACKETS) t d i)
                t /\ _) by
    (apply (solver_residual TS.clampInsuranceBase (total_of TS.TAX_BRACKETS));
     auto with ts_facts).
  destruct H as (H0 & H1).
  assert (E : max 0 (Nat.iter 20
                (correct TS.clampInsuranceBase (total_of TS.TAX_BRACKETS) t d i)
                t) =
              Nat.iter 20
                (correct TS.clampInsuranceBase (total_of TS.TAX_BRACKETS) t d i)
                t).
  { unfold max. case_Qltb (Nat.iter 20
                (correct TS.clampInsuranceBase (total_of TS.TAX_BRACKETS) t d i)
                t) 0; [lra | reflexivity]. }
  rewrite E, TS_data_net. split; [exact H0 | exact H1].
Qed.

Lemma max_lower a b : a <= max a b.
Proof. destruct (max_spec a b) as [[? ->]|[? ->]]; lra. Qed.

Lemma toMonthly_nonneg v p : 0 <= v -> 0 <= toMonthly v p.
Proof.
  intros H. destruct p; unfold toMonthly; [exact H|].
  apply Qmult_le_0_compat; [exact H | discriminate].
Qed.

Lemma Go_result_of_gross_nonneg g d i :
  0 <= g -> (0 <= d)%Z ->
  let r := Go.result_of_gross g d i in
  0 <= Go.gross r /\ 0 <= Go.base r /\ 0 <= Go.empIns r /\
  0 <= Go.deductions r /\ 0 <= Go.taxable_income r /\
  Forall (fun ln => 0 <= rate ln /\ 0 <= taxable ln /\ 0 <= tax ln)
         (Go.breakdown r) /\
  0 <= Go.total_tax r /\ 0 <= Go.net r /\
  Go.net r = Go.gross r - Go.empIns r - Go.total_tax r.
Proof.
  intros Hg Hd r.
  assert (Hnet : 0 <= Go.net r).
  { unfold r. rewrite Go_result_net.
    apply net_of_nonneg;
      auto with go_facts. }
  revert Hnet. unfold r, Go.result_of_gross.
  rewrite Go_calculateTax_eq. simpl. intros Hnet.
  pose proof (dependents_nonneg d Hd) as Hdd.
  assert (Hb : 0 <= Go.clampInsuranceBase g i).
  { destruct i; [|apply Qle_refl].
    unfold Go.clampInsuranceBase, InsuranceCap. simpl.
    case_Qltb 36000000 g; lra. }
  assert (Hi : 0 <= Go.clampInsuranceBase g i * sumRates EmployeeInsurance).
  { apply Qmult_le_0_compat; [exact Hb | discriminate]. }
  unfold PersonalDeduction in *.
  repeat split; try lra.
  - apply max_lower.
  - apply (lines_nonneg 0.35), Go_brackets_ok.
  - apply (total_of_nonneg 0.35); [lra | exact Go_brackets_ok].
Qed.

Lemma TS_data_of_gross_nonneg g d i :
  0 <= g -> (0 <= d)%Z ->
  let r := TS.data_of_gross g d i in
  0 <= TS.grossMonthly r /\ 0 <= TS.insuranceBase r /\
  0 <= TS.employeeInsurance r /\ 0 <= TS.employerInsurance r /\
  0 <= TS.personalDeduction r /\ 0 <= TS.dependentDeduction r /\
  0 <= TS.totalDeductions r /\ 0 <= TS.taxableIncome r /\
  Forall (fun ln => 0 <= rate ln /\ 0 <= taxable ln /\ 0 <= tax ln)
         (TS.breakdown r) /\
  0 <= TS.totalTax r /\ 0 <= TS.netMonthly r /\ 0 <= TS.totalLaborCost r /\
  TS.netMonthly r
  = TS.grossMonthly r - TS.employeeInsurance r - TS.totalTax r.
Proof.
  intros Hg Hd r.
  assert (Hnet : 0 <= TS.netMonthly r).
  { unfold r. rewrite TS_data_net.
    apply net_of_nonneg;
      auto with ts_facts. }
  revert Hnet. unfold r, TS.data_of_gross.
  rewrite TS_calculateTaxBreakdown_eq. simpl. intros Hnet.
  pose proof (dependents_nonneg d Hd) as Hdd.
  assert (Hb : 0 <= TS.clampInsuranceBase g i).
  { destruct i; [|apply Qle_refl].
    unfold TS.clampInsuranceBase, InsuranceCap.
    destruct (min_spec g 36000000) as [[? ->]|[? ->]]; lra. }
  assert (Hi : 0 <= TS.clampInsuranceBase g i * sumRates EmployeeInsurance).
  { apply Qmult_le_0_compat; [exact Hb | discriminate]. }
  assert (Hj : 0 <= TS.clampInsuranceBase g i * sumRates EmployerInsurance).
  { apply Qmult_le_0_compat; [exact Hb | discriminate]. }
  unfold PersonalDeduction in *.
  repeat split; try lra.
  - apply max_lower.
  - apply (lines_nonneg 0.35), TS_brackets_ok.
  - apply (total_of_nonneg 0.35); [lra | exact TS_brackets_ok].
Qed.

(** C9 (index.tsx 171-211, tui.go 332-346).  In exact arithmetic: for a
    non-negative income and a non-negative number of dependents, whatever
    the mode, the period and the insurance flag, every amount of the
    computed result is non-negative -- in the browser form and in the
    wizard -- and the net salary is the gross salary less the employee's
    insurance and the tax.  On binary64 numbers the amounts can be [NaN]
    where the solver overflows; the last section has the run. *)
Theorem C9_amounts_nonnegative (mode : SalaryMode) (period : Period)
    (income : Q) (dependents : Z) (insurance : bool) :
  0 <= income -> (0 <= dependents)%Z ->
  (let r := TS.data mode period income dependents insurance in
   0 <= TS.grossMonthly r /\ 0 <= TS.insuranceBase r /\
   0 <= TS.employeeInsurance r /\ 0 <= TS.employerInsurance r /\
   0 <= TS.personalDeduction r /\ 0 <= TS.dependentDeduction r /\
   0 <= TS.totalDeductions r /\ 0 <= TS.taxableIncome r /\
   Forall (fun ln => 0 <= rate ln /\ 0 <= taxable ln /\ 0 <= tax ln)
          (TS.breakdown r) /\
   0 <= TS.totalTax r /\ 0 <= TS.netMonthly r /\ 0 <= TS.totalLaborCost r /\
   TS.netMonthly r
   = TS.grossMonthly r - TS.employeeInsurance r - TS.totalTax r) /\
  (let r := Go.resultView {| Go.mode := mode; Go.period := period;
                             Go.income := income;
                             Go.dependents := dependents;
                             Go.insurance := insurance |} in
   0 <= Go.gross r /\ 0 <= Go.base r /\ 0 <= Go.empIns r /\
   0 <= Go.deductions r /\ 0 <= Go.taxable_income r /\
   Forall (fun ln => 0 <= rate ln /\ 0 <= taxable ln /\ 0 <= tax ln)
          (Go.breakdown r) /\
   0 <= Go.total_tax r /\ 0 <= Go.net r /\
   Go.net r = Go.gross r - Go.empIns r - Go.total_tax r).
Proof.
  intros Hi Hd. split.
  - unfold TS.data. apply TS_data_of_gross_nonneg; [|exact Hd].
    apply toMonthly_nonneg. destruct mode; [exact Hi | apply max_lower].
  - unfold Go.resultView. simpl.
    apply Go_result_of_gross_nonneg; [|exact Hd].
    destruct mode; [now apply toMonthly_nonneg|].
    destruct (Go_solver_residual income dependents insurance Hi Hd) as (H & _).
    lra.
Qed.

Lemma C9_amounts_nonnegative_witness :
  0 <= 20000000 /\ (0 <= 2)%Z /\
  (let r := TS.data Net Annual 20000000 2 true in
   0 <= TS.grossMonthly r /\ 0 <= TS.insuranceBase r /\
   0 <= TS.employeeInsurance r /\ 0 <= TS.employerInsurance r /\
   0 <= TS.personalDeduction r /\ 0 <= TS.dependentDeduction r /\
   0 <= TS.totalDeductions r /\ 0 <= TS.taxableIncome r /\
   Forall (fun ln => 0 <= rate ln /\ 0 <= taxable ln /\ 0 <= tax ln)
          (TS.breakdown r) /\
   0 <= TS.totalTax r /\ 0 <= TS.netMonthly r /\ 0 <= TS.totalLaborCost r /\
   TS.netMonthly r
   = TS.grossMonthly r - TS.employeeInsurance r - TS.totalTax r) /\
  (let r := Go.resultView {| Go.mode := Net; Go.period := Annual;
                             Go.income := 20000000;
                             Go.dependents := 2;
                             Go.insurance := true |} in
   0 <= Go.gross r /\ 0 <= Go.base r /\ 0 <= Go.empIns r /\
   0 <= Go.deductions r /\ 0 <= Go.taxable_income r /\
   Forall (fun ln => 0 <= rate ln /\ 0 <= taxable ln /\ 0 <= tax ln)
          (Go.breakdown r) /\
   0 <= Go.total_tax r /\ 0 <= Go.net r /\
   Go.net r = Go.gross r - Go.empIns r - Go.total_tax r).
Proof.
  split; [discriminate|]. split; [discriminate|].
  apply (C9_amounts_nonnegative Net Annual 20000000 2 true); discriminate.
Defined.

(* ================================================================== *)
(** ** The effective tax rate *)

(** C8 (index.tsx 209).  The effective tax rate is the total tax divided by
    the gross monthly salary when that salary is positive and [0] when it is
    [0]; the quotient is only formed with a non-zero divisor, so the rate is
    always a finite number. *)
Theorem C8_effective_tax_rate (grossMonthly : Q) (dependents : Z)
    (insuranceEnabled : bool) :
  let r := TS.data_of_gross grossMonthly dependents insuranceEnabled in
  (0 < grossMonthly ->
   TS.effectiveTaxRate r = TS.Num (TS.totalTax r / grossMonthly)) /\
  (grossMonthly == 0 -> TS.effectiveTaxRate r = TS.Num 0) /\
  (exists q, TS.effectiveTaxRate r = TS.Num q).
Proof.
  unfold TS.data_of_gross.
  destruct (TS.calculateTaxBreakdown _) as [breakdown totalTax]. simpl.
  unfold TS.truthy, TS.div.
  destruct (Qeq_bool grossMonthly 0) eqn:E; simpl.
  - apply Qeq_bool_iff in E. repeat split.
    + intros H. lra.
    + now exists 0.
  - repeat split.
    + intros H. apply Qeq_bool_iff in H. congruence.
    + eexists. reflexivity.
Qed.

Lemma C8_effective_tax_rate_witness :
  (0 < 20000000 /\
   TS.effectiveTaxRate (TS.data_of_gross 20000000 0 true)
   = TS.Num (TS.totalTax (TS.data_of_gross 20000000 0 true) / 20000000)) /\
  (0 == 0 /\ TS.effectiveTaxRate (TS.data_of_gross 0 0 true) = TS.Num 0).
Proof.
  split.
  - split; [reflexivity|].
    apply (proj1 (C8_effective_tax_rate 20000000 0 true)). reflexivity.
  - split; [reflexivity|].
    apply (proj1 (proj2 (C8_effective_tax_rate 0 0 true))). reflexivity.
Defined.

(* ================================================================== *)
(** ** The solver *)

(** Both solvers run the residual correction exactly 20 times from the
    target, whatever the guesses are; the TypeScript one then clamps the
    last guess at zero, the Go one returns it as it is. *)
Lemma TS_solveGrossFromNet_fixed_budget t d i :
  TS.solveGrossFromNet t d i =
  max 0 (Nat.iter 20
           (fun g => g + (t - TS.netMonthly (TS.data_of_gross g d i))) t) /\
  0 <= TS.solveGrossFromNet t d i.
Proof.
  split; [|apply max_lower].
  unfold TS.solveGrossFromNet. rewrite for_range_iter. f_equal.
  apply iter_ext. intros g.
  now rewrite TS_solve_body_correct, TS_data_net.
Qed.

Lemma Go_solveGrossFromNet_fixed_budget t d i :
  Go.solveGrossFromNet t d i =
  Nat.iter 20 (fun g => g + (t - Go.net (Go.result_of_gross g d i))) t.
Proof.
  unfold Go.solveGrossFromNet. rewrite for_range_iter.
  apply iter_ext. intros g.
  now rewrite Go_solve_body_correct, Go_result_net.
Qed.

(** C3 (tui.go 119-131, index.tsx 96-118).  The claim -- 20 corrections from
    [gross = targetNet], then a clamp at zero -- holds for the TypeScript
    solver ([TS_solveGrossFromNet_fixed_budget]) but the Go solver has no
    clamp: for a target of -1,000,000 without insurance it returns
    -1,000,000, where the TypeScript solver returns 0. *)
Theorem C3_go_solver_returns_negative :
  Go.solveGrossFromNet (-(1000000)) 0 false == -(1000000) /\
  Go.solveGrossFromNet (-(1000000)) 0 false < 0 /\
  TS.solveGrossFromNet (-(1000000)) 0 false == 0.
Proof.
  rewrite Go_solveGrossFromNet_eval, TS_solveGrossFromNet_eval.
  vm_compute. repeat split; reflexivity.
Qed.

(** The residual left by the 20 corrections is at most [0.35 ^ 20] of the
    initial one, which is below 1 for targets up to 3,700,000,000. *)
Lemma shrink_20_small (t : Q) :
  t <= 3700000000 -> shrink 20 (3780000 + 0.35 * t) <= 1.
Proof. intros H. cbn [shrink]. lra. Qed.

(** C2, as amended (tui.go 119-131, index.tsx 96-118).  For a target net
    salary between 0 and 3,700,000,000 and a non-negative number of
    dependents, the net salary of the gross salary that [solveGrossFromNet]
    returns is within 1 of the target, and never above it. *)
Theorem C2_round_trip_within_one (targetNet : Q) (dependents : Z)
    (insurance : bool) :
  0 <= targetNet -> targetNet <= 3700000000 -> (0 <= dependents)%Z ->
  (targetNet - 1
   <= TS.netMonthly
        (TS.data_of_gross
           (TS.solveGrossFromNet targetNet dependents insurance)
           dependents insurance) /\
   TS.netMonthly
     (TS.data_of_gross
        (TS.solveGrossFromNet targetNet dependents insurance)
        dependents insurance) <= targetNet) /\
  (targetNet - 1
   <= Go.net
        (Go.result_of_gross
           (Go.solveGrossFromNet targetNet dependents insurance)
           dependents insurance) /\
   Go.net
     (Go.result_of_gross
        (Go.solveGrossFromNet targetNet dependents insurance)
        dependents insurance) <= targetNet).
Proof.
  intros H0 H1 Hd.
  pose proof (shrink_20_small targetNet H1) as Hs.
  destruct (TS_solver_residual targetNet dependents insurance H0 Hd)
    as (_ & T1 & T2).
  destruct (Go_solver_residual targetNet dependents insurance H0 Hd)
    as (_ & G1 & G2).
  repeat split; lra.
Qed.

Lemma C2_round_trip_within_one_witness :
  0 <= 20000000 /\ 20000000 <= 3700000000 /\ (0 <= 1)%Z /\
  (20000000 - 1
   <= TS.netMonthly
        (TS.data_of_gross (TS.solveGrossFromNet 20000000 1 true) 1 true) /\
   TS.netMonthly
     (TS.data_of_gross (TS.solveGrossFromNet 20000000 1 true) 1 true)
   <= 20000000) /\
  (20000000 - 1
   <= Go.net
        (Go.result_of_gross (Go.solveGrossFromNet 20000000 1 true) 1 true) /\
   Go.net (Go.result_of_gross (Go.solveGrossFromNet 20000000 1 true) 1 true)
   <= 20000000).
Proof.
  split; [discriminate|]. split; [discriminate|]. split; [discriminate|].
  apply (C2_round_trip_within_one 20000000 1 true); discriminate.
Defined.

(** C2, as stated, fails: for a target of 4,000,000,000 (no dependents,
    insurance enabled) the net salary of the solved gross salary is more
    than 1 below the target, and for a target of 10,000,000,000 more than 2
    below it, in both programs. *)
Lemma C2_round_trip_counterexample :
  (0 <= 4000000000 /\ (0 <= 0)%Z /\
   TS.netMonthly
     (TS.data_of_gross (TS.solveGrossFromNet 4000000000 0 true) 0 true)
   < 4000000000 - 1 /\
   Go.net (Go.result_of_gross (Go.solveGrossFromNet 4000000000 0 true) 0 true)
   < 4000000000 - 1) /\
  (0 <= 10000000000 /\
   TS.netMonthly
     (TS.data_of_gross (TS.solveGrossFromNet 10000000000 0 true) 0 true)
   < 10000000000 - 2 /\
   Go.net (Go.result_of_gross (Go.solveGrossFromNet 10000000000 0 true) 0 true)
   < 10000000000 - 2).
Proof.
  split.
  - split; [discriminate|]. split; [discriminate|].
    rewrite (TS_net_compat _ _ 0 true
               (TS_solveGrossFromNet_eval 4000000000 0 true)).
    rewrite (Go_net_compat _ _ 0 true
               (Go_solveGrossFromNet_eval 4000000000 0 true)).
    vm_compute. split; reflexivity.
  - split; [discriminate|].
    rewrite (TS_net_compat _ _ 0 true
               (TS_solveGrossFromNet_eval 10000000000 0 true)).
    rewrite (Go_net_compat _ _ 0 true
               (Go_solveGrossFromNet_eval 10000000000 0 true)).
    vm_compute. split; reflexivity.
Qed.

(* ================================================================== *)
(** ** Period normalisation in net mode *)

(** Two amounts differ when their evaluations do. *)
Lemma Qneq_eval (a b a' b' : Q) :
  a == a' -> b == b' -> Qeq_bool a' b' = false -> ~ a == b.
Proof.
  intros Ea Eb H E. apply Qeq_bool_neq in H. apply H.
  now rewrite <- Ea, <- Eb.
Qed.

Lemma Qdiv_compat_l (a a' c : Q) : a == a' -> a / c == a' / c.
Proof. intros E. now rewrite E. Qed.

(** The gross monthly salary that the two results are computed from. *)
Lemma TS_data_grossMonthly mode period income d i :
  TS.grossMonthly (TS.data mode period income d i) =
  toMonthly (match mode with
             | Gross => income
             | Net => TS.solveGrossFromNet income d i
             end) period.
Proof.
  unfold TS.data, TS.data_of_gross.
  destruct (TS.calculateTaxBreakdown _). reflexivity.
Qed.

Lemma Go_resultView_gross (m : Go.model) :
  Go.gross (Go.resultView m) =
  match Go.mode m with
  | Gross => toMonthly (Go.income m) (Go.period m)
  | Net => Go.solveGrossFromNet (Go.income m) (Go.dependents m)
             (Go.insurance m)
  end.
Proof.
  unfold Go.resultView, Go.result_of_gross.
  destruct (Go.calculateTax _). reflexivity.
Qed.

(** C5 (index.tsx 171-177, tui.go 332-338).  The claim -- an annual net
    income is first divided by 12 and the solver then runs on that monthly
    target -- fails in both programs.  For an annual net income of
    240,000,000 (no dependents, insurance enabled) the browser form solves
    on the annual amount and divides the solved gross salary by 12, and the
    wizard solves on the annual amount and does not divide at all; neither
    gross salary is the one solved from the monthly target 20,000,000. *)
Theorem C5_net_annual_not_normalised_first :
  let m := {| Go.mode := Net; Go.period := Annual; Go.income := 240000000;
              Go.dependents := 0; Go.insurance := true |} in
  (TS.grossMonthly (TS.data Net Annual 240000000 0 true)
   = toMonthly (TS.solveGrossFromNet 240000000 0 true) Annual /\
   ~ TS.grossMonthly (TS.data Net Annual 240000000 0 true)
     == TS.solveGrossFromNet (toMonthly 240000000 Annual) 0 true) /\
  (Go.gross (Go.resultView m) = Go.solveGrossFromNet 240000000 0 true /\
   ~ Go.gross (Go.resultView m)
     == Go.solveGrossFromNet (toMonthly 240000000 Annual) 0 true) /\
  ~ Go.gross (Go.resultView m)
    == TS.grossMonthly (TS.data Net Annual 240000000 0 true).
Proof.
  cbv zeta. rewrite Go_resultView_gross, TS_data_grossMonthly.
  cbv beta iota delta [Go.mode Go.period Go.income Go.dependents Go.insurance
                       toMonthly].
  pose proof (TS_solveGrossFromNet_eval 240000000 0 true) as T1.
  pose proof (TS_solveGrossFromNet_eval (240000000 / 12) 0 true) as T2.
  pose proof (Go_solveGrossFromNet_eval 240000000 0 true) as G1.
  pose proof (Go_solveGrossFromNet_eval (240000000 / 12) 0 true) as G2.
  split; [split; [reflexivity|] | split; [split; [reflexivity|]|]].
  - apply (Qneq_eval _ _ _ _ (Qdiv_compat_l _ _ 12 T1) T2).
    vm_compute. reflexivity.
  - apply (Qneq_eval _ _ _ _ G1 G2). vm_compute. reflexivity.
  - apply (Qneq_eval _ _ _ _ G1 (Qdiv_compat_l _ _ 12 T1)).
    vm_compute. reflexivity.
Qed.

(* ================================================================== *)
(** * Further properties of the two programs *)

(** ** The progressive tax *)

(** The total of [calculateTax] and of [calculateTaxBreakdown] is the sum of
    the taxes of the lines, and the tax of a line is its taxable amount
    times its rate. *)
Theorem X_total_is_sum_of_lines (taxableIncome : Q) :
  (snd (Go.calculateTax taxableIncome)
   == sum_tax (fst (Go.calculateTax taxableIncome)) /\
   Forall (fun ln => tax ln == taxable ln * rate ln)
          (fst (Go.calculateTax taxableIncome))) /\
  (snd (TS.calculateTaxBreakdown taxableIncome)
   == sum_tax (fst (TS.calculateTaxBreakdown taxableIncome)) /\
   Forall (fun ln => tax ln == taxable ln * rate ln)
          (fst (TS.calculateTaxBreakdown taxableIncome))).
Proof.
  rewrite Go_calculateTax_eq, TS_calculateTaxBreakdown_eq. simpl.
  split; (split; [apply total_of_sum_tax|]).
  - destruct (out_of_lines _ _ Go_brackets_ok taxableIncome) as (_ & _ & F).
    eapply Forall_impl; [|exact F]. now intros ln (_ & _ & E).
  - destruct (out_of_lines _ _ TS_brackets_ok taxableIncome) as (_ & _ & F).
    eapply Forall_impl; [|exact F]. now intros ln (_ & _ & E).
Qed.

(** One pass of the loop over a bracket that the income exceeds, over a
    bracket that absorbs the income, and over an unbounded bracket. *)
Lemma total_of_full (b : TaxBracket) (w : Q) (bs : list TaxBracket) (x : Q) :
  Limit b = Finite w -> 0 < x -> w <= x ->
  total_of (b :: bs) x == w * Rate b + total_of bs (x - w).
Proof.
  intros E Hx Hw. rewrite total_of_cons_pos by exact Hx. rewrite E. simpl.
  destruct (min_spec w x) as [[H ->]|[H ->]]; [reflexivity|].
  assert (Exw : x == w) by lra.
  rewrite (total_of_nonpos bs (x - x)), (total_of_nonpos bs (x - w)) by lra.
  apply Qplus_comp; [|reflexivity].
  apply Qmult_comp; [exact Exw | reflexivity].
Qed.

Lemma total_of_last (b : TaxBracket) (w : Q) (bs : list TaxBracket) (x : Q) :
  Limit b = Finite w -> 0 < x -> x <= w ->
  total_of (b :: bs) x == x * Rate b.
Proof.
  intros E Hx Hw. rewrite total_of_cons_pos by exact Hx. rewrite E. simpl.
  destruct (min_spec w x) as [[H ->]|[H ->]].
  - assert (Exw : x == w) by lra.
    rewrite (total_of_nonpos bs (x - w)) by lra.
    rewrite Qplus_0_r. apply Qmult_comp; [symmetry; exact Exw | reflexivity].
  - rewrite (total_of_nonpos bs (x - x)) by lra. lra.
Qed.

Lemma total_of_unbounded (b : TaxBracket) (bs : list TaxBracket) (x : Q) :
  Limit b = Infinity -> 0 < x -> total_of (b :: bs) x == x * Rate b.
Proof.
  intros E Hx. rewrite total_of_cons_pos by exact Hx. rewrite E. simpl.
  rewrite (total_of_nonpos bs (x - x)) by lra. lra.
Qed.

Lemma total_of_full_at (w r : Q) (bs : list TaxBracket) (x : Q) :
  0 < x -> w <= x ->
  total_of ({| Limit := Finite w; Rate := r |} :: bs) x
  == w * r + total_of bs (x - w).
Proof. now apply total_of_full. Qed.

Lemma total_of_last_at (w r : Q) (bs : list TaxBracket) (x : Q) :
  0 < x -> x <= w ->
  total_of ({| Limit := Finite w; Rate := r |} :: bs) x == x * r.
Proof. now apply total_of_last. Qed.

Lemma total_of_unbounded_at (r : Q) (bs : list TaxBracket) (x : Q) :
  0 < x -> total_of ({| Limit := Infinity; Rate := r |} :: bs) x == x * r.
Proof. now apply total_of_unbounded. Qed.

(** Steps the loop over a bracket that the income exceeds. *)
Ltac full_bracket := rewrite total_of_full_at by lra.

(** Ends the loop in the bracket that absorbs what is left of the income. *)
Ltac last_bracket r :=
  destruct (Qlt_le_dec 0 r);
  [ first [ rewrite total_of_last_at by lra
          | rewrite total_of_unbounded_at by lra ];
    lra
  | rewrite (total_of_nonpos _ r) by lra; lra ].

(** The total by bands of cumulative taxable income: up to 5, 10, 18, 32,
    52 and 80 million and above. *)
Lemma TS_total_by_bands (x : Q) :
  let T := total_of TS.TAX_BRACKETS x in
  (0 <= x <= 5000000 -> T == 0.05 * x) /\
  (5000000 <= x <= 10000000 -> T == 0.1 * x - 250000) /\
  (10000000 <= x <= 18000000 -> T == 0.15 * x - 750000) /\
  (18000000 <= x <= 32000000 -> T == 0.2 * x - 1650000) /\
  (32000000 <= x <= 52000000 -> T == 0.25 * x - 3250000) /\
  (52000000 <= x <= 80000000 -> T == 0.3 * x - 5850000) /\
  (80000000 <= x -> T == 0.35 * x - 9850000).
Proof.
  cbv zeta. unfold TS.TAX_BRACKETS.
  split; [|split; [|split; [|split; [|split; [|split]]]]]; intros H.
  - last_bracket x.
  - full_bracket. last_bracket (x - 5000000).
  - do 2 full_bracket. last_bracket (x - 5000000 - 5000000).
  - do 3 full_bracket. last_bracket (x - 5000000 - 5000000 - 8000000).
  - do 4 full_bracket.
    last_bracket (x - 5000000 - 5000000 - 8000000 - 14000000).
  - do 5 full_bracket.
    last_bracket (x - 5000000 - 5000000 - 8000000 - 14000000 - 20000000).
  - do 6 full_bracket.
    last_bracket
      (x - 5000000 - 5000000 - 8000000 - 14000000 - 20000000 - 28000000).
Qed.

(** The Go table gives the same totals up to its capacity of
    [1e18 + 80,000,000]; beyond it the total stays at what the seven
    brackets hold. *)
Lemma Go_total_by_bands (x : Q) :
  let T := total_of Go.TaxBrackets x in
  (0 <= x <= 5000000 -> T == 0.05 * x) /\
  (5000000 <= x <= 10000000 -> T == 0.1 * x - 250000) /\
  (10000000 <= x <= 18000000 -> T == 0.15 * x - 750000) /\
  (18000000 <= x <= 32000000 -> T == 0.2 * x - 1650000) /\
  (32000000 <= x <= 52000000 -> T == 0.25 * x - 3250000) /\
  (52000000 <= x <= 80000000 -> T == 0.3 * x - 5850000) /\
  (80000000 <= x <= 1000000000080000000 -> T == 0.35 * x - 9850000) /\
  (1000000000080000000 <= x -> T == 350000000018150000).
Proof.
  cbv zeta. unfold Go.TaxBrackets.
  split; [|split; [|split; [|split; [|split; [|split; [|split]]]]]];
    intros H.
  - last_bracket x.
  - full_bracket. last_bracket (x - 5000000).
  - do 2 full_bracket. last_bracket (x - 5000000 - 5000000).
  - do 3 full_bracket. last_bracket (x - 5000000 - 5000000 - 8000000).
  - do 4 full_bracket.
    last_bracket (x - 5000000 - 5000000 - 8000000 - 14000000).
  - do 5 full_bracket.
    last_bracket (x - 5000000 - 5000000 - 8000000 - 14000000 - 20000000).
  - do 6 full_bracket.
    last_bracket
      (x - 5000000 - 5000000 - 8000000 - 14000000 - 20000000 - 28000000).
  - do 7 full_bracket. unfold total_of. simpl. lra.
Qed.


(** The tax by bands of cumulative taxable income, as the README of the
    repository tabulates them: up to 5, 10, 18, 32, 52 and 80 million and
    above, at 5% to 35%.  Within a band the total of
    [calculateTaxBreakdown] is the band's rate times the income less a
    constant. *)
Theorem X_tax_by_cumulative_bands (x : Q) :
  let T := snd (TS.calculateTaxBreakdown x) in
  (0 <= x <= 5000000 -> T == 0.05 * x) /\
  (5000000 <= x <= 10000000 -> T == 0.1 * x - 250000) /\
  (10000000 <= x <= 18000000 -> T == 0.15 * x - 750000) /\
  (18000000 <= x <= 32000000 -> T == 0.2 * x - 1650000) /\
  (32000000 <= x <= 52000000 -> T == 0.25 * x - 3250000) /\
  (52000000 <= x <= 80000000 -> T == 0.3 * x - 5850000) /\
  (80000000 <= x -> T == 0.35 * x - 9850000).
Proof. rewrite TS_calculateTaxBreakdown_eq. exact (TS_total_by_bands x). Qed.

Lemma X_tax_by_cumulative_bands_witness :
  18000000 <= 30200000 <= 32000000 /\
  snd (TS.calculateTaxBreakdown 30200000) == 0.2 * 30200000 - 1650000.
Proof.
  split; [split; discriminate|].
  apply (proj1 (proj2 (proj2 (proj2 (X_tax_by_cumulative_bands 30200000))))).
  split; discriminate.
Defined.

(** [calculateTax] of the wizard gives the same totals by band up to the
    capacity of its table, [1e18 + 80,000,000]; for any larger taxable
    income the total is the constant 350,000,000,018,150,000. *)
Theorem X_go_tax_by_cumulative_bands (x : Q) :
  let T := snd (Go.calculateTax x) in
  (0 <= x <= 5000000 -> T == 0.05 * x) /\
  (5000000 <= x <= 10000000 -> T == 0.1 * x - 250000) /\
  (10000000 <= x <= 18000000 -> T == 0.15 * x - 750000) /\
  (18000000 <= x <= 32000000 -> T == 0.2 * x - 1650000) /\
  (32000000 <= x <= 52000000 -> T == 0.25 * x - 3250000) /\
  (52000000 <= x <= 80000000 -> T == 0.3 * x - 5850000) /\
  (80000000 <= x <= 1000000000080000000 -> T == 0.35 * x - 9850000) /\
  (1000000000080000000 <= x -> T == 350000000018150000).
Proof. rewrite Go_calculateTax_eq. exact (Go_total_by_bands x). Qed.

Lemma X_go_tax_by_cumulative_bands_witness :
  5000000 <= 6900000 <= 10000000 /\
  snd (Go.calculateTax 6900000) == 0.1 * 6900000 - 250000.
Proof.
  split; [split; discriminate|].
  apply (proj1 (proj2 (X_go_tax_by_cumulative_bands 6900000))).
  split; discriminate.
Defined.

(** The conjunct of a band lemma for one band. *)
Ltac band k L :=
  lazymatch k with
  | 1%nat => constr:(proj1 L)
  | 2%nat => constr:(proj1 (proj2 L))
  | 3%nat => constr:(proj1 (proj2 (proj2 L)))
  | 4%nat => constr:(proj1 (proj2 (proj2 (proj2 L))))
  | 5%nat => constr:(proj1 (proj2 (proj2 (proj2 (proj2 L)))))
  | 6%nat => constr:(proj1 (proj2 (proj2 (proj2 (proj2 (proj2 L))))))
  | 7%nat =>
      constr:(proj1 (proj2 (proj2 (proj2 (proj2 (proj2 (proj2 L)))))))
  end.

(** Splits on the band that [x >= 0] falls in and leaves, for each band, the
    totals of both tables in the context. *)
Ltac by_band x H0 Hc :=
  let go k lo hi :=
    let P := fresh "P" in
    assert (P : lo <= x <= hi) by lra;
    let G := band k (Go_total_by_bands x) in
    let T := band k (TS_total_by_bands x) in
    pose proof (G P); pose proof (T P) in
  destruct (Qlt_le_dec x 5000000); [go 1%nat 0 5000000|];
  [|destruct (Qlt_le_dec x 10000000); [go 2%nat 5000000 10000000|]];
  [| |destruct (Qlt_le_dec x 18000000); [go 3%nat 10000000 18000000|]];
  [| | |destruct (Qlt_le_dec x 32000000); [go 4%nat 18000000 32000000|]];
  [| | | |destruct (Qlt_le_dec x 52000000); [go 5%nat 32000000 52000000|]];
  [| | | | |destruct (Qlt_le_dec x 80000000); [go 6%nat 52000000 80000000|]];
  [| | | | | |
   assert (P : 80000000 <= x <= 1000000000080000000) by lra;
   pose proof (proj1 (proj2 (proj2 (proj2 (proj2 (proj2 (proj2
                 (Go_total_by_bands x))))))) P);
   pose proof (proj2 (proj2 (proj2 (proj2 (proj2 (proj2
                 (TS_total_by_bands x)))))) (proj1 P))].

(** Up to the capacity of the Go table the two tables give the same
    total, between 5% and 35% of a non-negative taxable income. *)
Lemma tables_agree (x : Q) :
  x <= 1000000000080000000 ->
  total_of Go.TaxBrackets x == total_of TS.TAX_BRACKETS x.
Proof.
  intros Hc.
  destruct (Qlt_le_dec 0 x) as [H0|H0];
    [|now rewrite !total_of_nonpos by exact H0].
  by_band x H0 Hc; lra.
Qed.

Lemma Go_total_between (x : Q) :
  0 <= x -> x <= 1000000000080000000 ->
  0.05 * x <= total_of Go.TaxBrackets x /\
  total_of Go.TaxBrackets x <= 0.35 * x.
Proof. intros H0 Hc. by_band x H0 Hc; lra. Qed.

Lemma TS_total_between (x : Q) :
  0 <= x ->
  0.05 * x <= total_of TS.TAX_BRACKETS x /\
  total_of TS.TAX_BRACKETS x <= 0.35 * x.
Proof.
  intros H0.
  destruct (Qlt_le_dec x 1000000000080000000) as [Hc|Hc].
  - assert (Hc' : x <= 1000000000080000000) by lra. by_band x H0 Hc'; lra.
  - pose proof (proj2 (proj2 (proj2 (proj2 (proj2 (proj2
                  (TS_total_by_bands x))))))) as T7.
    cbv zeta in T7. rewrite T7 by lra. lra.
Qed.

(* ================================================================== *)
(** ** The amounts of a result *)

(** The results with the pair of [calculateTax] taken apart. *)
Lemma Go_result_fields g d i :
  Go.result_of_gross g d i =
  let base := Go.clampInsuranceBase g i in
  let empIns := base * sumRates EmployeeInsurance in
  let deductions :=
    PersonalDeduction + inject_Z d * DependentDeduction + empIns in
  let taxable := max 0 (g - deductions) in
  {| Go.gross := g; Go.base := base; Go.empIns := empIns;
     Go.deductions := deductions; Go.taxable_income := taxable;
     Go.breakdown := out_of Go.TaxBrackets taxable;
     Go.total_tax := total_of Go.TaxBrackets taxable;
     Go.net := g - empIns - total_of Go.TaxBrackets taxable |}.
Proof.
  unfold Go.result_of_gross. rewrite Go_calculateTax_eq. reflexivity.
Qed.

Lemma TS_data_fields g d i :
  TS.data_of_gross g d i =
  let insuranceBase := TS.clampInsuranceBase g i in
  let employeeInsurance := insuranceBase * sumRates EmployeeInsurance in
  let employerInsurance := insuranceBase * sumRates EmployerInsurance in
  let dependentDeduction := inject_Z d * DependentDeduction in
  let totalDeductions :=
    PersonalDeduction + dependentDeduction + employeeInsurance in
  let taxableIncome := max 0 (g - totalDeductions) in
  {| TS.grossMonthly := g;
     TS.insuranceBase := insuranceBase;
     TS.employeeInsurance := employeeInsurance;
     TS.employerInsurance := employerInsurance;
     TS.personalDeduction := PersonalDeduction;
     TS.dependentDeduction := dependentDeduction;
     TS.totalDeductions := totalDeductions;
     TS.taxableIncome := taxableIncome;
     TS.breakdown := out_of TS.TAX_BRACKETS taxableIncome;
     TS.totalTax := total_of TS.TAX_BRACKETS taxableIncome;
     TS.netMonthly :=
       g - employeeInsurance - total_of TS.TAX_BRACKETS taxableIncome;
     TS.effectiveTaxRate :=
       if TS.truthy g
       then TS.div (total_of TS.TAX_BRACKETS taxableIncome) g
       else TS.Num 0;
     TS.totalLaborCost := g + employerInsurance |}.
Proof.
  unfold TS.data_of_gross. rewrite TS_calculateTaxBreakdown_eq. reflexivity.
Qed.

(** The insurance base of either program, whatever the gross salary. *)
Lemma Go_base_le g i :
  Go.clampInsuranceBase g i <= 36000000 /\ Go.clampInsuranceBase g i <= max 0 g.
Proof.
  unfold Go.clampInsuranceBase, InsuranceCap.
  destruct (max_spec 0 g) as [[? ->]|[? ->]];
    destruct i; simpl; try case_Qltb 36000000 g; split; lra.
Qed.

Lemma TS_base_le g i :
  TS.clampInsuranceBase g i <= 36000000 /\ TS.clampInsuranceBase g i <= max 0 g.
Proof.
  unfold TS.clampInsuranceBase, InsuranceCap.
  destruct (max_spec 0 g) as [[? ->]|[? ->]];
    destruct i; try destruct (min_spec g 36000000) as [[? ->]|[? ->]];
    split; lra.
Qed.

Lemma scaled_by_rates (base : Q) (r : list (string * Q)) (k : Q) :
  sumRates r == k -> base * sumRates r == k * base.
Proof. intros E. rewrite E. ring. Qed.

(** In exact arithmetic the insurance contributions are capped: whatever
    the gross salary, the base is at most 36,000,000, the employee pays at
    most 3,780,000 and the employer at most 7,740,000, so the total labour
    cost is at most the gross salary plus 7,740,000.  (On binary64 numbers
    the sum of the employee's rates depends on the order of the map, and
    the employee's bound can be exceeded in the last place:
    [binary64_rate_order].) *)
Theorem X_insurance_is_capped (grossMonthly : Q) (dependents : Z)
    (insurance : bool) :
  (let r := TS.data_of_gross grossMonthly dependents insurance in
   TS.insuranceBase r <= 36000000 /\
   TS.employeeInsurance r <= 3780000 /\
   TS.employerInsurance r <= 7740000 /\
   TS.totalLaborCost r <= grossMonthly + 7740000) /\
  (let r := Go.result_of_gross grossMonthly dependents insurance in
   Go.base r <= 36000000 /\ Go.empIns r <= 3780000).
Proof.
  rewrite TS_data_fields, Go_result_fields. cbv zeta. simpl.
  pose proof (TS_base_le grossMonthly insurance) as (T1 & _).
  pose proof (Go_base_le grossMonthly insurance) as (G1 & _).
  rewrite !(scaled_by_rates _ _ _ sumRates_employee).
  rewrite !(scaled_by_rates _ _ _ sumRates_employer).
  repeat split; lra.
Qed.

(** For a non-negative gross salary and a non-negative number of dependents
    the net salary is between 65% and 100% of the gross salary, in both
    programs. *)
Theorem X_take_home_share (grossMonthly : Q) (dependents : Z)
    (insurance : bool) :
  0 <= grossMonthly -> (0 <= dependents)%Z ->
  (0.65 * grossMonthly
   <= TS.netMonthly (TS.data_of_gross grossMonthly dependents insurance) /\
   TS.netMonthly (TS.data_of_gross grossMonthly dependents insurance)
   <= grossMonthly) /\
  (0.65 * grossMonthly
   <= Go.net (Go.result_of_gross grossMonthly dependents insurance) /\
   Go.net (Go.result_of_gross grossMonthly dependents insurance)
   <= grossMonthly).
Proof.
  intros Hg Hd. rewrite TS_data_net, Go_result_net.
  assert (T0 : net_of TS.clampInsuranceBase (total_of TS.TAX_BRACKETS)
                 0 dependents insurance == 0)
    by (apply net_of_zero; auto with ts_facts).
  assert (G0 : net_of Go.clampInsuranceBase (total_of Go.TaxBrackets)
                 0 dependents insurance == 0)
    by (apply net_of_zero; auto with go_facts).
  assert (T1 := net_of_mono TS.clampInsuranceBase (total_of TS.TAX_BRACKETS)
                  TS_clamp_off TS_clamp_hi TS_clamp_lo TS_total_slope
                  0 grossMonthly dependents insurance Hg).
  assert (G1 := net_of_mono Go.clampInsuranceBase (total_of Go.TaxBrackets)
                  Go_clamp_off Go_clamp_hi Go_clamp_lo Go_total_slope
                  0 grossMonthly dependents insurance Hg).
  assert (T2 := net_of_slope TS.clampInsuranceBase (total_of TS.TAX_BRACKETS)
                  TS_clamp_off TS_clamp_hi TS_clamp_lo TS_total_slope
                  TS_total_low dependents Hd 0 grossMonthly insurance Hg).
  assert (G2 := net_of_slope Go.clampInsuranceBase (total_of Go.TaxBrackets)
                  Go_clamp_off Go_clamp_hi Go_clamp_lo Go_total_slope
                  Go_total_low dependents Hd 0 grossMonthly insurance Hg).
  repeat split; lra.
Qed.

Lemma X_take_home_share_witness :
  0 <= 50000000 /\ (0 <= 2)%Z /\
  (0.65 * 50000000 <= TS.netMonthly (TS.data_of_gross 50000000 2 true) /\
   TS.netMonthly (TS.data_of_gross 50000000 2 true) <= 50000000) /\
  (0.65 * 50000000 <= Go.net (Go.result_of_gross 50000000 2 true) /\
   Go.net (Go.result_of_gross 50000000 2 true) <= 50000000).
Proof.
  split; [discriminate|]. split; [discriminate|].
  apply (X_take_home_share 50000000 2 true); discriminate.
Defined.

(** A table whose first bracket has a positive rate taxes every positive
    income and emits a line for it. *)
Lemma total_of_pos (r : Q) (b : TaxBracket) (bs : list TaxBracket) (x : Q) :
  0 <= r -> Forall (bracket_ok r) (b :: bs) -> 0 < Rate b -> 0 < x ->
  0 < total_of (b :: bs) x /\ out_of (b :: bs) x <> [].
Proof.
  intros Hr Hok Hb Hx. inversion Hok as [|? ? (Hw & _) Hbs]; subst.
  rewrite total_of_cons_pos, out_of_cons_pos by exact Hx.
  destruct (min_limit_bounds (Limit b) x Hw Hx) as (Hm & _).
  pose proof (total_of_nonneg r bs (x - min_limit (Limit b) x) Hr Hbs).
  split; [|discriminate].
  assert (0 < min_limit (Limit b) x * Rate b)
    by (apply Qmult_lt_0_compat; assumption).
  lra.
Qed.

(** In exact arithmetic, where every amount is a finite number, tax is due
    exactly when the gross monthly salary exceeds the total of the
    deductions (personal, dependents, employee's insurance): up to that
    amount the breakdown is empty and the tax is [0], above it there is a
    line and a positive tax.  (A binary64 [NaN] or [-Infinity] gives lines
    of [NaN]: [binary64_non_finite_amounts].) *)
Theorem X_tax_due_iff_gross_exceeds_deductions (grossMonthly : Q)
    (dependents : Z) (insurance : bool) :
  (let r := TS.data_of_gross grossMonthly dependents insurance in
   (grossMonthly <= TS.totalDeductions r ->
    TS.totalTax r = 0 /\ TS.breakdown r = [] /\
    TS.netMonthly r == grossMonthly - TS.employeeInsurance r) /\
   (TS.totalDeductions r < grossMonthly ->
    0 < TS.totalTax r /\ TS.breakdown r <> [])) /\
  (let r := Go.result_of_gross grossMonthly dependents insurance in
   (grossMonthly <= Go.deductions r ->
    Go.total_tax r = 0 /\ Go.breakdown r = [] /\
    Go.net r == grossMonthly - Go.empIns r) /\
   (Go.deductions r < grossMonthly ->
    0 < Go.total_tax r /\ Go.breakdown r <> [])).
Proof.
  rewrite TS_data_fields, Go_result_fields. cbv zeta. simpl.
  split; split; intros H.
  - destruct (max_spec 0 (grossMonthly - (PersonalDeduction
        + inject_Z dependents * DependentDeduction
        + TS.clampInsuranceBase grossMonthly insurance
          * sumRates EmployeeInsurance))) as [[M ->]|[M ->]];
      rewrite total_of_nonpos, ?out_of_nonpos by lra;
      repeat split; lra.
  - destruct (max_spec 0 (grossMonthly - (PersonalDeduction
        + inject_Z dependents * DependentDeduction
        + TS.clampInsuranceBase grossMonthly insurance
          * sumRates EmployeeInsurance))) as [[M ->]|[M ->]]; [lra|].
    apply (total_of_pos 0.35); [lra | exact TS_brackets_ok | reflexivity | lra].
  - destruct (max_spec 0 (grossMonthly - (PersonalDeduction
        + inject_Z dependents * DependentDeduction
        + Go.clampInsuranceBase grossMonthly insurance
          * sumRates EmployeeInsurance))) as [[M ->]|[M ->]];
      rewrite total_of_nonpos, ?out_of_nonpos by lra;
      repeat split; lra.
  - destruct (max_spec 0 (grossMonthly - (PersonalDeduction
        + inject_Z dependents * DependentDeduction
        + Go.clampInsuranceBase grossMonthly insurance
          * sumRates EmployeeInsurance))) as [[M ->]|[M ->]]; [lra|].
    apply (total_of_pos 0.35); [lra | exact Go_brackets_ok | reflexivity | lra].
Qed.

Lemma X_tax_due_iff_gross_exceeds_deductions_witness :
  (10000000 <= TS.totalDeductions (TS.data_of_gross 10000000 0 true) /\
   TS.totalTax (TS.data_of_gross 10000000 0 true) = 0 /\
   TS.breakdown (TS.data_of_gross 10000000 0 true) = [] /\
   TS.netMonthly (TS.data_of_gross 10000000 0 true)
   == 10000000 - TS.employeeInsurance (TS.data_of_gross 10000000 0 true)) /\
  (Go.deductions (Go.result_of_gross 20000000 0 true) < 20000000 /\
   0 < Go.total_tax (Go.result_of_gross 20000000 0 true) /\
   Go.breakdown (Go.result_of_gross 20000000 0 true) <> []).
Proof.
  split.
  - assert (H : 10000000
                <= TS.totalDeductions (TS.data_of_gross 10000000 0 true))
      by (vm_compute; discriminate).
    split; [exact H|].
    exact (proj1 (proj1 (X_tax_due_iff_gross_exceeds_deductions
                           10000000 0 true)) H).
  - assert (H : Go.deductions (Go.result_of_gross 20000000 0 true) < 20000000)
      by (vm_compute; reflexivity).
    split; [exact H|].
    exact (proj2 (proj2 (X_tax_due_iff_gross_exceeds_deductions
                           20000000 0 true)) H).
Defined.

(** More dependents never raise the tax and never lower the net salary:
    each further dependent leaves the insurance as it is and raises the net
    salary by at most 35% of the dependent deduction, 1,540,000. *)
Theorem X_more_dependents_less_tax (grossMonthly : Q) (d d' : Z)
    (insurance : bool) :
  (d <= d')%Z ->
  (let r := TS.data_of_gross grossMonthly d insurance in
   let r' := TS.data_of_gross grossMonthly d' insurance in
   TS.employeeInsurance r' = TS.employeeInsurance r /\
   TS.totalTax r' <= TS.totalTax r /\
   TS.netMonthly r <= TS.netMonthly r' /\
   TS.netMonthly r' - TS.netMonthly r <= 1540000 * inject_Z (d' - d)) /\
  (let r := Go.result_of_gross grossMonthly d insurance in
   let r' := Go.result_of_gross grossMonthly d' insurance in
   Go.empIns r' = Go.empIns r /\
   Go.total_tax r' <= Go.total_tax r /\
   Go.net r <= Go.net r' /\
   Go.net r' - Go.net r <= 1540000 * inject_Z (d' - d)).
Proof.
  intros Hd. rewrite !TS_data_fields, !Go_result_fields. cbv zeta. simpl.
  assert (Ha : inject_Z d <= inject_Z d') by now rewrite <- Zle_Qle.
  assert (Hs : inject_Z (d' - d) == inject_Z d' - inject_Z d).
  { unfold Z.sub. rewrite inject_Z_plus, inject_Z_opp. ring. }
  rewrite Hs. unfold PersonalDeduction, DependentDeduction.
  set (a := inject_Z d) in *. set (a' := inject_Z d') in *.
  split.
  - set (ins := TS.clampInsuranceBase grossMonthly insurance
                * sumRates EmployeeInsurance).
    destruct (max_spec 0 (grossMonthly - (11000000 + a * 4400000 + ins)))
      as [[M ->]|[M ->]];
    destruct (max_spec 0 (grossMonthly - (11000000 + a' * 4400000 + ins)))
      as [[M' ->]|[M' ->]].
    + repeat split; lra.
    + lra.
    + destruct (TS_total_slope 0
                  (grossMonthly - (11000000 + a * 4400000 + ins)));
        [lra|]. repeat split; lra.
    + destruct (TS_total_slope
                  (grossMonthly - (11000000 + a' * 4400000 + ins))
                  (grossMonthly - (11000000 + a * 4400000 + ins)));
        [lra|]. repeat split; lra.
  - set (ins := Go.clampInsuranceBase grossMonthly insurance
                * sumRates EmployeeInsurance).
    destruct (max_spec 0 (grossMonthly - (11000000 + a * 4400000 + ins)))
      as [[M ->]|[M ->]];
    destruct (max_spec 0 (grossMonthly - (11000000 + a' * 4400000 + ins)))
      as [[M' ->]|[M' ->]].
    + repeat split; lra.
    + lra.
    + destruct (Go_total_slope 0
                  (grossMonthly - (11000000 + a * 4400000 + ins)));
        [lra|]. repeat split; lra.
    + destruct (Go_total_slope
                  (grossMonthly - (11000000 + a' * 4400000 + ins))
                  (grossMonthly - (11000000 + a * 4400000 + ins)));
        [lra|]. repeat split; lra.
Qed.

Lemma X_more_dependents_less_tax_witness :
  (0 <= 2)%Z /\
  (let r := TS.data_of_gross 30000000 0 true in
   let r' := TS.data_of_gross 30000000 2 true in
   TS.employeeInsurance r' = TS.employeeInsurance r /\
   TS.totalTax r' <= TS.totalTax r /\
   TS.netMonthly r <= TS.netMonthly r' /\
   TS.netMonthly r' - TS.netMonthly r <= 1540000 * inject_Z (2 - 0)) /\
  (let r := Go.result_of_gross 30000000 0 true in
   let r' := Go.result_of_gross 30000000 2 true in
   Go.empIns r' = Go.empIns r /\
   Go.total_tax r' <= Go.total_tax r /\
   Go.net r <= Go.net r' /\
   Go.net r' - Go.net r <= 1540000 * inject_Z (2 - 0)).
Proof.
  split; [discriminate|].
  apply (X_more_dependents_less_tax 30000000 0 2 true). discriminate.
Defined.

(** For a non-negative gross salary, enabling the insurance never raises
    the tax and never raises the net salary; it lowers the net salary by at
    most the employee's contribution and by at least 65% of it. *)
Theorem X_insurance_lowers_tax_and_net (grossMonthly : Q) (dependents : Z) :
  0 <= grossMonthly ->
  (let on := TS.data_of_gross grossMonthly dependents true in
   let off := TS.data_of_gross grossMonthly dependents false in
   TS.totalTax on <= TS.totalTax off /\
   TS.netMonthly on <= TS.netMonthly off /\
   0.65 * TS.employeeInsurance on <= TS.netMonthly off - TS.netMonthly on /\
   TS.netMonthly off - TS.netMonthly on <= TS.employeeInsurance on) /\
  (let on := Go.result_of_gross grossMonthly dependents true in
   let off := Go.result_of_gross grossMonthly dependents false in
   Go.total_tax on <= Go.total_tax off /\
   Go.net on <= Go.net off /\
   0.65 * Go.empIns on <= Go.net off - Go.net on /\
   Go.net off - Go.net on <= Go.empIns on).
Proof.
  intros Hg. rewrite !TS_data_fields, !Go_result_fields. cbv zeta.
  cbn [TS.totalTax TS.netMonthly TS.employeeInsurance
       Go.total_tax Go.net Go.empIns].
  unfold PersonalDeduction.
  set (dd := inject_Z dependents * DependentDeduction).
  split.
  - assert (I0 : TS.clampInsuranceBase grossMonthly false
                 * sumRates EmployeeInsurance == 0) by reflexivity.
    assert (I1 : 0 <= TS.clampInsuranceBase grossMonthly true
                      * sumRates EmployeeInsurance).
    { apply Qmult_le_0_compat; [|discriminate].
      unfold TS.clampInsuranceBase, InsuranceCap.
      destruct (min_spec grossMonthly 36000000) as [[? ->]|[? ->]]; lra. }
    set (i0 := TS.clampInsuranceBase grossMonthly false
               * sumRates EmployeeInsurance) in *.
    set (i1 := TS.clampInsuranceBase grossMonthly true
               * sumRates EmployeeInsurance) in *.
    destruct (max_spec 0 (grossMonthly - (11000000 + dd + i1)))
      as [[M ->]|[M ->]];
    destruct (max_spec 0 (grossMonthly - (11000000 + dd + i0)))
      as [[M' ->]|[M' ->]].
    + repeat split; lra.
    + destruct (TS_total_slope 0 (grossMonthly - (11000000 + dd + i0)));
        [lra|]. repeat split; lra.
    + lra.
    + destruct (TS_total_slope (grossMonthly - (11000000 + dd + i1))
                  (grossMonthly - (11000000 + dd + i0))); [lra|].
      repeat split; lra.
  - assert (I0 : Go.clampInsuranceBase grossMonthly false
                 * sumRates EmployeeInsurance == 0) by reflexivity.
    assert (I1 : 0 <= Go.clampInsuranceBase grossMonthly true
                      * sumRates EmployeeInsurance).
    { apply Qmult_le_0_compat; [|discriminate].
      unfold Go.clampInsuranceBase, InsuranceCap. simpl.
      case_Qltb 36000000 grossMonthly; lra. }
    set (i0 := Go.clampInsuranceBase grossMonthly false
               * sumRates EmployeeInsurance) in *.
    set (i1 := Go.clampInsuranceBase grossMonthly true
               * sumRates EmployeeInsurance) in *.
    destruct (max_spec 0 (grossMonthly - (11000000 + dd + i1)))
      as [[M ->]|[M ->]];
    destruct (max_spec 0 (grossMonthly - (11000000 + dd + i0)))
      as [[M' ->]|[M' ->]].
    + repeat split; lra.
    + destruct (Go_total_slope 0 (grossMonthly - (11000000 + dd + i0)));
        [lra|]. repeat split; lra.
    + lra.
    + destruct (Go_total_slope (grossMonthly - (11000000 + dd + i1))
                  (grossMonthly - (11000000 + dd + i0))); [lra|].
      repeat split; lra.
Qed.

Lemma X_insurance_lowers_tax_and_net_witness :
  0 <= 40000000 /\
  (let on := TS.data_of_gross 40000000 1 true in
   let off := TS.data_of_gross 40000000 1 false in
   TS.totalTax on <= TS.totalTax off /\
   TS.netMonthly on <= TS.netMonthly off /\
   0.65 * TS.employeeInsurance on <= TS.netMonthly off - TS.netMonthly on /\
   TS.netMonthly off - TS.netMonthly on <= TS.employeeInsurance on) /\
  (let on := Go.result_of_gross 40000000 1 true in
   let off := Go.result_of_gross 40000000 1 false in
   Go.total_tax on <= Go.total_tax off /\
   Go.net on <= Go.net off /\
   0.65 * Go.empIns on <= Go.net off - Go.net on /\
   Go.net off - Go.net on <= Go.empIns on).
Proof.
  split; [discriminate|].
  apply (X_insurance_lowers_tax_and_net 40000000 1). discriminate.
Defined.

(* ================================================================== *)
(** ** The two programs side by side *)

Lemma clamps_agree g i :
  Go.clampInsuranceBase g i == TS.clampInsuranceBase g i.
Proof.
  unfold Go.clampInsuranceBase, TS.clampInsuranceBase, InsuranceCap.
  destruct i; simpl; [|reflexivity].
  case_Qltb 36000000 g;
    destruct (min_spec g 36000000) as [[? ->]|[? ->]]; lra.
Qed.

(** For a gross salary of at most [1e18] the two forward computations
    agree. *)
Lemma nets_agree g d i :
  g <= 1000000000000000000 -> (0 <= d)%Z ->
  max 0 (g - (PersonalDeduction + inject_Z d * DependentDeduction
              + Go.clampInsuranceBase g i * sumRates EmployeeInsurance))
  == max 0 (g - (PersonalDeduction + inject_Z d * DependentDeduction
                 + TS.clampInsuranceBase g i * sumRates EmployeeInsurance)) /\
  total_of Go.TaxBrackets
    (max 0 (g - (PersonalDeduction + inject_Z d * DependentDeduction
                 + Go.clampInsuranceBase g i * sumRates EmployeeInsurance)))
  == total_of TS.TAX_BRACKETS
       (max 0 (g - (PersonalDeduction + inject_Z d * DependentDeduction
                    + TS.clampInsuranceBase g i
                      * sumRates EmployeeInsurance))) /\
  net_of Go.clampInsuranceBase (total_of Go.TaxBrackets) g d i
  == net_of TS.clampInsuranceBase (total_of TS.TAX_BRACKETS) g d i.
Proof.
  intros Hg Hd. pose proof (dependents_nonneg d Hd) as Hdd.
  assert (Ei : Go.clampInsuranceBase g i * sumRates EmployeeInsurance
               == TS.clampInsuranceBase g i * sumRates EmployeeInsurance)
    by (apply Qmult_comp; [apply clamps_agree | reflexivity]).
  assert (Hi : Go.clampInsuranceBase g i * sumRates EmployeeInsurance
               == 0.105 * Go.clampInsuranceBase g i)
    by apply (scaled_by_rates _ _ _ sumRates_employee).
  assert (Hb : (0 <= g -> 0 <= Go.clampInsuranceBase g i) /\
               (g <= 0 -> g <= Go.clampInsuranceBase g i)).
  { unfold Go.clampInsuranceBase, InsuranceCap.
    destruct i; simpl; try case_Qltb 36000000 g; split; lra. }
  unfold net_of. cbv zeta. unfold PersonalDeduction in *.
  set (dd := inject_Z d * DependentDeduction) in *.
  set (iG := Go.clampInsuranceBase g i * sumRates EmployeeInsurance) in *.
  set (iT := TS.clampInsuranceBase g i * sumRates EmployeeInsurance) in *.
  assert (Ex : max 0 (g - (11000000 + dd + iG))
               == max 0 (g - (11000000 + dd + iT)))
    by (apply max_compat; lra).
  assert (Hx : max 0 (g - (11000000 + dd + iG)) <= 1000000000080000000).
  { destruct Hb as (Hb1 & Hb2).
    destruct (max_spec 0 (g - (11000000 + dd + iG))) as [[? ->]|[? ->]];
      [lra|].
    destruct (Qlt_le_dec g 0);
      [specialize (Hb2 ltac:(lra)) | specialize (Hb1 ltac:(lra))]; lra. }
  assert (ET : total_of Go.TaxBrackets (max 0 (g - (11000000 + dd + iG)))
               == total_of TS.TAX_BRACKETS
                    (max 0 (g - (11000000 + dd + iT)))).
  { rewrite (tables_agree _ Hx). now apply total_of_compat. }
  repeat split; [exact Ex | exact ET | lra].
Qed.

(** For a gross monthly salary of at most [1e18] and a non-negative number
    of dependents the wizard and the browser form compute the same
    insurance base, employee's insurance, deductions, taxable income, tax
    and net salary. *)
Theorem X_programs_agree (grossMonthly : Q) (dependents : Z)
    (insurance : bool) :
  grossMonthly <= 1000000000000000000 -> (0 <= dependents)%Z ->
  let go := Go.result_of_gross grossMonthly dependents insurance in
  let ts := TS.data_of_gross grossMonthly dependents insurance in
  Go.gross go == TS.grossMonthly ts /\
  Go.base go == TS.insuranceBase ts /\
  Go.empIns go == TS.employeeInsurance ts /\
  Go.deductions go == TS.totalDeductions ts /\
  Go.taxable_income go == TS.taxableIncome ts /\
  Go.total_tax go == TS.totalTax ts /\
  Go.net go == TS.netMonthly ts.
Proof.
  intros Hg Hd. cbv zeta.
  destruct (nets_agree grossMonthly dependents insurance Hg Hd)
    as (Ex & ET & EN).
  rewrite Go_result_net, TS_data_net.
  rewrite TS_data_fields, Go_result_fields. cbv zeta.
  cbn [Go.gross Go.base Go.empIns Go.deductions Go.taxable_income
       Go.total_tax TS.grossMonthly TS.insuranceBase TS.employeeInsurance
       TS.totalDeductions TS.taxableIncome TS.totalTax].
  pose proof (clamps_agree grossMonthly insurance) as Ec.
  assert (Ei : Go.clampInsuranceBase grossMonthly insurance
               * sumRates EmployeeInsurance
               == TS.clampInsuranceBase grossMonthly insurance
                  * sumRates EmployeeInsurance)
    by (apply Qmult_comp; [exact Ec | reflexivity]).
  split; [reflexivity|]. split; [exact Ec|]. split; [exact Ei|].
  split; [lra|]. split; [exact Ex|]. split; [exact ET | exact EN].
Qed.

Lemma X_programs_agree_witness :
  50000000 <= 1000000000000000000 /\ (0 <= 2)%Z /\
  let go := Go.result_of_gross 50000000 2 true in
  let ts := TS.data_of_gross 50000000 2 true in
  Go.gross go == TS.grossMonthly ts /\
  Go.base go == TS.insuranceBase ts /\
  Go.empIns go == TS.employeeInsurance ts /\
  Go.deductions go == TS.totalDeductions ts /\
  Go.taxable_income go == TS.taxableIncome ts /\
  Go.total_tax go == TS.totalTax ts /\
  Go.net go == TS.netMonthly ts.
Proof.
  split; [discriminate|]. split; [discriminate|].
  apply (X_programs_agree 50000000 2 true); discriminate.
Defined.

(* ================================================================== *)
(** ** More on the solver *)

(** For every non-negative target and non-negative number of dependents the
    gross salary that [solveGrossFromNet] returns is at least the target,
    its net salary never exceeds the target, and the shortfall is at most a
    billionth of [3,780,000 + 0.35 * targetNet]. *)
Theorem X_solver_never_overshoots (targetNet : Q) (dependents : Z)
    (insurance : bool) :
  0 <= targetNet -> (0 <= dependents)%Z ->
  (let g := TS.solveGrossFromNet targetNet dependents insurance in
   let net := TS.netMonthly (TS.data_of_gross g dependents insurance) in
   targetNet <= g /\ net <= targetNet /\
   1000000000 * (targetNet - net) <= 3780000 + 0.35 * targetNet) /\
  (let g := Go.solveGrossFromNet targetNet dependents insurance in
   let net := Go.net (Go.result_of_gross g dependents insurance) in
   targetNet <= g /\ net <= targetNet /\
   1000000000 * (targetNet - net) <= 3780000 + 0.35 * targetNet).
Proof.
  intros Ht Hd. cbv zeta.
  destruct (TS_solver_residual targetNet dependents insurance Ht Hd)
    as (T0 & T1 & T2).
  destruct (Go_solver_residual targetNet dependents insurance Ht Hd)
    as (G0 & G1 & G2).
  cbn [shrink] in T2, G2.
  split; (split; [assumption|]); split; lra.
Qed.

Lemma X_solver_never_overshoots_witness :
  0 <= 10000000000 /\ (0 <= 0)%Z /\
  (let g := TS.solveGrossFromNet 10000000000 0 true in
   let net := TS.netMonthly (TS.data_of_gross g 0 true) in
   10000000000 <= g /\ net <= 10000000000 /\
   1000000000 * (10000000000 - net) <= 3780000 + 0.35 * 10000000000) /\
  (let g := Go.solveGrossFromNet 10000000000 0 true in
   let net := Go.net (Go.result_of_gross g 0 true) in
   10000000000 <= g /\ net <= 10000000000 /\
   1000000000 * (10000000000 - net) <= 3780000 + 0.35 * 10000000000).
Proof.
  split; [discriminate|]. split; [discriminate|].
  apply (X_solver_never_overshoots 10000000000 0 true); discriminate.
Defined.

(** A guess that is its own net salary plus the residual stays put: when
    nothing is deducted from the target, every correction returns it. *)
Lemma iter_fixed (f : Q -> Q) (t : Q) (n : nat) :
  (forall g, g == t -> f g == t) -> Nat.iter n f t == t.
Proof.
  intros F. induction n as [|n IH]; simpl; [reflexivity | now apply F].
Qed.

Lemma untaxed_net (clamp : Q -> bool -> Q) (bs : list TaxBracket) (g : Q)
    (d : Z) :
  clamp g false == 0 ->
  g <= 11000000 + inject_Z d * 4400000 ->
  net_of clamp (total_of bs) g d false == g.
Proof.
  intros Hc Hg. unfold net_of, PersonalDeduction, DependentDeduction.
  cbv zeta.
  assert (Hi : clamp g false * sumRates EmployeeInsurance == 0)
    by (rewrite Hc; reflexivity).
  set (ins := clamp g false * sumRates EmployeeInsurance) in *.
  destruct (max_spec 0 (g - (11000000 + inject_Z d * 4400000 + ins)))
    as [[M ->]|[M ->]]; rewrite total_of_nonpos by lra; lra.
Qed.

(** In exact arithmetic, where the target is a finite number: without
    insurance, a target of at most the personal and dependent deductions is
    its own gross salary: the Go solver returns it unchanged, also when it
    is negative, and the TypeScript solver returns it clamped at zero.  (For
    the binary64 target [-Infinity] both return [NaN]:
    [binary64_non_finite_amounts].) *)
Theorem X_solver_returns_untaxed_target (targetNet : Q) (dependents : Z) :
  targetNet <= 11000000 + inject_Z dependents * 4400000 ->
  Go.solveGrossFromNet targetNet dependents false == targetNet /\
  TS.solveGrossFromNet targetNet dependents false == max 0 targetNet.
Proof.
  intros Ht. unfold Go.solveGrossFromNet, TS.solveGrossFromNet.
  rewrite !for_range_iter. split; [|apply max_compat]; apply iter_fixed.
  - intros g Eg. rewrite Go_solve_body_correct. unfold correct.
    rewrite (untaxed_net Go.clampInsuranceBase Go.TaxBrackets g dependents
               (Go_clamp_off g)) by lra.
    lra.
  - intros g Eg. rewrite TS_solve_body_correct. unfold correct.
    rewrite (untaxed_net TS.clampInsuranceBase TS.TAX_BRACKETS g dependents
               (TS_clamp_off g)) by lra.
    lra.
Qed.

Lemma X_solver_returns_untaxed_target_witness :
  9000000 <= 11000000 + inject_Z 1 * 4400000 /\
  Go.solveGrossFromNet 9000000 1 false == 9000000 /\
  TS.solveGrossFromNet 9000000 1 false == max 0 9000000.
Proof.
  split; [discriminate|].
  apply (X_solver_returns_untaxed_target 9000000 1). discriminate.
Defined.

(** The guesses of the two solvers coincide as long as they stay below
    [1e18], which they do for targets up to [6.5e17]. *)
Lemma guesses_agree (t : Q) (d : Z) (i : bool) (n : nat) :
  0 <= t -> t <= 650000000000000000 -> (0 <= d)%Z ->
  Nat.iter n (correct Go.clampInsuranceBase (total_of Go.TaxBrackets) t d i) t
  == Nat.iter n
       (correct TS.clampInsuranceBase (total_of TS.TAX_BRACKETS) t d i) t /\
  t <= Nat.iter n
         (correct TS.clampInsuranceBase (total_of TS.TAX_BRACKETS) t d i) t.
Proof.
  intros Ht Hc Hd. induction n as [|n (IH & _)].
  - simpl. split; lra.
  - destruct (solver_residual TS.clampInsuranceBase (total_of TS.TAX_BRACKETS)
                TS_clamp_off TS_clamp_hi TS_clamp_lo TS_total_slope
                TS_total_low TS_total_zero t d i Hd (S n) Ht) as (B' & _).
    split; [|exact B'].
    destruct (solver_residual TS.clampInsuranceBase (total_of TS.TAX_BRACKETS)
                TS_clamp_off TS_clamp_hi TS_clamp_lo TS_total_slope
                TS_total_low TS_total_zero t d i Hd n Ht) as (B0 & B1 & _).
    simpl Nat.iter.
    set (gG := Nat.iter n
                 (correct Go.clampInsuranceBase (total_of Go.TaxBrackets)
                    t d i) t) in *.
    set (gT := Nat.iter n
                 (correct TS.clampInsuranceBase (total_of TS.TAX_BRACKETS)
                    t d i) t) in *.
    assert (S0 := net_of_slope TS.clampInsuranceBase
                    (total_of TS.TAX_BRACKETS)
                    TS_clamp_off TS_clamp_hi TS_clamp_lo TS_total_slope
                    TS_total_low d Hd 0 gT i ltac:(lra)).
    assert (Z0 : net_of TS.clampInsuranceBase (total_of TS.TAX_BRACKETS)
                   0 d i == 0)
      by (apply net_of_zero; auto with ts_facts).
    assert (HgT : gT <= 1000000000000000000) by lra.
    destruct (nets_agree gT d i HgT Hd) as (_ & _ & EN).
    assert (EC : net_of Go.clampInsuranceBase (total_of Go.TaxBrackets)
                   gG d i
                 == net_of Go.clampInsuranceBase (total_of Go.TaxBrackets)
                      gT d i)
      by (apply net_of_compat; auto with go_facts).
    unfold correct. lra.
Qed.

(** For a target net salary between 0 and [6.5e17] and a non-negative
    number of dependents the two programs solve for the same gross
    salary. *)
Theorem X_solvers_agree (targetNet : Q) (dependents : Z) (insurance : bool) :
  0 <= targetNet -> targetNet <= 650000000000000000 ->
  (0 <= dependents)%Z ->
  Go.solveGrossFromNet targetNet dependents insurance
  == TS.solveGrossFromNet targetNet dependents insurance.
Proof.
  intros Ht Hc Hd. unfold Go.solveGrossFromNet, TS.solveGrossFromNet.
  rewrite !for_range_iter.
  rewrite (iter_ext 20 _ _ targetNet
             (Go_solve_body_correct targetNet dependents insurance)).
  rewrite (iter_ext 20 _ _ targetNet
             (TS_solve_body_correct targetNet dependents insurance)).
  destruct (guesses_agree targetNet dependents insurance 20 Ht Hc Hd)
    as (E & B).
  destruct (max_spec 0 (Nat.iter 20
              (correct TS.clampInsuranceBase (total_of TS.TAX_BRACKETS)
                 targetNet dependents insurance) targetNet))
    as [[M ->]|[M ->]]; [lra | exact E].
Qed.

Lemma X_solvers_agree_witness :
  0 <= 20000000 /\ 20000000 <= 650000000000000000 /\ (0 <= 1)%Z /\
  Go.solveGrossFromNet 20000000 1 true == TS.solveGrossFromNet 20000000 1 true.
Proof.
  split; [discriminate|]. split; [discriminate|]. split; [discriminate|].
  apply (X_solvers_agree 20000000 1 true); discriminate.
Defined.

(* ================================================================== *)
(** ** The rate tables *)

(** Go ranges over a map in an unspecified order.  In exact arithmetic the
    order does not matter: whatever the order in which the employee's and
    the employer's rates are visited, they sum to 10.5% and 21.5%. *)
Theorem X_sumRates_any_order (r r' : list (string * Q)) :
  Permutation EmployeeInsurance r -> Permutation EmployerInsurance r' ->
  sumRates r == 0.105 /\ sumRates r' == 0.215.
Proof.
  intros P P'. split.
  - rewrite <- (sumRates_permutation _ _ P). reflexivity.
  - rewrite <- (sumRates_permutation _ _ P'). reflexivity.
Qed.

Lemma X_sumRates_any_order_witness :
  Permutation EmployeeInsurance (rev EmployeeInsurance) /\
  Permutation EmployerInsurance (rev EmployerInsurance) /\
  sumRates (rev EmployeeInsurance) == 0.105 /\
  sumRates (rev EmployerInsurance) == 0.215.
Proof.
  split; [apply Permutation_rev|]. split; [apply Permutation_rev|].
  apply X_sumRates_any_order; apply Permutation_rev.
Defined.

(* ================================================================== *)
(** ** The browser form: warning and query string *)

(** The warning that the insurance cap applies is shown exactly when the
    insurance is enabled and the gross monthly salary exceeds
    36,000,000. *)
Theorem X_cap_warning_iff (grossMonthly : Q) (dependents : Z)
    (insuranceEnabled : bool) :
  Page.capWarning insuranceEnabled
    (TS.data_of_gross grossMonthly dependents insuranceEnabled) = true
  <-> insuranceEnabled = true /\ 36000000 < grossMonthly.
Proof.
  unfold Page.capWarning. rewrite TS_data_fields. cbv zeta.
  cbn [TS.insuranceBase TS.grossMonthly].
  rewrite andb_true_iff, Qltb_lt.
  unfold TS.clampInsuranceBase, InsuranceCap.
  destruct insuranceEnabled.
  - destruct (min_spec grossMonthly 36000000) as [[? ->]|[? ->]];
      split; intros (H1 & H2); (split; [reflexivity|lra]).
  - split; intros (H1 & H2); discriminate.
Qed.

Lemma X_cap_warning_iff_witness :
  (true = true /\ 36000000 < 50000000) /\
  Page.capWarning true (TS.data_of_gross 50000000 0 true) = true.
Proof.
  assert (H : true = true /\ 36000000 < 50000000)
    by (split; reflexivity).
  split; [exact H|].
  exact (proj2 (X_cap_warning_iff 50000000 0 true) H).
Defined.

Lemma or_number_truthy (a b : TS.number) :
  Page.truthy_number b = true ->
  Page.truthy_number (Page.or_number a b) = true.
Proof.
  intros Hb. unfold Page.or_number.
  destruct (Page.truthy_number a) eqn:Ha; assumption.
Qed.

Lemma or_number_not_NaN (a b : TS.number) :
  b <> TS.NaN -> Page.or_number a b <> TS.NaN.
Proof.
  intros Hb. unfold Page.or_number.
  destruct (Page.truthy_number a) eqn:Ha; [|exact Hb].
  intros ->. discriminate.
Qed.

Lemma or_string_not_empty (a : option string) (b : string) :
  b <> ""%string -> Page.or_string a b <> ""%string.
Proof.
  intros Hb. unfold Page.or_string. destruct a as [s|]; [|exact Hb].
  destruct (String.eqb s "") eqn:Es; [exact Hb|].
  now apply String.eqb_neq.
Qed.

(** What [readInitialState] makes of a query, whatever it holds: the
    income is never 0 or [NaN], the number of dependents is never [NaN],
    the period and the mode are never empty.  A missing [income] gives
    20,000,000, a missing [dep] gives 0, a missing [period] gives
    ["monthly"], a missing [mode] gives ["gross"], and the insurance is
    disabled only by [ins=0]. *)
Theorem X_query_defaults {R : Page.Runtime} (p : Page.URLSearchParams) :
  Page.truthy_number (Page.income (Page.readInitialState p)) = true /\
  Page.dependents (Page.readInitialState p) <> TS.NaN /\
  Page.period (Page.readInitialState p) <> ""%string /\
  Page.salaryMode (Page.readInitialState p) <> ""%string /\
  (Page.get p "income" = None ->
   Page.income (Page.readInitialState p) = TS.Num 20000000) /\
  (Page.get p "dep" = None ->
   Page.dependents (Page.readInitialState p) = TS.Num 0) /\
  (Page.get p "period" = None ->
   Page.period (Page.readInitialState p) = "monthly"%string) /\
  (Page.get p "mode" = None ->
   Page.salaryMode (Page.readInitialState p) = "gross"%string) /\
  (Page.insuranceEnabled (Page.readInitialState p) = false
   <-> Page.get p "ins" = Some "0"%string).
Proof.
  unfold Page.readInitialState.
  cbn [Page.income Page.dependents Page.period Page.salaryMode
       Page.insuranceEnabled].
  split; [apply or_number_truthy; reflexivity|].
  split; [apply or_number_not_NaN; discriminate|].
  split; [apply or_string_not_empty; discriminate|].
  split; [apply or_string_not_empty; discriminate|].
  split; [|split; [|split; [|split]]].
  - intros ->. reflexivity.
  - intros ->. reflexivity.
  - intros ->. reflexivity.
  - intros ->. reflexivity.
  - rewrite negb_false_iff.
    destruct (Page.get p "ins") as [s|]; [|split; discriminate].
    rewrite String.eqb_eq. split; [now intros -> | now intros [= ->]].
Qed.

Lemma X_query_defaults_witness :
  let p := [("mode"%string, "net"%string)] in
  Page.get p "income" = None /\
  Page.income (Page.readInitialState (R := decimal_runtime) p)
  = TS.Num 20000000.
Proof.
  cbv zeta. split; [reflexivity|].
  destruct (X_query_defaults (R := decimal_runtime)
              [("mode"%string, "net"%string)])
    as (_ & _ & _ & _ & H & _).
  apply H. reflexivity.
Defined.

(** Reading back the query that the page writes for a state.  If the
    runtime reads a printed number back as the same number, every field
    comes back as it was, except that a falsy income (0 or [NaN]) comes
    back as 20,000,000, a falsy number of dependents as 0, an empty period
    as ["monthly"] and an empty mode as ["gross"]. *)
Theorem X_query_round_trip {R : Page.Runtime} (s : Page.State) :
  Page.Number_of_string (Page.toString (Page.income s)) = Page.income s ->
  Page.Number_of_string (Page.toString (Page.dependents s))
  = Page.dependents s ->
  Page.readInitialState (Page.syncURL s) =
  {| Page.income :=
       if Page.truthy_number (Page.income s) then Page.income s
       else TS.Num 20000000;
     Page.dependents :=
       if Page.truthy_number (Page.dependents s) then Page.dependents s
       else TS.Num 0;
     Page.period :=
       if String.eqb (Page.period s) "" then "monthly"%string
       else Page.period s;
     Page.salaryMode :=
       if String.eqb (Page.salaryMode s) "" then "gross"%string
       else Page.salaryMode s;
     Page.insuranceEnabled := Page.insuranceEnabled s |}.
Proof.
  intros Hi Hd.
  unfold Page.readInitialState, Page.syncURL, Page.or_number, Page.Number.
  cbn [Page.get String.eqb Ascii.eqb Bool.eqb andb].
  rewrite Hi, Hd. f_equal. now destruct (Page.insuranceEnabled s).
Qed.

Lemma X_query_round_trip_witness :
  let s := {| Page.income := TS.Num 0; Page.dependents := TS.Num 2;
              Page.period := "annual"; Page.salaryMode := "net";
              Page.insuranceEnabled := false |} in
  Page.readInitialState (R := decimal_runtime)
    (Page.syncURL (R := decimal_runtime) s) =
  {| Page.income := TS.Num 20000000; Page.dependents := TS.Num 2;
     Page.period := "annual"; Page.salaryMode := "net";
     Page.insuranceEnabled := false |}.
Proof.
  cbv zeta.
  apply (X_query_round_trip (R := decimal_runtime)
           {| Page.income := TS.Num 0; Page.dependents := TS.Num 2;
              Page.period := "annual"; Page.salaryMode := "net";
              Page.insuranceEnabled := false |}); reflexivity.
Defined.

(* ================================================================== *)
(** ** The wizard of the command-line program *)

Lemma Go_solver_strict (t : Q) (d : Z) :
  0 < t -> (0 <= d)%Z -> t < Go.solveGrossFromNet t d true.
Proof.
  intros Ht Hd. unfold Go.solveGrossFromNet. rewrite for_range_iter.
  rewrite (iter_ext 20 _ _ t (Go_solve_body_correct t d true)).
  change 20%nat with (S 19). rewrite Nat.iter_succ_r.
  set (f := correct Go.clampInsuranceBase (total_of Go.TaxBrackets) t d true).
  assert (Ht' : 0 <= t) by lra.
  pose proof (initial_residual _ _ Go_clamp_off Go_clamp_hi Go_clamp_lo
                Go_total_slope Go_total_zero t d true Hd Ht') as (R0 & _).
  pose proof (correct_residual _ _ Go_clamp_off Go_clamp_hi Go_clamp_lo
                Go_total_slope Go_total_low t d true Hd t R0) as (_ & R1 & _).
  pose proof (iter_residual _ _ Go_clamp_off Go_clamp_hi Go_clamp_lo
                Go_total_slope Go_total_low t d true Hd 19%nat _ R1)
    as (R2 & _).
  fold f in R2.
  apply Qlt_le_trans with (f t); [|exact R2].
  unfold f, correct. clear R0 R1 R2 f.
  unfold net_of. cbv zeta.
  set (taxable := max 0 _).
  pose proof (total_of_nonneg 0.35 Go.TaxBrackets taxable ltac:(lra)
                Go_brackets_ok) as HT.
  pose proof sumRates_employee as Hs.
  assert (Hc : 0 < Go.clampInsuranceBase t true).
  { destruct (Qlt_le_dec t InsuranceCap) as [H|H].
    - rewrite Go_clamp_lo by lra. exact Ht.
    - rewrite Go_clamp_hi by exact H. reflexivity. }
  set (c := Go.clampInsuranceBase t true) in *.
  assert (Hi : c * sumRates EmployeeInsurance == 0.105 * c)
    by (rewrite Hs; ring).
  set (ins := c * sumRates EmployeeInsurance) in *.
  set (T := total_of Go.TaxBrackets taxable) in *.
  lra.
Qed.

Lemma index_le (s : Wizard.step) : (Wizard.index s <= 5)%nat.
Proof. destruct s; simpl; lia. Qed.

Section WizardFacts.

Context {E : Wizard.Env}.

Variable input_Update :
  Wizard.textinput -> Wizard.Msg -> Wizard.textinput * option Wizard.inputCmd.

Local Abbreviation Update := (Wizard.Update input_Update).
Local Abbreviation run := (Wizard.run input_Update).

Lemma Update_step (m : Wizard.model) (msg : Wizard.Msg) :
  let m' := fst (fst (Update m msg)) in
  Wizard.index (Wizard.step_ m') =
  Nat.min 5 (Wizard.index (Wizard.step_ m) + if is_enter msg then 1 else 0) /\
  settled (Wizard.step_ m) m m'.
Proof.
  unfold Wizard.Update, settled.
  destruct msg as [key|o]; cbn [is_enter].
  - destruct (String.eqb key "ctrl+c") eqn:E1.
    { apply String.eqb_eq in E1. subst key. simpl.
      split; [destruct (Wizard.step_ m); reflexivity | tauto]. }
    destruct (String.eqb key "q") eqn:E2.
    { apply String.eqb_eq in E2. subst key. simpl.
      split; [destruct (Wizard.step_ m); reflexivity | tauto]. }
    destruct (String.eqb key "up") eqn:E3.
    { apply String.eqb_eq in E3. subst key. simpl.
      unfold Wizard.toggle.
      destruct (Wizard.step_ m) eqn:Es; simpl; rewrite ?Es; simpl;
        (split; [reflexivity | repeat split; intros; try reflexivity; lia]). }
    destruct (String.eqb key "down") eqn:E4.
    { apply String.eqb_eq in E4. subst key. simpl.
      unfold Wizard.toggle.
      destruct (Wizard.step_ m) eqn:Es; simpl; rewrite ?Es; simpl;
        (split; [reflexivity | repeat split; intros; try reflexivity; lia]). }
    cbn [orb].
    destruct (String.eqb key "enter") eqn:E5.
    { unfold Wizard.next.
      destruct (Wizard.step_ m) eqn:Es; simpl; rewrite ?Es; simpl;
        (split; [reflexivity | repeat split; intros; try reflexivity; lia]). }
    destruct (Wizard.step_ m) eqn:Es; simpl; rewrite ?Es; simpl;
      try destruct (input_Update _ _); simpl; rewrite ?Es;
      (split; [reflexivity | repeat split; intros; try reflexivity; lia]).
  - destruct (Wizard.step_ m) eqn:Es; simpl; rewrite ?Es; simpl;
      try destruct (input_Update _ _); simpl; rewrite ?Es;
      (split; [reflexivity | repeat split; intros; try reflexivity; lia]).
Qed.

Lemma settled_trans (s s' : Wizard.step) (m m' m'' : Wizard.model) :
  (Wizard.index s <= Wizard.index s')%nat ->
  settled s m m' -> settled s' m' m'' -> settled s m m''.
Proof.
  unfold settled. intros Hs (A1 & A2 & A3 & A4 & A5) (B1 & B2 & B3 & B4 & B5).
  repeat split; intros H;
    [ rewrite B1, A1 | rewrite B2, A2 | rewrite B3, A3 | rewrite B4, A4
    | rewrite B5, A5 ]; (reflexivity || lia).
Qed.

Lemma run_step (msgs : list Wizard.Msg) :
  forall m : Wizard.model,
    Wizard.index (Wizard.step_ (run m msgs)) =
    Nat.min 5 (Wizard.index (Wizard.step_ m)
               + List.length (filter is_enter msgs)) /\
    settled (Wizard.step_ m) m (run m msgs).
Proof.
  induction msgs as [|msg msgs IH]; intros m.
  - simpl. split.
    + destruct (Wizard.step_ m); reflexivity.
    + unfold settled. tauto.
  - unfold Wizard.run. cbn [fold_left].
    destruct (Update_step m msg) as (S1 & S2). cbv zeta in S1, S2.
    set (m1 := fst (fst (Update m msg))) in *.
    destruct (IH m1) as (I1 & I2). unfold Wizard.run in I1, I2.
    split.
    + rewrite I1, S1. cbn [filter].
      destruct (is_enter msg); cbn [List.length];
        generalize (Wizard.index (Wizard.step_ m))
                   (List.length (filter is_enter msgs));
        clear; intros a n; lia.
    + apply settled_trans with (Wizard.step_ m1) m1;
        [|exact S2 | exact I2].
      pose proof (index_le (Wizard.step_ m)) as L.
      destruct (is_enter msg); lia.
Qed.

Lemma run_app (m : Wizard.model) (a b : list Wizard.Msg) :
  run m (a ++ b) = run (run m a) b.
Proof. unfold Wizard.run. apply fold_left_app. Qed.

Lemma Update_plain (m : Wizard.model) (msg : Wizard.Msg) :
  is_plain msg = true ->
  fst (fst (Update m msg)) =
  match Wizard.step_ m with
  | Wizard.stepIncome | Wizard.stepDependents =>
      with_input m (fst (input_Update (Wizard.input m) msg))
  | _ => m
  end.
Proof.
  unfold Wizard.Update, with_input. destruct msg as [key|o]; cbn [is_plain].
  - rewrite negb_true_iff, !orb_false_iff.
    intros ((((-> & ->) & ->) & ->) & ->). cbn [orb].
    destruct (Wizard.step_ m); try reflexivity;
      now destruct (input_Update _ _).
  - intros _.
    destruct (Wizard.step_ m); try reflexivity;
      now destruct (input_Update _ _).
Qed.

Lemma run_plain (ks : list Wizard.Msg) :
  forall m : Wizard.model,
    Forall (fun k => is_plain k = true) ks ->
    Wizard.step_ m = Wizard.stepIncome \/
    Wizard.step_ m = Wizard.stepDependents ->
    run m ks = with_input m (typed input_Update ks (Wizard.input m)).
Proof.
  induction ks as [|k ks IH]; intros m Hks Hm.
  - now destruct m.
  - inversion Hks as [|? ? Hk Hks']; subst.
    unfold Wizard.run, typed. cbn [fold_left].
    rewrite (Update_plain m k Hk).
    assert (Em : match Wizard.step_ m with
                 | Wizard.stepIncome | Wizard.stepDependents =>
                     with_input m (fst (input_Update (Wizard.input m) k))
                 | _ => m
                 end = with_input m (fst (input_Update (Wizard.input m) k)))
      by (destruct Hm as [-> | ->]; reflexivity).
    rewrite Em. clear Em.
    specialize (IH (with_input m (fst (input_Update (Wizard.input m) k)))
                  Hks' Hm).
    unfold Wizard.run, typed in IH. rewrite IH. reflexivity.
Qed.

(** The wizard goes forward only: a step is never followed by an earlier
    one, and an answer whose step has passed is not changed by any later
    message.  On the result screen the five answers are final. *)
Theorem X_wizard_answers_are_final (m : Wizard.model)
    (msgs : list Wizard.Msg) :
  let m' := run m msgs in
  (Wizard.index (Wizard.step_ m) <= Wizard.index (Wizard.step_ m'))%nat /\
  (1 <= Wizard.index (Wizard.step_ m) ->
   Wizard.mode m' = Wizard.mode m)%nat /\
  (2 <= Wizard.index (Wizard.step_ m) ->
   Wizard.period m' = Wizard.period m)%nat /\
  (3 <= Wizard.index (Wizard.step_ m) ->
   Wizard.income m' = Wizard.income m)%nat /\
  (4 <= Wizard.index (Wizard.step_ m) ->
   Wizard.dependents m' = Wizard.dependents m)%nat /\
  (Wizard.step_ m = Wizard.stepResult ->
   Wizard.step_ m' = Wizard.stepResult /\
   Wizard.answers m' = Wizard.answers m).
Proof.
  cbv zeta. destruct (run_step msgs m) as (S1 & A1 & A2 & A3 & A4 & A5).
  pose proof (index_le (Wizard.step_ m)) as L.
  split; [lia|]. split; [exact A1|]. split; [exact A2|].
  split; [exact A3|]. split; [exact A4|].
  intros Hs. rewrite Hs in *. cbn [Wizard.index] in *. split.
  - destruct (Wizard.step_ (run m msgs)); cbn [Wizard.index] in S1;
      (reflexivity || lia).
  - unfold Wizard.answers.
    rewrite A1, A2, A3, A4, A5 by lia. reflexivity.
Qed.

(** Only the enter key moves the wizard on, one step at a time, and the
    result screen is the last step: after any messages from the start the
    wizard is at the step whose number is the number of enter presses, or
    at the result screen after five or more. *)
Theorem X_wizard_step_counts_enter (m : Wizard.model)
    (msgs : list Wizard.Msg) :
  Wizard.index (Wizard.step_ (run m msgs)) =
  Nat.min 5 (Wizard.index (Wizard.step_ m)
             + List.length (filter is_enter msgs)) /\
  Wizard.index (Wizard.step_ (run Wizard.initialModel msgs)) =
  Nat.min 5 (List.length (filter is_enter msgs)).
Proof.
  split.
  - apply run_step.
  - destruct (run_step msgs Wizard.initialModel) as (S1 & _). exact S1.
Qed.

(** An arrow key changes only the choice of the current step: pressing
    one twice restores the model, up and down do the same, and on the
    steps where a number is typed or the result is shown an arrow key
    changes nothing, the text input included. *)
Theorem X_wizard_arrows (m : Wizard.model) :
  run m [Wizard.KeyMsg "up"; Wizard.KeyMsg "down"] = m /\
  Update m (Wizard.KeyMsg "up") = Update m (Wizard.KeyMsg "down") /\
  Wizard.step_ (run m [Wizard.KeyMsg "up"]) = Wizard.step_ m /\
  Wizard.income (run m [Wizard.KeyMsg "up"]) = Wizard.income m /\
  Wizard.dependents (run m [Wizard.KeyMsg "up"]) = Wizard.dependents m /\
  Wizard.input (run m [Wizard.KeyMsg "up"]) = Wizard.input m /\
  (Wizard.step_ m = Wizard.stepIncome \/
   Wizard.step_ m = Wizard.stepDependents \/
   Wizard.step_ m = Wizard.stepResult ->
   run m [Wizard.KeyMsg "up"] = m).
Proof.
  unfold Wizard.run, Wizard.Update, Wizard.toggle. destruct m as [s mo p i d n ti].
  cbn. repeat split.
  - destruct s; cbn; try reflexivity;
      [now destruct mo | now destruct p | now destruct n].
  - now destruct s.
  - now destruct s.
  - now destruct s.
  - now destruct s.
  - intros [-> | [-> | ->]]; reflexivity.
Qed.

(** When the wizard quits and when it writes the file.  It quits on
    [ctrl+c] and on [q] at every step, also while a number is being typed,
    and on enter at the result screen, and on nothing else.  It writes
    only on enter at the result screen: one record, ["Gross"] and the
    income that was entered, to [pit-vietnam.csv]. *)
Theorem X_wizard_quit_and_export (m : Wizard.model) (msg : Wizard.Msg) :
  (snd (fst (Update m msg)) = Wizard.CmdQuit <->
   msg = Wizard.KeyMsg "ctrl+c" \/ msg = Wizard.KeyMsg "q" \/
   (msg = Wizard.KeyMsg "enter" /\ Wizard.step_ m = Wizard.stepResult)) /\
  (forall w : Wizard.Written,
     snd (Update m msg) = Some w <->
     msg = Wizard.KeyMsg "enter" /\ Wizard.step_ m = Wizard.stepResult /\
     w = {| Wizard.file := "pit-vietnam.csv";
            Wizard.records :=
              [["Gross"%string; Wizard.Sprintf_0f (Wizard.income m)]] |}).
Proof.
  assert (P : forall msg',
    (forall key, msg' = Wizard.KeyMsg key ->
       key <> "ctrl+c"%string /\ key <> "q"%string /\ key <> "enter"%string) ->
    let pass :=
      match Wizard.step_ m with
      | Wizard.stepIncome | Wizard.stepDependents =>
          let '(ti, cmd) := input_Update (Wizard.input m) msg' in
          (with_input m ti,
           match cmd with
           | Some c => Wizard.CmdInput c
           | None => Wizard.CmdNil
           end, @None Wizard.Written)
      | _ => (m, Wizard.CmdNil, None)
      end in
    (snd (fst pass) = Wizard.CmdQuit <->
     msg' = Wizard.KeyMsg "ctrl+c" \/ msg' = Wizard.KeyMsg "q" \/
     (msg' = Wizard.KeyMsg "enter" /\ Wizard.step_ m = Wizard.stepResult)) /\
    (forall w : Wizard.Written,
       snd pass = Some w <->
       msg' = Wizard.KeyMsg "enter" /\ Wizard.step_ m = Wizard.stepResult /\
       w = {| Wizard.file := "pit-vietnam.csv";
              Wizard.records :=
                [["Gross"%string; Wizard.Sprintf_0f (Wizard.income m)]] |})).
  { intros msg' Hk. cbv zeta.
    assert (N : forall key, msg' = Wizard.KeyMsg key ->
                  (key = "ctrl+c" \/ key = "q" \/ key = "enter")%string ->
                  False).
    { intros key Hm [-> | [-> | ->]]; destruct (Hk _ Hm) as (? & ? & ?);
        congruence. }
    assert (Q : forall (x : Wizard.model * Wizard.Cmd * option Wizard.Written),
              snd (fst x) <> Wizard.CmdQuit -> snd x = None ->
              (snd (fst x) = Wizard.CmdQuit <->
               msg' = Wizard.KeyMsg "ctrl+c" \/ msg' = Wizard.KeyMsg "q" \/
               (msg' = Wizard.KeyMsg "enter" /\
                Wizard.step_ m = Wizard.stepResult)) /\
              (forall w : Wizard.Written,
                 snd x = Some w <->
                 msg' = Wizard.KeyMsg "enter" /\
                 Wizard.step_ m = Wizard.stepResult /\
                 w = {| Wizard.file := "pit-vietnam.csv";
                        Wizard.records :=
                          [["Gross"%string;
                            Wizard.Sprintf_0f (Wizard.income m)]] |})).
    { intros x H1 H2. split.
      - split; [intros H; contradiction|].
        intros [H | [H | (H & _)]]; exfalso; eapply N; eauto.
      - intros w. rewrite H2. split; [discriminate|].
        intros (H & _). exfalso; eapply N; eauto. }
    destruct (Wizard.step_ m); try (apply Q; [discriminate | reflexivity]);
      destruct (input_Update _ _) as [ti [c|]];
      (apply Q; [discriminate | reflexivity]). }
  unfold Wizard.Update. destruct msg as [key|o].
  2:{ apply (P (Wizard.Other o)). intros key [=]. }
  destruct (String.eqb key "ctrl+c") eqn:E1.
  { apply String.eqb_eq in E1. subst key. cbn. split.
    - split; [intros _; now left | reflexivity].
    - intros w. split; [discriminate | intros ([=] & _)]. }
  destruct (String.eqb key "q") eqn:E2.
  { apply String.eqb_eq in E2. subst key. cbn. split.
    - split; [intros _; right; now left | reflexivity].
    - intros w. split; [discriminate | intros ([=] & _)]. }
  destruct (String.eqb key "up") eqn:E3.
  { apply String.eqb_eq in E3. subst key. cbn. split.
    - split; [discriminate | intros [[=] | [[=] | ([=] & _)]]].
    - intros w. split; [discriminate | intros ([=] & _)]. }
  destruct (String.eqb key "down") eqn:E4.
  { apply String.eqb_eq in E4. subst key. cbn. split.
    - split; [discriminate | intros [[=] | [[=] | ([=] & _)]]].
    - intros w. split; [discriminate | intros ([=] & _)]. }
  cbn [orb].
  destruct (String.eqb key "enter") eqn:E5.
  { apply String.eqb_eq in E5. subst key. unfold Wizard.next, Wizard.exportCSV.
    destruct (Wizard.step_ m); cbn; split;
      try (split; [discriminate | intros [[=] | [[=] | (_ & [=])]]]);
      try (intros w; split; [discriminate | intros (_ & [=] & _)]).
    - split; [intros _; right; right; now split | reflexivity].
    - intros w. split.
      + intros [= <-]. now repeat split.
      + intros (_ & _ & ->). reflexivity. }
  apply String.eqb_neq in E1, E2, E5.
  apply (P (Wizard.KeyMsg key)). intros k [= <-]. now repeat split.
Qed.

(** A whole session.  From the start: at most one arrow press and enter
    for the mode, the same for the period, the keys of the income and
    enter, the keys of the dependents and enter, at most one arrow press
    and enter for the insurance.  The wizard is then at the result screen
    with the choices made and with the numbers read from what the text
    input held when enter was pressed.  The text input handled exactly the
    keys in between: those of the income after it was emptied at the
    income step, those of the dependents after it was emptied again. *)
Theorem X_wizard_collects_answers (a b c : bool)
    (ks1 ks2 : list Wizard.Msg) :
  Forall (fun k => is_plain k = true) ks1 ->
  Forall (fun k => is_plain k = true) ks2 ->
  let enter := [Wizard.KeyMsg "enter"] in
  let ti0 :=
    Wizard.SetValue ""
      (Wizard.setPlaceholder "Thu nhập (VND)"
         (Wizard.setCharLimit 20 (Wizard.Focus Wizard.New))) in
  let ti1 := typed input_Update ks1 ti0 in
  let ti2 :=
    Wizard.SetValue "" (Wizard.setPlaceholder "Số người phụ thuộc" ti1) in
  let ti3 := typed input_Update ks2 ti2 in
  let m :=
    run Wizard.initialModel
      (arrow a ++ enter ++ arrow b ++ enter ++ ks1 ++ enter ++ ks2 ++ enter
       ++ arrow c ++ enter) in
  Wizard.step_ m = Wizard.stepResult /\
  Wizard.answers m =
  {| Go.mode := if a then Net else Gross;
     Go.period := if b then Annual else Monthly;
     Go.income := Wizard.ParseFloat (Wizard.Value ti1);
     Go.dependents := Wizard.Atoi (Wizard.Value ti3);
     Go.insurance := negb c |}.
Proof.
  intros H1 H2. cbv zeta.
  rewrite !run_app.
  set (m2 := run (run (run (run Wizard.initialModel (arrow a))
                         [Wizard.KeyMsg "enter"]) (arrow b))
               [Wizard.KeyMsg "enter"]).
  assert (E2 : m2 =
    {| Wizard.step_ := Wizard.stepIncome;
       Wizard.mode := if a then Net else Gross;
       Wizard.period := if b then Annual else Monthly;
       Wizard.income := 0; Wizard.dependents := 0%Z;
       Wizard.insurance := true;
       Wizard.input :=
         Wizard.SetValue ""
           (Wizard.setPlaceholder "Thu nhập (VND)"
              (Wizard.setCharLimit 20 (Wizard.Focus Wizard.New))) |})
    by (unfold m2; destruct a, b; reflexivity).
  rewrite E2. clear m2 E2.
  rewrite (run_plain ks1) by (assumption || (left; reflexivity)).
  unfold with_input. cbn [Wizard.step_ Wizard.mode Wizard.period Wizard.income
    Wizard.dependents Wizard.insurance Wizard.input].
  set (ti1 := typed input_Update ks1 _).
  set (m3 := run {| Wizard.step_ := Wizard.stepIncome; Wizard.mode := _;
                    Wizard.period := _; Wizard.income := _;
                    Wizard.dependents := _; Wizard.insurance := _;
                    Wizard.input := _ |} _).
  assert (E3 : m3 =
    {| Wizard.step_ := Wizard.stepDependents;
       Wizard.mode := if a then Net else Gross;
       Wizard.period := if b then Annual else Monthly;
       Wizard.income := Wizard.ParseFloat (Wizard.Value ti1);
       Wizard.dependents := 0%Z;
       Wizard.insurance := true;
       Wizard.input :=
         Wizard.SetValue ""
           (Wizard.setPlaceholder "Số người phụ thuộc" ti1) |})
    by reflexivity.
  rewrite E3. clear m3 E3.
  rewrite (run_plain ks2) by (assumption || (right; reflexivity)).
  unfold with_input. cbn [Wizard.step_ Wizard.mode Wizard.period Wizard.income
    Wizard.dependents Wizard.insurance Wizard.input].
  set (ti3 := typed input_Update ks2 _).
  destruct c; split; reflexivity.
Qed.


End WizardFacts.

Lemma X_wizard_answers_are_final_witness :
  let m :=
    decimal_model Wizard.stepResult Net Monthly 17000000 1 true "1"%string in
  let msgs := decimal_keys ["down"; "7"; "enter"]%string in
  Wizard.step_ m = Wizard.stepResult /\
  Wizard.step_ (decimal_run m msgs) = Wizard.stepResult /\
  Wizard.answers (decimal_run m msgs) = Wizard.answers m.
Proof.
  cbv zeta. split; [reflexivity|].
  apply (X_wizard_answers_are_final (E := decimal_env) decimal_input_Update
           (decimal_model Wizard.stepResult Net Monthly 17000000 1 true
              "1"%string)
           (decimal_keys ["down"; "7"; "enter"]%string)).
  reflexivity.
Defined.

Lemma X_wizard_arrows_witness :
  let m :=
    decimal_model Wizard.stepIncome Gross Monthly 0 0 true "25"%string in
  (Wizard.step_ m = Wizard.stepIncome \/
   Wizard.step_ m = Wizard.stepDependents \/
   Wizard.step_ m = Wizard.stepResult) /\
  decimal_run m (decimal_keys ["up"%string]) = m.
Proof.
  cbv zeta. split; [left; reflexivity|].
  apply (X_wizard_arrows (E := decimal_env) decimal_input_Update
           (decimal_model Wizard.stepIncome Gross Monthly 0 0 true
              "25"%string)).
  left; reflexivity.
Defined.

Lemma X_wizard_quit_and_export_witness :
  let m :=
    decimal_model Wizard.stepIncome Gross Monthly 0 0 true "25"%string in
  snd (fst (decimal_Update m (Wizard.KeyMsg (E := decimal_env) "q")))
  = Wizard.CmdQuit.
Proof.
  cbv zeta.
  apply (proj1 (X_wizard_quit_and_export (E := decimal_env)
                  decimal_input_Update
                  (decimal_model Wizard.stepIncome Gross Monthly 0 0 true
                     "25"%string)
                  (Wizard.KeyMsg (E := decimal_env) "q"))).
  right; left; reflexivity.
Defined.

Lemma X_wizard_collects_answers_witness :
  let m :=
    decimal_run Wizard.initialModel
      (decimal_keys
         ["down"; "enter"; "enter"; "1"; "7"; "0"; "0"; "0"; "0"; "0"; "0";
          "enter"; "2"; "enter"; "enter"]%string) in
  Wizard.step_ m = Wizard.stepResult /\
  Wizard.answers m =
  {| Go.mode := Net; Go.period := Monthly; Go.income := 17000000;
     Go.dependents := 2; Go.insurance := true |}.
Proof.
  cbv zeta.
  apply (X_wizard_collects_answers (E := decimal_env) decimal_input_Update
           true false false
           (decimal_keys ["1"; "7"; "0"; "0"; "0"; "0"; "0"; "0"]%string)
           (decimal_keys ["2"%string]));
    repeat constructor.
Defined.


(* ================================================================== *)
(** ** The worked scenarios of the specification *)

(** Scenario 1: a gross salary of 20,000,000, no dependents, insurance
    enabled. *)
Example scenario_1 :
  let r := Go.result_of_gross 20000000 0 true in
  Go.empIns r == 2100000 /\ Go.deductions r == 13100000 /\
  Go.taxable_income r == 6900000 /\
  map (fun ln => (Qred (rate ln), Qred (taxable ln), Qred (tax ln)))
      (Go.breakdown r)
  = [(Qred 0.05, 5000000, 250000); (Qred 0.10, 1900000, 190000)] /\
  Go.total_tax r == 440000 /\ Go.net r == 17460000.
Proof. vm_compute. repeat split; reflexivity. Qed.

(** Scenario 3: a gross salary of 50,000,000, two dependents, insurance
    disabled. *)
Example scenario_3 :
  let r := TS.data_of_gross 50000000 2 false in
  TS.insuranceBase r == 0 /\ TS.employeeInsurance r == 0 /\
  TS.totalDeductions r == 19800000 /\ TS.taxableIncome r == 30200000 /\
  sum_taxable (TS.breakdown r) == 30200000 /\
  TS.totalTax r == sum_tax (TS.breakdown r) /\
  TS.totalTax r == 4390000.
Proof. vm_compute. repeat split; reflexivity. Qed.

(* ================================================================== *)
(** ** Under the machine arithmetic *)

(** The concrete inputs used above, run on binary64 floats.  For the Go
    program the statements cover every order in which the rate map can be
    traversed. *)

Import PrimFloat.

(** Scenario 1 comes out exactly. *)
Example binary64_scenario_1 :
  Binary64.TS.netMonthly 20000000 0 true = 17460000%float /\
  forallb (fun rates => eqb (Binary64.Go.net rates 20000000 0 true) 17460000)
          Binary64.rate_orders = true.
Proof. vm_compute. split; reflexivity. Qed.

(** C1: at a taxable income of [3e18] the Go loop ends with more than [1e18]
    left in [remain]; the TypeScript loop ends with [remaining] at [0]. *)
Example binary64_go_last_bracket_is_finite :
  ltb 1e18 (snd (fst (Binary64.Go.calculateTax_state 3e18))) = true /\
  eqb (snd (fst (Binary64.TS.calculateTaxBreakdown_state 3e18))) 0 = true.
Proof. vm_compute. split; reflexivity. Qed.

(** C2: for a target of 4,000,000,000 the net salary of the solved gross
    salary is more than 1 below the target, for 10,000,000,000 more than 2
    below it. *)
Example binary64_round_trip_beyond_range :
  ltb (Binary64.TS.netMonthly
         (Binary64.TS.solveGrossFromNet 4000000000 0 true) 0 true)
      (4000000000 - 1) = true /\
  forallb (fun rates =>
             ltb (Binary64.Go.net rates
                    (Binary64.Go.solveGrossFromNet rates 4000000000 0 true)
                    0 true)
                 (4000000000 - 1))
          Binary64.rate_orders = true /\
  ltb (Binary64.TS.netMonthly
         (Binary64.TS.solveGrossFromNet 10000000000 0 true) 0 true)
      (10000000000 - 2) = true /\
  forallb (fun rates =>
             ltb (Binary64.Go.net rates
                    (Binary64.Go.solveGrossFromNet rates 10000000000 0 true)
                    0 true)
                 (10000000000 - 2))
          Binary64.rate_orders = true.
Proof. vm_compute. repeat split; reflexivity. Qed.

(** C3: the Go solver returns the negative target, the TypeScript solver
    [0]. *)
Example binary64_go_solver_returns_negative :
  forallb (fun rates =>
             eqb (Binary64.Go.solveGrossFromNet rates (-1000000) 0 false)
                 (-1000000))
          Binary64.rate_orders = true /\
  eqb (Binary64.TS.solveGrossFromNet (-1000000) 0 false) 0 = true.
Proof. vm_compute. split; reflexivity. Qed.

(** C5: for an annual net income of 240,000,000 the gross salary solved
    from the monthly target is about 23,153,321; the browser form computes
    from about 29,327,821 and the wizard from about 351,933,846. *)
Example binary64_net_annual_not_normalised_first :
  let solved_monthly :=
    Binary64.TS.solveGrossFromNet
      (Binary64.toMonthly 240000000 Annual) 0 true in
  (ltb 23153320 solved_monthly && ltb solved_monthly 23153322 = true)%bool /\
  (let g := Binary64.TS.grossMonthly_of Net Annual 240000000 0 true in
   ltb 29327820 g && ltb g 29327822 = true)%bool /\
  forallb (fun rates =>
             let g := Binary64.Go.gross_of rates Net Annual 240000000 0 true in
             ltb 351933845 g && ltb g 351933847)%bool
          Binary64.rate_orders = true.
Proof. vm_compute. repeat split; reflexivity. Qed.

(** C4, as stated, fails under the machine arithmetic: 25000000.000000123
    and 25000000.000000127 are adjacent binary64 numbers, and the net salary
    computed from the larger one (no dependents, insurance enabled) is the
    smaller, 21418750.000000093 against 21418750.000000097 -- in the browser
    form and, for every order of the rate map, in the wizard.  In exact
    arithmetic the net salary never falls when the gross salary rises
    ([Go_net_mono], [TS_net_mono]); rounding [gross * 0.105] and
    the two subtractions of [gross - insurance - tax] moves each computed
    amount by up to half a unit in its last place, which is enough to invert
    two gross salaries one unit in the last place apart. *)
Lemma C4_binary64_rounding_counterexample :
  ltb 0 25000000.000000123 = true /\
  ltb 25000000.000000123 25000000.000000127 = true /\
  eqb (next_up 25000000.000000123) 25000000.000000127 = true /\
  ltb (Binary64.TS.netMonthly 25000000.000000127 0 true)
      (Binary64.TS.netMonthly 25000000.000000123 0 true) = true /\
  forallb (fun rates =>
             ltb (Binary64.Go.net rates 25000000.000000127 0 true)
                 (Binary64.Go.net rates 25000000.000000123 0 true))
          Binary64.rate_orders = true.
Proof. vm_compute. repeat split; reflexivity. Qed.

(** The order in which Go ranges over the employee's rates shows in the
    last place of their sum: four of the six orders give 0.105, the two
    that end with BHXH give 0.10500000000000001, and with them the
    employee's insurance on the capped base is above 3,780,000. *)
Example binary64_rate_order :
  map (fun rates => eqb (Binary64.sumRates rates) 0.105)
      Binary64.rate_orders
  = [true; true; true; false; true; false] /\
  map (fun rates =>
         ltb 3780000
             (Binary64.Go.clampInsuranceBase 50000000 true
              * Binary64.sumRates rates))
      Binary64.rate_orders
  = [false; false; false; true; false; true].
Proof. vm_compute. split; reflexivity. Qed.

(** Amounts that are not finite numbers.  A gross salary of [-Infinity]
    with the insurance enabled gives a net salary of [NaN] in both
    programs, and for a target of [-Infinity] both solvers return [NaN]. *)
Example binary64_non_finite_amounts :
  is_nan (Binary64.TS.netMonthly neg_infinity 0 true) = true /\
  forallb (fun rates => is_nan (Binary64.Go.net rates neg_infinity 0 true))
          Binary64.rate_orders = true /\
  is_nan (Binary64.TS.solveGrossFromNet neg_infinity 0 false) = true /\
  forallb (fun rates =>
             is_nan (Binary64.Go.solveGrossFromNet rates neg_infinity 0 false))
          Binary64.rate_orders = true.
Proof. vm_compute. repeat split; reflexivity. Qed.

(** For targets of 17,000,000 and of [1e33] the Go solver returns more
    than the target.  For a target of [1e34] the corrections are below half
    a unit in the last place of the guess, and for the smallest positive
    number, [5e-324], the insurance rounds to [0]: the solver returns the
    target itself. *)
Example binary64_solver_absorbs_correction :
  forallb (fun rates =>
             ltb 17000000 (Binary64.Go.solveGrossFromNet rates 17000000 1 true))
          Binary64.rate_orders = true /\
  forallb (fun rates =>
             ltb 1e33 (Binary64.Go.solveGrossFromNet rates 1e33 0 true))
          Binary64.rate_orders = true /\
  forallb (fun rates =>
             eqb (Binary64.Go.solveGrossFromNet rates 1e34 0 true) 1e34)
          Binary64.rate_orders = true /\
  ltb 0 5e-324 = true /\
  forallb (fun rates =>
             eqb (Binary64.Go.solveGrossFromNet rates 5e-324 0 true) 5e-324)
          Binary64.rate_orders = true.
Proof. vm_compute. repeat split; reflexivity. Qed.

(** C9, as stated, fails under the machine arithmetic.  1.5e308 is a
    finite, positive binary64 number.  Entered as a monthly net income in
    the browser form (no dependents, insurance enabled), the first
    correction of the solver adds about 5.25e307 of tax to the guess, which
    overflows to [Infinity]; the next pass computes a net salary of
    [Infinity - Infinity], and from there on the guess is [NaN].
    [grossMonthly] and [netMonthly] are [NaN], and [NaN] is not [>= 0].  In
    exact arithmetic every amount is non-negative. *)
Lemma C9_binary64_overflow_counterexample :
  ltb 0 1.5e308 = true /\
  is_finite 1.5e308 = true /\
  is_nan (Binary64.TS.solveGrossFromNet 1.5e308 0 true) = true /\
  is_nan (Binary64.TS.grossMonthly_of Net Monthly 1.5e308 0 true) = true /\
  leb 0 (Binary64.TS.grossMonthly_of Net Monthly 1.5e308 0 true) = false /\
  is_nan (Binary64.TS.netMonthly
            (Binary64.TS.grossMonthly_of Net Monthly 1.5e308 0 true) 0 true)
  = true /\
  leb 0 (Binary64.TS.netMonthly
           (Binary64.TS.grossMonthly_of Net Monthly 1.5e308 0 true) 0 true)
  = false.
Proof. vm_compute. repeat split; reflexivity. Qed.

(** C10, as stated, fails for the binary64 value [NaN], which is a
    [float64] that [calculateTax] can be given: [NaN <= 0] is false, so the
    loop never breaks, and [min] returns its second argument when the
    comparison is false, so each of the 7 brackets adds a line whose
    taxable amount is [NaN] -- not strictly positive.  [NaN] reaches
    [calculateTax] from a gross salary of [NaN], because [max 0] of [NaN]
    is [NaN].  For a taxable income that is a number the lines take
    strictly positive amounts. *)
Lemma C10_binary64_nan_counterexample :
  List.length (fst (fst (Binary64.Go.calculateTax_state nan))) = 7%nat /\
  forallb (fun ln => is_nan (Binary64.taxable ln))
          (fst (fst (Binary64.Go.calculateTax_state nan))) = true /\
  existsb (fun ln => ltb 0 (Binary64.taxable ln))
          (fst (fst (Binary64.Go.calculateTax_state nan))) = false /\
  is_nan (Binary64.max 0 (nan - Binary64.PersonalDeduction)) = true.
Proof. vm_compute. repeat split; reflexivity. Qed.
